(** * Content-moderation job pipeline: worker and ingestion server

    A shallow embedding of the moderation worker and of the ingestion
    endpoint [POST /api/posts], in the two storage variants the repository
    carries: the JSON file store ([worker.js], Perspective revision, with
    its server) and MongoDB (worker and server).

    - A post is a record with the fields of the stored document; a field
      that can be [null] or missing is an [option].  Request fields and the
      content of a stored post are strings; a delivered message may be
      unparsable or carry a content that is no string.
    - JavaScript numbers are binary64 floats ([PrimFloat.float]); elapsed
      times and timestamps are integers (milliseconds).
    - Strings are [String.string], holding the UTF-8 bytes of the
      JavaScript string.  [toLowerCase] lowers the letters A-Z, U+212A
      (to 'k') and U+0130 (to 'i' and a combining dot): no other character
      has an ASCII character in its lower case, and the keywords searched
      for are ASCII.
    - Effects (the store, the console, the queue, the scoring service) are
      threaded through a small state-and-exception monad [M].  What the
      outside world decides (an I/O call failing, the scoring response, the
      clock, the generated uuid) is an explicit argument of the operation.
    - Each operation runs on the store as one step; interleavings of
      several processes on the same store are not part of the model. *)

From Stdlib Require Import ZArith Bool List String Ascii Lia.
From Stdlib Require Import Floats.
Import ListNotations.
Set Warnings "-inexact-float".

(** ** Host-language helpers *)

Module JS.

(** [if (s)] on a string-or-null value: null, undefined and the empty
    string are falsy. *)
Definition truthyStr (o : option string) : bool :=
  match o with
  | Some s => negb (String.eqb s EmptyString)
  | None => false
  end.

(** [if (n)] on a number-or-null value: null and 0 are falsy. *)
Definition truthyNum (o : option Z) : bool :=
  match o with
  | Some z => negb (Z.eqb z 0)
  | None => false
  end.

(** [a || d] on strings. *)
Definition orDefault (o : option string) (d : string) : string :=
  match o with
  | Some s => if String.eqb s EmptyString then d else s
  | None => d
  end.

Definition lowerChar (c : ascii) : ascii :=
  let n := nat_of_ascii c in
  if (65 <=? n)%nat && (n <=? 90)%nat then ascii_of_nat (n + 32) else c.

(** U+212A KELVIN SIGN, bytes E2 84 AA: its lower case is 'k'. *)
Definition isKelvin (a b c : ascii) : bool :=
  Ascii.eqb a "226" && Ascii.eqb b "132" && Ascii.eqb c "170".

(** U+0130 LATIN CAPITAL LETTER I WITH DOT ABOVE, bytes C4 B0: its lower
    case is 'i' followed by U+0307 (bytes CC 87). *)
Definition isDottedI (a b : ascii) : bool :=
  Ascii.eqb a "196" && Ascii.eqb b "176".

(** [s.toLowerCase()] on the UTF-8 bytes of [s], as far as ASCII output
    goes: the letters A-Z and the two characters above are the only ones
    whose lower case holds an ASCII character.  Any other character is
    left as it is, where the host may give another non-ASCII character. *)
Fixpoint toLowerCase (s : string) : string :=
  match s with
  | EmptyString => EmptyString
  | String a r =>
      match r with
      | String b r1 =>
          if isDottedI a b then
            String "i" (String "204" (String "135" (toLowerCase r1)))
          else
            match r1 with
            | String c r2 =>
                if isKelvin a b c then String "k" (toLowerCase r2)
                else String (lowerChar a) (toLowerCase r)
            | EmptyString => String (lowerChar a) (toLowerCase r)
            end
      | EmptyString => String (lowerChar a) (toLowerCase r)
      end
  end.

Fixpoint startsWith (s sub : string) : bool :=
  match sub, s with
  | EmptyString, _ => true
  | String _ _, EmptyString => false
  | String b sub', String a s' => Ascii.eqb a b && startsWith s' sub'
  end.

(** [s.includes(sub)] *)
Fixpoint includes (s sub : string) : bool :=
  startsWith s sub ||
  match s with
  | EmptyString => false
  | String _ r => includes r sub
  end.

(** [arr.findIndex(f)]; [None] stands for -1. *)
Fixpoint findIndex {A : Type} (f : A -> bool) (l : list A) : option nat :=
  match l with
  | [] => None
  | x :: r => if f x then Some 0%nat else option_map S (findIndex f r)
  end.

(** [Math.max] on two numbers: NaN is contagious and +0 is above -0. *)
Definition max2 (a b : float) : float :=
  if PrimFloat.is_nan a || PrimFloat.is_nan b then PrimFloat.nan
  else if PrimFloat.ltb a b then b
  else if PrimFloat.ltb b a then a
  else if PrimFloat.get_sign a then b else a.

(** [Math.max(x1, ..., xn)], starting from -Infinity. *)
Definition Math_max (xs : list float) : float :=
  fold_left max2 xs PrimFloat.neg_infinity.

End JS.

(** ** Data model *)

Definition Timestamp := Z.

Record Post := mkPost {
  id : string;
  title : string;
  content : string;
  author : string;
  status : string;
  server : string;
  worker : option string;
  moderationDetails : option string;
  createdAt : Timestamp;
  processingTime : option Z;
  toxicityScore : option float;
  reviewReason : option string;
  category : string;
  completedAt : option Timestamp
}.

(** Field assignments [p.f = v]. *)
Definition set_status (v : string) (p : Post) : Post :=
  mkPost (id p) (title p) (content p) (author p) v (server p) (worker p)
         (moderationDetails p) (createdAt p) (processingTime p)
         (toxicityScore p) (reviewReason p) (category p) (completedAt p).

Definition set_worker (v : option string) (p : Post) : Post :=
  mkPost (id p) (title p) (content p) (author p) (status p) (server p) v
         (moderationDetails p) (createdAt p) (processingTime p)
         (toxicityScore p) (reviewReason p) (category p) (completedAt p).

Definition set_moderationDetails (v : option string) (p : Post) : Post :=
  mkPost (id p) (title p) (content p) (author p) (status p) (server p)
         (worker p) v (createdAt p) (processingTime p)
         (toxicityScore p) (reviewReason p) (category p) (completedAt p).

Definition set_processingTime (v : option Z) (p : Post) : Post :=
  mkPost (id p) (title p) (content p) (author p) (status p) (server p)
         (worker p) (moderationDetails p) (createdAt p) v
         (toxicityScore p) (reviewReason p) (category p) (completedAt p).

Definition set_toxicityScore (v : option float) (p : Post) : Post :=
  mkPost (id p) (title p) (content p) (author p) (status p) (server p)
         (worker p) (moderationDetails p) (createdAt p) (processingTime p)
         v (reviewReason p) (category p) (completedAt p).

Definition set_reviewReason (v : option string) (p : Post) : Post :=
  mkPost (id p) (title p) (content p) (author p) (status p) (server p)
         (worker p) (moderationDetails p) (createdAt p) (processingTime p)
         (toxicityScore p) v (category p) (completedAt p).

Definition set_completedAt (v : option Timestamp) (p : Post) : Post :=
  mkPost (id p) (title p) (content p) (author p) (status p) (server p)
         (worker p) (moderationDetails p) (createdAt p) (processingTime p)
         (toxicityScore p) (reviewReason p) (category p) v.

(** [status === 'approved' || status === 'rejected'] *)
Definition isTerminal (s : string) : bool :=
  String.eqb s "approved" || String.eqb s "rejected".

(** The value returned by [moderateContent]. *)
Record Decision := mkDecision {
  d_status : string;
  d_moderationDetails : option string;
  d_toxicityScore : option float;
  d_reviewReason : option string
}.

(** ** Effects *)

Inductive Level := LogInfo | LogWarn | LogError.

Inductive Event :=
| Console (l : Level) (msg : string)   (* console.log / warn / error *)
| ScoringRequest (text : string)       (* axios.post to the Perspective API *)
| StoreWrite                           (* the store's contents were replaced or modified *)
| Publish (p : Post)                   (* channel.sendToQueue('moderation_queue', ...) *)
| Ack (p : Post).                      (* channel.ack(msg) *)

(** The world an operation runs in: the posts store, the backup snapshots
    the file server keeps, and the observable events, most recent first. *)
Record World := mkWorld {
  posts : list Post;
  backups : list (list Post);
  trace : list Event
}.

Inductive Res (A : Type) :=
| Val (a : A)
| Exn (e : string).
Arguments Val {A} a.
Arguments Exn {A} e.

Definition M (A : Type) : Type := World -> Res A * World.

Definition ret {A : Type} (a : A) : M A := fun w => (Val a, w).

Definition bind {A B : Type} (m : M A) (k : A -> M B) : M B :=
  fun w =>
    match m w with
    | (Val a, w') => k a w'
    | (Exn e, w') => (Exn e, w')
    end.

Definition throw {A : Type} (e : string) : M A := fun w => (Exn e, w).

(** [try { m } catch (e) { h e }] *)
Definition tryCatch {A : Type} (m : M A) (h : string -> M A) : M A :=
  fun w =>
    match m w with
    | (Val a, w') => (Val a, w')
    | (Exn e, w') => h e w'
    end.

Declare Scope m_scope.
Delimit Scope m_scope with M.
Notation "x <- m ;; k" := (bind m (fun x => k))
  (at level 61, m at next level, right associativity) : m_scope.
Notation "m ;; k" := (bind m (fun _ => k))
  (at level 61, right associativity) : m_scope.

Definition emit (e : Event) : M unit :=
  fun w => (Val tt, mkWorld (posts w) (backups w) (e :: trace w)).

Definition console (l : Level) (msg : string) : M unit := emit (Console l msg).

Definition getPosts : M (list Post) := fun w => (Val (posts w), w).

Definition putPosts (ps : list Post) : M unit :=
  fun w => (Val tt, mkWorld ps (backups w) (StoreWrite :: trace w)).

Definition putBackup (ps : list Post) : M unit :=
  fun w => (Val tt, mkWorld (posts w) (ps :: backups w) (trace w)).

Fixpoint modifyAt {A : Type} (i : nat) (f : A -> A) (l : list A) : list A :=
  match l, i with
  | [], _ => []
  | x :: r, O => f x :: r
  | x :: r, S j => x :: modifyAt j f r
  end.

Local Open Scope string_scope.
Local Open Scope m_scope.

(** ** The classifier: [moderateContent]

    The file-store worker and the MongoDB worker carry the same function;
    only the prefix of the console message differs ([tag]).  [toFixed2]
    stands for the host's [Number.prototype.toFixed(2)]; it only shapes the
    human-readable detail text. *)

Definition Scores : Type := float * float * float.

Definition blockedKeywords : list string := ["fuck"; "nigger"].

(** [axios.post(...)] to the scoring service.  [api] is what the service
    answers for this request: the three summary scores (toxicity, insult,
    profanity), or [None] when the call times out, answers with an error or
    answers without the requested attributes. *)
Definition axios_post (api : option Scores) (text : string) : M Scores :=
  emit (ScoringRequest text) ;;
  match api with
  | Some r => ret r
  | None => throw "Request failed"
  end.

Section Classifier.

Variable toFixed2 : float -> string.

Definition scoreText (toxicityScore insultScore profanityScore : float) : string :=
  "toxicity=" ++ toFixed2 toxicityScore ++
  ", insult=" ++ toFixed2 insultScore ++
  ", profanity=" ++ toFixed2 profanityScore.

Definition moderateContent (tag : string) (api : option Scores)
           (content : string) : M Decision :=
  (* Step 1: rule-based check *)
  let lowercaseContent := JS.toLowerCase content in
  let foundKeyword :=
    find (fun keyword => JS.includes lowercaseContent keyword) blockedKeywords in
  if JS.truthyStr foundKeyword then
    ret (mkDecision "rejected"
           (Some ("Content rejected due to egregious keyword: " ++
                  match foundKeyword with Some k => k | None => "" end))
           None None)
  else
    (* Step 2: Perspective API analysis *)
    tryCatch
      (response <- axios_post api content ;;
       let '(toxicityScore, insultScore, profanityScore) := response in
       let maxScore := JS.Math_max [toxicityScore; insultScore; profanityScore] in
       (* Step 3: decision logic *)
       if PrimFloat.ltb 0.8 maxScore then
         ret (mkDecision "rejected"
                (Some ("Content rejected due to high scores: " ++
                       scoreText toxicityScore insultScore profanityScore))
                (Some maxScore) None)
       else if PrimFloat.leb 0.5 maxScore then
         ret (mkDecision "needs_review"
                (Some ("Content flagged for human review: " ++
                       scoreText toxicityScore insultScore profanityScore))
                (Some maxScore)
                (Some "Borderline content requiring human evaluation"))
       else
         ret (mkDecision "approved"
                (Some ("Content approved: " ++
                       scoreText toxicityScore insultScore profanityScore))
                (Some maxScore) None))
      (fun _ =>
         console LogError (tag ++ "Perspective API error:") ;;
         ret (mkDecision "needs_review"
                (Some "Failed to analyze content with Perspective API")
                None
                (Some "API error, requires human review"))).

(** The call [moderateContent(v)] on any value [v]; [None] is a value
    that is no string.  [content.toLowerCase()] is the first use of the
    argument and stands outside the [try]: on anything but a string it
    throws a TypeError. *)
Definition moderate (tag : string) (api : option Scores)
           (content : option string) : M Decision :=
  match content with
  | Some text => moderateContent tag api text
  | None => throw "TypeError: content.toLowerCase is not a function"
  end.

End Classifier.

(** ** Deliveries

    What the consumer callback finds in [msg.content].  The handler reads
    [id] and [content] of the parsed body and nothing else.  A body that
    parses to something other than an object behaves as an [OddJob] whose
    id is in no record. *)
Inductive Delivery :=
| NotJson                 (* not JSON, or [null]: [JSON.parse] or [post.id] throws *)
| Job (post : Post)       (* a job whose [content] is a string *)
| OddJob (post : Post).   (* a job whose [content] is no string (a number, an
                             object, null, missing); the record's [content]
                             stands for nothing *)

(** [JSON.parse(msg.content.toString())] *)
Definition JSON_parse (m : Delivery) : M Post :=
  match m with
  | NotJson => throw "SyntaxError"
  | Job post => ret post
  | OddJob post => ret post
  end.

(** [post.content]: [None] when it is no string. *)
Definition contentOf (m : Delivery) : option string :=
  match m with
  | Job post => Some (content post)
  | _ => None
  end.

(** ** The worker on the JSON file store ([worker.js]) *)

Module FileWorker.

(** Whether the read and the write of [posts.json] succeed. *)
Record StoreIO := mkIO { readOk : bool; writeOk : bool }.

(** A missing file and an unreadable or malformed one both read as []. *)
Definition readPosts (ok : bool) : M (list Post) :=
  tryCatch
    (if ok then getPosts else throw "EIO")
    (fun _ => console LogError "Error reading posts:" ;; ret []).

Definition writePosts (ok : bool) (ps : list Post) : M unit :=
  tryCatch
    (if ok then putPosts ps else throw "EIO")
    (fun e => console LogError "Error writing posts:" ;; throw e).

(** The assignments to [posts[postIndex]], in source order. *)
Definition assign (now : Timestamp) (status workerId : string)
           (moderationDetails : option string) (processingTime : option Z)
           (toxicityScore : option float) (reviewReason : option string)
           (p : Post) : Post :=
  let p := set_status status p in
  let p := set_worker (Some workerId) p in
  let p := if JS.truthyStr moderationDetails
           then set_moderationDetails moderationDetails p else p in
  let p := if JS.truthyNum processingTime
           then set_processingTime processingTime p else p in
  let p := match toxicityScore with
           | Some _ => set_toxicityScore toxicityScore p
           | None => p
           end in
  let p := if JS.truthyStr reviewReason
           then set_reviewReason reviewReason p else p in
  let p := if isTerminal status
           then set_completedAt (Some now) p else p in
  p.

Definition updatePostStatus (io : StoreIO) (now : Timestamp)
           (postId status workerId : string)
           (moderationDetails : option string) (processingTime : option Z)
           (toxicityScore : option float) (reviewReason : option string)
  : M unit :=
  tryCatch
    (posts <- readPosts (readOk io) ;;
     match JS.findIndex (fun p => String.eqb (id p) postId) posts with
     | Some postIndex =>
         writePosts (writeOk io)
           (modifyAt postIndex
              (assign now status workerId moderationDetails processingTime
                      toxicityScore reviewReason) posts) ;;
         console LogInfo ("Updated post " ++ postId ++ " status to " ++ status)
     | None =>
         console LogInfo ("Post " ++ postId ++ " not found")
     end)
    (fun _ => console LogError ("Error updating post " ++ postId ++ ":")).

(** What the outside world decides while one message is handled. *)
Record Run := mkRun {
  io1 : StoreIO;          (* store I/O of the 'processing' update *)
  now1 : Timestamp;
  startTime : Z;          (* Date.now() before the classifier *)
  api : option Scores;    (* answer of the scoring service *)
  endTime : Z;            (* Date.now() after the classifier *)
  io2 : StoreIO;          (* store I/O of the outcome update *)
  now2 : Timestamp
}.

(** The callback given to [channel.consume]. *)
Definition onMessage (toFixed2 : float -> string) (WORKER_ID : string)
           (r : Run) (msg : option Delivery) : M unit :=
  match msg with
  | Some m =>
      post <- JSON_parse m ;;
      console LogInfo (WORKER_ID ++ " processing post " ++ id post) ;;
      updatePostStatus (io1 r) (now1 r) (id post) "processing" WORKER_ID
                       None None None None ;;
      d <- moderate toFixed2 "" (api r) (contentOf m) ;;
      let processingTime := (endTime r - startTime r)%Z in
      updatePostStatus (io2 r) (now2 r) (id post) (d_status d) WORKER_ID
                       (d_moderationDetails d) (Some processingTime)
                       (d_toxicityScore d) (d_reviewReason d) ;;
      emit (Ack post)
  | None => ret tt
  end.

End FileWorker.

(** ** MongoDB collection operations *)

(** The document given to [$set]; [None] is a key that is not in it. *)
Record Update := mkUpdate {
  u_status : option string;
  u_worker : option string;
  u_moderationDetails : option string;
  u_processingTime : option Z;
  u_toxicityScore : option float;
  u_reviewReason : option string;
  u_completedAt : option Timestamp
}.

Definition setWith {A : Type} (v : option A) (f : A -> Post -> Post) (p : Post) : Post :=
  match v with
  | Some a => f a p
  | None => p
  end.

(** [{ $set: u }] on one document. *)
Definition applySet (u : Update) (p : Post) : Post :=
  let p := setWith (u_status u) set_status p in
  let p := setWith (u_worker u) (fun v => set_worker (Some v)) p in
  let p := setWith (u_moderationDetails u) (fun v => set_moderationDetails (Some v)) p in
  let p := setWith (u_processingTime u) (fun v => set_processingTime (Some v)) p in
  let p := setWith (u_toxicityScore u) (fun v => set_toxicityScore (Some v)) p in
  let p := setWith (u_reviewReason u) (fun v => set_reviewReason (Some v)) p in
  let p := setWith (u_completedAt u) (fun v => set_completedAt (Some v)) p in
  p.

(** [updateOne({ id: postId }, { $set: u })] on the documents: the first
    match is modified; the result carries [matchedCount]. No upsert. *)
Fixpoint updateFirst (postId : string) (u : Update) (docs : list Post)
  : list Post * nat :=
  match docs with
  | [] => ([], 0%nat)
  | d :: ds =>
      if String.eqb (id d) postId then (applySet u d :: ds, 1%nat)
      else let '(ds', n) := updateFirst postId u ds in (d :: ds', n)
  end.

(** [db.collection('posts').updateOne(...)]; [ok = false] is a driver error
    (connection lost, [db] not yet set). Returns [matchedCount]. *)
Definition updateOne (ok : bool) (postId : string) (u : Update) : M nat :=
  if ok then
    fun w =>
      let '(ds, n) := updateFirst postId u (posts w) in
      (Val n,
       mkWorld ds (backups w)
               (if Nat.eqb n 0 then trace w else StoreWrite :: trace w))
  else throw "MongoError".

(** [db.collection('posts').insertOne(post)] *)
Definition insertOne (ok : bool) (post : Post) : M unit :=
  if ok then
    fun w => (Val tt, mkWorld (posts w ++ [post]) (backups w) (StoreWrite :: trace w))
  else throw "MongoError".

(** ** The worker on MongoDB *)

Module MongoWorker.

(** The [update] object: [status] and [worker] always, the other keys only
    when their guard holds. *)
Definition buildUpdate (now : Timestamp) (status workerId : string)
           (moderationDetails : option string) (processingTime : option Z)
           (toxicityScore : option float) (reviewReason : option string)
  : Update :=
  mkUpdate (Some status) (Some workerId)
           (if JS.truthyStr moderationDetails then moderationDetails else None)
           (if JS.truthyNum processingTime then processingTime else None)
           toxicityScore
           (if JS.truthyStr reviewReason then reviewReason else None)
           (if isTerminal status then Some now else None).

Definition updatePostStatus (WORKER_ID : string) (ok : bool) (now : Timestamp)
           (postId status workerId : string)
           (moderationDetails : option string) (processingTime : option Z)
           (toxicityScore : option float) (reviewReason : option string)
  : M unit :=
  tryCatch
    (let update := buildUpdate now status workerId moderationDetails
                               processingTime toxicityScore reviewReason in
     matchedCount <- updateOne ok postId update ;;
     if Nat.eqb matchedCount 0 then
       console LogInfo (WORKER_ID ++ ": Post " ++ postId ++ " not found")
     else
       console LogInfo (WORKER_ID ++ ": Updated post " ++ postId ++
                        " status to " ++ status))
    (fun _ => console LogError (WORKER_ID ++ ": Error updating post " ++ postId ++ ":")).

(** What the outside world decides while one message is handled. *)
Record Run := mkRun {
  ok1 : bool;             (* driver outcome of the 'processing' update *)
  now1 : Timestamp;
  startTime : Z;
  api : option Scores;
  endTime : Z;
  ok2 : bool;             (* driver outcome of the outcome update *)
  now2 : Timestamp
}.

(** The callback given to [channel.consume] (with [noAck: false]). *)
Definition onMessage (toFixed2 : float -> string) (WORKER_ID : string)
           (r : Run) (msg : option Delivery) : M unit :=
  match msg with
  | Some m =>
      post <- JSON_parse m ;;
      console LogInfo (WORKER_ID ++ ": Processing post " ++ id post) ;;
      updatePostStatus WORKER_ID (ok1 r) (now1 r) (id post) "processing" WORKER_ID
                       None None None None ;;
      d <- moderate toFixed2 (WORKER_ID ++ ": ") (api r) (contentOf m) ;;
      let processingTime := (endTime r - startTime r)%Z in
      updatePostStatus WORKER_ID (ok2 r) (now2 r) (id post) (d_status d) WORKER_ID
                       (d_moderationDetails d) (Some processingTime)
                       (d_toxicityScore d) (d_reviewReason d) ;;
      emit (Ack post)
  | None => ret tt
  end.

End MongoWorker.

(** ** Ingestion: [POST /api/posts] *)

(** The fields read from the request body; [None] is a missing one. *)
Record Request := mkRequest {
  r_title : option string;
  r_content : option string;
  r_author : option string;
  r_server : option string;
  r_category : option string
}.

Inductive Body :=
| PostJson (p : Post)
| ErrorJson (error : string).

Record Response := mkResponse { code : nat; body : Body }.

Definition valueOf (o : option string) : string :=
  match o with
  | Some s => s
  | None => EmptyString
  end.

(** The object literal built by the handler. *)
Definition newPost (uuid : string) (now : Timestamp) (req : Request) : Post :=
  mkPost uuid (valueOf (r_title req)) (valueOf (r_content req))
         (valueOf (r_author req)) "pending"
         (JS.orDefault (r_server req) "server1") None None now None None None
         (JS.orDefault (r_category req) "general") None.

(** [channel.sendToQueue(...)]: throws when the channel has been closed. *)
Definition sendToQueue (ok : bool) (p : Post) : M unit :=
  if ok then emit (Publish p) else throw "IllegalOperationError".

Module FileServer.

Inductive WriteOutcome :=
| WriteOk
| WriteFails     (* the store file could not be written *)
| BackupFails.   (* the store file was written, the backup was not *)

Definition readPosts (ok : bool) : M (list Post) :=
  tryCatch
    (if ok then getPosts else throw "EIO")
    (fun _ => console LogError "Error reading posts:" ;; ret []).

Definition writePosts (o : WriteOutcome) (ps : list Post) : M unit :=
  tryCatch
    (match o with
     | WriteOk => putPosts ps ;; putBackup ps
     | WriteFails => throw "EIO"
     | BackupFails => putPosts ps ;; throw "EIO"
     end)
    (fun e => console LogError "Error writing posts:" ;; throw e).

(** What the outside world decides during one request. *)
Record Env := mkEnv {
  uuid : string;            (* uuidv4() *)
  now : Timestamp;          (* new Date() *)
  readOk : bool;
  write : WriteOutcome;
  channel : bool;           (* the module variable [channel] is set *)
  sendOk : bool
}.

Definition submit (env : Env) (req : Request) : M Response :=
  tryCatch
    (if negb (JS.truthyStr (r_title req)) || negb (JS.truthyStr (r_content req))
        || negb (JS.truthyStr (r_author req)) then
       ret (mkResponse 400 (ErrorJson "Title, content, and author are required"))
     else
       let post := newPost (uuid env) (now env) req in
       posts <- readPosts (readOk env) ;;
       writePosts (write env) (posts ++ [post]) ;;
       (if channel env then sendToQueue (sendOk env) post
        else console LogWarn "RabbitMQ channel not available, post will not be processed") ;;
       ret (mkResponse 201 (PostJson post)))
    (fun _ =>
       console LogError "Error adding post:" ;;
       ret (mkResponse 500 (ErrorJson "Failed to add post"))).

End FileServer.

Module MongoServer.

Record Env := mkEnv {
  uuid : string;
  now : Timestamp;
  insertOk : bool;
  channel : bool;
  sendOk : bool;
  updateOk : bool
}.

Definition submit (env : Env) (req : Request) : M Response :=
  tryCatch
    (if negb (JS.truthyStr (r_title req)) || negb (JS.truthyStr (r_content req))
        || negb (JS.truthyStr (r_author req)) then
       ret (mkResponse 400 (ErrorJson "Title, content, and author are required"))
     else
       let post := newPost (uuid env) (now env) req in
       insertOne (insertOk env) post ;;
       post <- (if channel env then
                  sendToQueue (sendOk env) post ;;
                  updateOne (updateOk env) (id post)
                            (mkUpdate (Some "processing") None None None None None None) ;;
                  ret (set_status "processing" post)
                else
                  console LogWarn "RabbitMQ channel not available, post will not be processed" ;;
                  ret post) ;;
       ret (mkResponse 201 (PostJson post)))
    (fun _ =>
       console LogError "Error adding post:" ;;
       ret (mkResponse 500 (ErrorJson "Failed to add post"))).

End MongoServer.

(** ** [toFixed(2)] in fixed notation

    Exact decimal rendering of a binary64 value with two fraction digits,
    ties rounded up in magnitude.  The host prints magnitudes from 1e21 on
    in exponent notation instead, which is why [moderateContent] takes the
    function as a parameter; this instance serves the concrete runs, whose
    scores lie in [0, 1]. *)

Definition digit (n : Z) : ascii := ascii_of_nat (48 + Z.to_nat n).

Fixpoint decimalAux (fuel : nat) (n : Z) (acc : string) : string :=
  match fuel with
  | O => acc
  | S fuel' =>
      let acc' := String (digit (n mod 10)) acc in
      if (n <? 10)%Z then acc' else decimalAux fuel' (n / 10) acc'
  end.

Definition decimal (n : Z) : string :=
  decimalAux (S (Z.to_nat (Z.log2 n))) n EmptyString.

Definition Number_toFixed2 (x : float) : string :=
  match Prim2SF x with
  | S754_nan => "NaN"
  | S754_infinity s => if s then "-Infinity" else "Infinity"
  | S754_zero _ => "0.00"
  | S754_finite s m e =>
      let n := if (0 <=? e)%Z then (Zpos m * 2 ^ e * 100)%Z
               else ((Zpos m * 200 + 2 ^ (- e)) / 2 ^ (1 - e))%Z in
      (if s then "-" else "") ++ decimal (n / 100) ++ "." ++
      String (digit (n mod 100 / 10)) (String (digit (n mod 10)) EmptyString)
  end.

(** ** Properties the specification speaks about *)

(** The two non-ASCII characters [toLowerCase] knows, as bytes. *)
Definition kelvinSign : string := String "226" (String "132" (String "170" EmptyString)).
Definition dottedI : string := String "196" (String "176" EmptyString).

(** A byte of an ASCII character. *)
Definition isAscii (c : ascii) : bool := (nat_of_ascii c <? 128)%nat.

Fixpoint asciiOnly (s : string) : bool :=
  match s with
  | EmptyString => true
  | String c r => isAscii c && asciiOnly r
  end.

Fixpoint endsWith_i (s : string) : bool :=
  match s with
  | EmptyString => false
  | String c EmptyString => Ascii.eqb c "i"
  | String _ r => endsWith_i r
  end.

(** [s] starts with one of the two characters. *)
Definition special (s : string) : bool :=
  match s with
  | String a (String b r1) =>
      JS.isDottedI a b ||
      match r1 with
      | String c _ => JS.isKelvin a b c
      | EmptyString => false
      end
  | _ => false
  end.

(** A byte at which no character of [kelvinSign] or [dottedI] continues. *)
Definition safeHead (s : string) : bool :=
  match s with
  | EmptyString => true
  | String h _ => negb (Ascii.eqb h "132") && negb (Ascii.eqb h "170")
                  && negb (Ascii.eqb h "176")
  end.

(** A keyword the deny-list test finds by containment up to letter case:
    non-empty, ASCII, in lower case, not ending in 'i' (whose dotted
    capital lowers to more than 'i'). *)
Definition plainKeyword (k : string) : Prop :=
  JS.toLowerCase k = k /\ k <> EmptyString /\
  asciiOnly k = true /\ endsWith_i k = false.

(** [content] contains the term [kw] under case-insensitive comparison:
    some substring of [content] equals [kw] up to letter case. *)
Definition containsTerm (content kw : string) : Prop :=
  exists pre w post,
    content = pre ++ w ++ post /\ JS.toLowerCase w = JS.toLowerCase kw.

Definition containsBlocked (content : string) : Prop :=
  exists kw, In kw blockedKeywords /\ containsTerm content kw.

(** [completedAt] is set on every record whose status is terminal. *)
Definition terminalCompleted (p : Post) : Prop :=
  isTerminal (status p) = true -> completedAt p <> None.

(** The invariant as the specification words it. *)
Definition completedIffTerminal (p : Post) : Prop :=
  completedAt p <> None <-> isTerminal (status p) = true.

(** The fields [updatePostStatus] is not meant to touch. *)
Definition sameInputFields (p q : Post) : Prop :=
  id q = id p /\ title q = title p /\ content q = content p /\
  author q = author p /\ category q = category p /\ server q = server p /\
  createdAt q = createdAt p.

(** One call of [updatePostStatus] writing [status], by either worker. *)
Inductive updateStep (postId status : string) : World -> World -> Prop :=
| file_update io now workerId md pt ts rr w :
    updateStep postId status w
      (snd (FileWorker.updatePostStatus io now postId status workerId md pt ts rr w))
| mongo_update tag ok now workerId md pt ts rr w :
    updateStep postId status w
      (snd (MongoWorker.updatePostStatus tag ok now postId status workerId md pt ts rr w)).

(** One accepted or refused submission, by either server. *)
Inductive submitStep : World -> World -> Prop :=
| file_submit env req w :
    submitStep w (snd (FileServer.submit env req w))
| mongo_submit env req w :
    submitStep w (snd (MongoServer.submit env req w)).

(** The worlds the pipeline can be in, starting from an empty store. *)
Inductive reachable : World -> Prop :=
| reach_empty bk tr : reachable (mkWorld [] bk tr)
| reach_submit w w' : reachable w -> submitStep w w' -> reachable w'
| reach_update postId status w w' :
    reachable w -> updateStep postId status w w' -> reachable w'.

(** Number of records carrying a given id. *)
Definition countId (postId : string) (ps : list Post) : nat :=
  List.length (filter (fun p => String.eqb (id p) postId) ps).

(** ** Concrete inputs used in the examples *)

Definition emptyWorld : World := mkWorld [] [] [].

Definition greatRequest : Request :=
  mkRequest (Some "t") (Some "this is great") (Some "a") None None.

Definition greatPost : Post := newPost "job-1" 1000%Z greatRequest.

Definition oneJob : World := mkWorld [greatPost] [] [].

Definition fileOk : FileWorker.StoreIO := FileWorker.mkIO true true.

(** The two thresholds [0.8] and [0.5] as binary64 values: mantissa and
    exponent of the nearest representable number. *)
Definition sfHigh : spec_float := S754_finite false 7205759403792794 (-53).
Definition sfLow : spec_float := S754_finite false 4503599627370496 (-53).

(** What is visible of a write of [updatePostStatus] on a record: the
    status and the worker always, every optional field the call supplies,
    and [completedAt] for a terminal status. *)
Definition written (now : Timestamp) (newStatus workerId : string)
           (md : option string) (pt : option Z) (ts : option float)
           (rr : option string) (p : Post) : Prop :=
  status p = newStatus /\ worker p = Some workerId /\
  (JS.truthyStr md = true -> moderationDetails p = md) /\
  (JS.truthyNum pt = true -> processingTime p = pt) /\
  (ts <> None -> toxicityScore p = ts) /\
  (JS.truthyStr rr = true -> reviewReason p = rr) /\
  (isTerminal newStatus = true -> completedAt p = Some now).

(** The store after the later of two writes to the job found at [k]. *)
Definition lastWriteVisible (postId : string) (k : nat) (now : Timestamp)
           (newStatus workerId : string) (md : option string) (pt : option Z)
           (ts : option float) (rr : option string)
           (before after : list Post) : Prop :=
  map id after = map id before /\
  countId postId after = countId postId before /\
  exists p, nth_error after k = Some p /\
            written now newStatus workerId md pt ts rr p.

(** How many times the store's contents were written, per the trace. *)
Definition storeWrites (tr : list Event) : nat :=
  List.length (filter (fun e => match e with StoreWrite => true | _ => false end) tr).

(** How many requests went to the scoring service, per the trace. *)
Definition scoringRequests (tr : list Event) : nat :=
  List.length (filter (fun e => match e with ScoringRequest _ => true | _ => false end) tr).

(** The store after an update that went through ([ok]) or did not. *)
Definition committed (ok : bool) (postId : string) (u : Update)
           (ps : list Post) : list Post :=
  if ok then fst (updateFirst postId u ps) else ps.

(** The posts handed to the queue, per the trace, most recent first. *)
Definition published (tr : list Event) : list Post :=
  flat_map (fun e => match e with Publish p => [p] | _ => [] end) tr.


(** The messages acknowledged, per the trace, most recent first. *)
Definition acknowledged (tr : list Event) : list Post :=
  flat_map (fun e => match e with Ack p => [p] | _ => [] end) tr.

(** A request the validation lets through: title, content and author are
    present and non-empty. *)
Definition accepted (req : Request) : Prop :=
  JS.truthyStr (r_title req) = true /\ JS.truthyStr (r_content req) = true /\
  JS.truthyStr (r_author req) = true.

Definition validationError : Response :=
  mkResponse 400 (ErrorJson "Title, content, and author are required").

Definition queueWarning : Event :=
  Console LogWarn "RabbitMQ channel not available, post will not be processed".

(** ** The first revision of the worker ([worker.js], keyword rules only)

    It reads and writes the store the way the Perspective revision does;
    its classifier is a pure function of the content, and the simulated
    processing delay between the two updates leaves no trace. *)

Module KeywordWorker.

Definition blockedKeywords : list string :=
  ["spam"; "offensive"; "inappropriate"; "hate"].

Record Verdict := mkVerdict { v_status : string; v_moderationDetails : string }.

Definition moderateContent (content : string) : Verdict :=
  let lowercaseContent := JS.toLowerCase content in
  let foundKeyword :=
    find (fun keyword => JS.includes lowercaseContent keyword) blockedKeywords in
  if JS.truthyStr foundKeyword then
    mkVerdict "rejected"
      ("Content rejected due to keyword: " ++
       match foundKeyword with Some k => k | None => "" end)
  else
    mkVerdict "approved" "Content approved after review".

(** The call [moderateContent(v)] on any value: [content.toLowerCase()]
    throws a TypeError on anything but a string. *)
Definition moderate (content : option string) : M Verdict :=
  match content with
  | Some text => ret (moderateContent text)
  | None => throw "TypeError: content.toLowerCase is not a function"
  end.

Definition assign (now : Timestamp) (status workerId : string)
           (moderationDetails : option string) (p : Post) : Post :=
  let p := set_status status p in
  let p := set_worker (Some workerId) p in
  let p := if JS.truthyStr moderationDetails
           then set_moderationDetails moderationDetails p else p in
  let p := if isTerminal status
           then set_completedAt (Some now) p else p in
  p.

Definition updatePostStatus (io : FileWorker.StoreIO) (now : Timestamp)
           (postId status workerId : string) (moderationDetails : option string)
  : M unit :=
  tryCatch
    (posts <- FileWorker.readPosts (FileWorker.readOk io) ;;
     match JS.findIndex (fun p => String.eqb (id p) postId) posts with
     | Some postIndex =>
         FileWorker.writePosts (FileWorker.writeOk io)
           (modifyAt postIndex (assign now status workerId moderationDetails) posts) ;;
         console LogInfo ("Updated post " ++ postId ++ " status to " ++ status)
     | None =>
         console LogInfo ("Post " ++ postId ++ " not found")
     end)
    (fun _ => console LogError ("Error updating post " ++ postId ++ ":")).

Record Run := mkRun {
  io1 : FileWorker.StoreIO;
  now1 : Timestamp;
  io2 : FileWorker.StoreIO;
  now2 : Timestamp
}.

Definition onMessage (WORKER_ID : string) (r : Run) (msg : option Delivery) : M unit :=
  match msg with
  | Some m =>
      post <- JSON_parse m ;;
      console LogInfo (WORKER_ID ++ " processing post " ++ id post) ;;
      updatePostStatus (io1 r) (now1 r) (id post) "processing" WORKER_ID None ;;
      v <- moderate (contentOf m) ;;
      updatePostStatus (io2 r) (now2 r) (id post) (v_status v) WORKER_ID
                       (Some (v_moderationDetails v)) ;;
      emit (Ack post)
  | None => ret tt
  end.

End KeywordWorker.

(** ** Reporting on the file store: [computeStats], [filterPostsByPeriod]
    and [GET /api/posts] *)

Module Reporting.

Record Stats := mkStats {
  total : nat;
  approved : nat;
  rejected : nat;
  pending : nat;
  processing : nat;
  needs_review : nat
}.

(** [posts.filter(p => p.status === s).length] *)
Definition countStatus (s : string) (posts : list Post) : nat :=
  List.length (filter (fun p => String.eqb (status p) s) posts).

Definition computeStats (posts : list Post) : Stats :=
  mkStats (List.length posts)
          (countStatus "approved" posts) (countStatus "rejected" posts)
          (countStatus "pending" posts) (countStatus "processing" posts)
          (countStatus "needs_review" posts).

Inductive Period := Day | Week | Month | Year.

(** The cases of [switch (period)]. *)
Definition periodOf (period : string) : option Period :=
  if String.eqb period "day" then Some Day
  else if String.eqb period "week" then Some Week
  else if String.eqb period "month" then Some Month
  else if String.eqb period "year" then Some Year
  else None.

(** [startDate] is the instant the host calendar gives for each case at
    the time of the request (local midnight, seven days ago, one month
    ago, one year ago). *)
Definition filterPostsByPeriod (startDate : Period -> Timestamp)
           (posts : list Post) (period : string) : list Post :=
  match periodOf period with
  | Some k => filter (fun p => Z.leb (startDate k) (createdAt p)) posts
  | None => posts
  end.

Record Listing := mkListing { l_posts : list Post; l_stats : Stats }.

Inductive ListResponse :=
| Listed (l : Listing)            (* 200 *)
| ListFailed (error : string).    (* 500 *)

(** [app.get('/api/posts')]: [filter] and [period] are the query
    parameters, [None] when not given; the store is read twice. *)
Definition listPosts (startDate : Period -> Timestamp) (read1 read2 : bool)
           (filter period : option string) : M ListResponse :=
  tryCatch
    (let filter := match filter with Some f => f | None => "all" end in
     posts <- FileServer.readPosts read1 ;;
     let posts := if JS.truthyStr period
                  then filterPostsByPeriod startDate posts (valueOf period)
                  else posts in
     let posts := if negb (String.eqb filter "all")
                  then List.filter (fun p => String.eqb (status p) filter) posts
                  else posts in
     all <- FileServer.readPosts read2 ;;
     ret (Listed (mkListing posts (computeStats all))))
    (fun _ =>
       console LogError "Error fetching posts:" ;;
       ret (ListFailed "Failed to fetch posts")).

End Reporting.

(** ** Reporting on MongoDB: [/api/status] and [/api/processing-times] *)

Module MongoReporting.

Definition workers : list string := ["worker-1"; "worker-2"; "worker-3"].

(** [db.collection('posts').find(...).toArray()] with a predicate for the
    query document; [ok = false] is a driver error. *)
Definition findPosts (ok : bool) (query : Post -> bool) : M (list Post) :=
  if ok then fun w => (Val (filter query (posts w)), w) else throw "MongoError".

(** The [createdAt] part of the query built from [period]. *)
Definition periodQuery (startDate : Reporting.Period -> Timestamp)
           (period : option string) (p : Post) : bool :=
  if JS.truthyStr period then
    match Reporting.periodOf (valueOf period) with
    | Some k => Z.leb (startDate k) (createdAt p)
    | None => true
    end
  else true.

Definition owns (workerId : string) (p : Post) : bool :=
  match worker p with
  | Some v => String.eqb v workerId
  | None => false
  end.

Record StatusReport := mkStatusReport {
  server1 : bool;
  rabbitmq : bool;
  workerStates : list (string * string)
}.

Inductive StatusResponse :=
| Statuses (s : StatusReport)       (* 200 *)
| StatusFailed (error : string).    (* 500 *)

(** 'busy' when the worker owns a post in 'processing', else 'idle'. *)
Definition workerState (processingPosts : list Post) : string :=
  if (0 <? List.length processingPosts)%nat then "busy" else "idle".

Fixpoint statusLoop (ok : string -> bool) (ws : list string)
  : M (list (string * string)) :=
  match ws with
  | [] => ret []
  | workerId :: rest =>
      processingPosts <-
        findPosts (ok workerId)
          (fun p => owns workerId p && String.eqb (status p) "processing") ;;
      states <- statusLoop ok rest ;;
      ret ((workerId, workerState processingPosts) :: states)
  end.

(** [app.get('/api/status')]; [channel] tells whether the module variable
    is set, [ok workerId] whether the query for that worker succeeds. *)
Definition getStatus (channel : bool) (ok : string -> bool) : M StatusResponse :=
  tryCatch
    (states <- statusLoop ok workers ;;
     ret (Statuses (mkStatusReport true channel states)))
    (fun _ =>
       console LogError "Error checking status:" ;;
       ret (StatusFailed "Failed to check status")).

Record WorkerStats := mkWorkerStats {
  totalTime : Z;
  count : nat;
  approved : nat;
  rejected : nat;
  needs_review : nat
}.

(** The body of [posts.forEach] for a worker that has an entry. *)
Definition account (post : Post) (st : WorkerStats) : WorkerStats :=
  let st := if JS.truthyNum (processingTime post)
            then mkWorkerStats
                   (totalTime st + match processingTime post with
                                   | Some t => t
                                   | None => 0
                                   end)%Z
                   (S (count st)) (approved st) (rejected st) (needs_review st)
            else st in
  if String.eqb (status post) "approved" then
    mkWorkerStats (totalTime st) (count st) (S (approved st)) (rejected st)
                  (needs_review st)
  else if String.eqb (status post) "rejected" then
    mkWorkerStats (totalTime st) (count st) (approved st) (S (rejected st))
                  (needs_review st)
  else if String.eqb (status post) "needs_review" then
    mkWorkerStats (totalTime st) (count st) (approved st) (rejected st)
                  (S (needs_review st))
  else st.

(** [workerStats] is an object with one entry per listed worker. *)
Fixpoint updateEntry (key : string) (f : WorkerStats -> WorkerStats)
         (ws : list (string * WorkerStats)) : list (string * WorkerStats) :=
  match ws with
  | [] => []
  | (k, st) :: rest =>
      if String.eqb k key then (k, f st) :: rest
      else (k, st) :: updateEntry key f rest
  end.

Fixpoint entry (key : string) (ws : list (string * WorkerStats)) : option WorkerStats :=
  match ws with
  | [] => None
  | (k, st) :: rest => if String.eqb k key then Some st else entry key rest
  end.

(** A post whose worker has no entry ('unknown' or any other name) is
    left out of the rows.  (A name that [Object.prototype] defines, such
    as 'toString', makes the guard true in the source, but the writes then
    land on that inherited object, not on an entry, and the rows read own
    entries only.) *)
Definition visit (ws : list (string * WorkerStats)) (post : Post)
  : list (string * WorkerStats) :=
  let worker := JS.orDefault (worker post) "unknown" in
  match entry worker ws with
  | Some _ => updateEntry worker (account post) ws
  | None => ws
  end.

Record Row := mkRow {
  row_worker : string;
  averageTime : option string;   (* [None] is the number 0 *)
  processed : nat;
  row_approved : nat;
  row_rejected : nat;
  row_needs_review : nat
}.

Inductive TimesResponse :=
| Times (rows : list Row)          (* 200 *)
| TimesFailed (error : string).    (* 500 *)

Definition zeroStats : WorkerStats := mkWorkerStats 0 0 0 0 0.

(** [averageText total count] stands for
    [(totalTime / count / 1000).toFixed(1)]. *)
Definition rowOf (averageText : Z -> nat -> string) (workerId : string)
           (st : WorkerStats) : Row :=
  mkRow workerId
        (if (0 <? count st)%nat then Some (averageText (totalTime st) (count st))
         else None)
        (count st) (approved st) (rejected st) (needs_review st).

(** [find({ ...query, processingTime: { $exists: true } })].  Whether a
    document carries the key is not part of [Post], where a missing key
    and [null] both read [None]: [hasKey i] tells it for the [i]-th
    document of the collection ([from] is the position of the first of
    [docs]). *)
Fixpoint findKeyed (hasKey : nat -> bool) (query : Post -> bool) (from : nat)
         (docs : list Post) : list Post :=
  match docs with
  | [] => []
  | d :: rest =>
      if hasKey from && query d then d :: findKeyed hasKey query (S from) rest
      else findKeyed hasKey query (S from) rest
  end.

Definition findPostsKeyed (ok : bool) (hasKey : nat -> bool) (query : Post -> bool)
  : M (list Post) :=
  if ok then fun w => (Val (findKeyed hasKey query 0 (posts w)), w)
  else throw "MongoError".

(** [app.get('/api/processing-times')] *)
Definition processingTimes (averageText : Z -> nat -> string)
           (startDate : Reporting.Period -> Timestamp) (ok : bool)
           (hasKey : nat -> bool) (period : option string) : M TimesResponse :=
  tryCatch
    (posts <- findPostsKeyed ok hasKey (periodQuery startDate period) ;;
     let workerStats :=
       fold_left visit posts (map (fun w => (w, zeroStats)) workers) in
     ret (Times (map (fun w => rowOf averageText w
                                 match entry w workerStats with
                                 | Some st => st
                                 | None => zeroStats
                                 end) workers)))
    (fun _ =>
       console LogError "Error fetching processing times:" ;;
       ret (TimesFailed "Failed to fetch processing times")).

End MongoReporting.

(** ** Notions used by the further properties *)

(** [content] contains one of [kws], letter case ignored. *)
Definition containsAny (kws : list string) (content : string) : Prop :=
  exists kw, In kw kws /\ containsTerm content kw.

(** The five statuses of a job. *)
Definition knownStatus (s : string) : Prop :=
  s = "pending" \/ s = "processing" \/ s = "approved" \/ s = "rejected" \/
  s = "needs_review".

(** One submission or one handled message, by any server or worker. *)
Inductive pipelineStep : World -> World -> Prop :=
| step_submit w w' : submitStep w w' -> pipelineStep w w'
| step_file_message toFixed2 workerId r msg w :
    pipelineStep w (snd (FileWorker.onMessage toFixed2 workerId r msg w))
| step_mongo_message toFixed2 workerId r msg w :
    pipelineStep w (snd (MongoWorker.onMessage toFixed2 workerId r msg w))
| step_keyword_message workerId r msg w :
    pipelineStep w (snd (KeywordWorker.onMessage workerId r msg w)).

(** The worlds reached from an empty store by submissions and handled
    messages only. *)
Inductive pipelineReachable : World -> Prop :=
| pipeline_empty bk tr : pipelineReachable (mkWorld [] bk tr)
| pipeline_step w w' :
    pipelineReachable w -> pipelineStep w w' -> pipelineReachable w'.

(** The optional fields a call of [updatePostStatus] leaves as they were
    because its argument is null, empty or zero. *)
Definition keptWhenOmitted (newStatus : string) (md : option string) (pt : option Z)
           (ts : option float) (rr : option string) (p q : Post) : Prop :=
  (JS.truthyStr md = false -> moderationDetails q = moderationDetails p) /\
  (JS.truthyNum pt = false -> processingTime q = processingTime p) /\
  (ts = None -> toxicityScore q = toxicityScore p) /\
  (JS.truthyStr rr = false -> reviewReason q = reviewReason p) /\
  (isTerminal newStatus = false -> completedAt q = completedAt p).

(** The store after two writes to the job found at [k]: [mid] after the
    first, [after] after the second.  The record shows what the second
    write supplies, and keeps from the first write what the second leaves
    out. *)
Definition secondWriteMerged (postId : string) (k : nat)
           (now1 : Timestamp) (s1 wid1 : string) (md1 : option string)
           (pt1 : option Z) (ts1 : option float) (rr1 : option string)
           (now2 : Timestamp) (s2 wid2 : string) (md2 : option string)
           (pt2 : option Z) (ts2 : option float) (rr2 : option string)
           (before mid after : list Post) : Prop :=
  lastWriteVisible postId k now2 s2 wid2 md2 pt2 ts2 rr2 before after /\
  exists p1 p2,
    nth_error mid k = Some p1 /\ nth_error after k = Some p2 /\
    written now1 s1 wid1 md1 pt1 ts1 rr1 p1 /\
    keptWhenOmitted s2 md2 pt2 ts2 rr2 p1 p2.

(** The record [q] of a job after a handled message whose scoring call
    failed, [p] being the record before: status, reason, detail text and
    worker are those of the degraded decision, the elapsed time is stored
    unless it is zero, and the score and [completedAt] are left as they
    were. *)
Definition degraded (workerId : string) (elapsed : Z) (p q : Post) : Prop :=
  status q = "needs_review" /\
  reviewReason q = Some "API error, requires human review" /\
  moderationDetails q = Some "Failed to analyze content with Perspective API" /\
  worker q = Some workerId /\
  processingTime q = (if Z.eqb elapsed 0 then processingTime p else Some elapsed) /\
  toxicityScore q = toxicityScore p /\
  completedAt q = completedAt p /\
  sameInputFields p q.

(** A post scored borderline and kept for review. *)
Definition reviewedPost : Post :=
  set_reviewReason (Some "Borderline content requiring human evaluation")
    (set_status "needs_review" greatPost).

(** What a worker's row of [/api/processing-times] adds up to, said
    with filters: its posts, those of them with a non-zero processing
    time, and its posts per final status. *)
Definition tally (workerId : string) (posts : list Post) : MongoReporting.WorkerStats :=
  let mine := filter (MongoReporting.owns workerId) posts in
  let timed := filter (fun p => JS.truthyNum (processingTime p)) mine in
  MongoReporting.mkWorkerStats
    (fold_right Z.add 0%Z
       (map (fun p => match processingTime p with Some t => t | None => 0%Z end) timed))
    (List.length timed)
    (Reporting.countStatus "approved" mine)
    (Reporting.countStatus "rejected" mine)
    (Reporting.countStatus "needs_review" mine).

(** What the query parameters of [GET /api/posts] ask for. *)
Definition statusSelected (filter : option string) (p : Post) : Prop :=
  match filter with
  | None => True
  | Some f => f = "all" \/ status p = f
  end.

Definition periodSelected (startDate : Reporting.Period -> Timestamp)
           (period : option string) (p : Post) : Prop :=
  match period with
  | Some s =>
      match Reporting.periodOf s with
      | Some k => (startDate k <= createdAt p)%Z
      | None => True
      end
  | None => True
  end.

(** The five counts of [computeStats] added up. *)
Definition statusSum (s : Reporting.Stats) : nat :=
  (Reporting.approved s + Reporting.rejected s + Reporting.pending s +
   Reporting.processing s + Reporting.needs_review s)%nat.

(** * Proofs *)

(** ** Strings: substrings and letter case *)

Lemma string_length_ind (P : string -> Prop) :
  (forall s, (forall t, (String.length t < String.length s)%nat -> P t) -> P s) ->
  forall s, P s.
Proof.
  intros H s.
  assert (forall n t, (String.length t < n)%nat -> P t) as G.
  { induction n as [|n IH]; intros t Ht; [lia|].
    apply H. intros u Hu. apply IH. lia. }
  apply (G (S (String.length s))). lia.
Qed.

Lemma lower_kelvin (r : string) :
  JS.toLowerCase (kelvinSign ++ r) = String "k" (JS.toLowerCase r).
Proof. reflexivity. Qed.

Lemma lower_dottedI (r : string) :
  JS.toLowerCase (dottedI ++ r)
  = String "i" (String "204" (String "135" (JS.toLowerCase r))).
Proof. reflexivity. Qed.

Lemma lower_plain (a : ascii) (r : string) :
  special (String a r) = false ->
  JS.toLowerCase (String a r) = String (JS.lowerChar a) (JS.toLowerCase r).
Proof.
  destruct r as [|b [|c r2]]; intros H; [reflexivity| |].
  - cbn in H |- *. rewrite orb_false_r in H. rewrite H. reflexivity.
  - cbn in H. apply orb_false_iff in H as [H1 H2].
    cbn. rewrite H1, H2. reflexivity.
Qed.

Lemma special_inv (s : string) :
  special s = true ->
  (exists r, s = kelvinSign ++ r) \/ (exists r, s = dottedI ++ r).
Proof.
  destruct s as [|a [|b r1]]; try discriminate.
  intros H. cbn in H. apply orb_true_iff in H as [H|H].
  - right. unfold JS.isDottedI in H. apply andb_true_iff in H as [Ha Hb].
    apply Ascii.eqb_eq in Ha, Hb. subst. exists r1. reflexivity.
  - left. destruct r1 as [|c r2]; [discriminate|].
    unfold JS.isKelvin in H. apply andb_true_iff in H as [H Hc].
    apply andb_true_iff in H as [Ha Hb].
    apply Ascii.eqb_eq in Ha, Hb, Hc. subst. exists r2. reflexivity.
Qed.

(** The three ways a non-empty string starts. *)
Lemma lower_cases (s : string) :
  s = EmptyString \/
  (exists r, s = kelvinSign ++ r) \/
  (exists r, s = dottedI ++ r) \/
  (exists a r, s = String a r /\ special s = false).
Proof.
  destruct s as [|a r]; [left; reflexivity | right].
  destruct (special (String a r)) eqn:E.
  - destruct (special_inv _ E) as [H|H]; auto.
  - right; right. exists a, r. auto.
Qed.

Lemma special_app (pre x : string) :
  pre <> EmptyString -> safeHead x = true -> special (pre ++ x) = special pre.
Proof.
  intros Hne Hx.
  destruct pre as [|a [|b [|c r]]]; [contradiction| | |reflexivity];
    destruct x as [|h t]; try reflexivity;
    cbn in Hx; apply andb_true_iff in Hx as [Hx H176];
    apply andb_true_iff in Hx as [H132 H170];
    apply negb_true_iff in H132, H170, H176.
  - cbn. unfold JS.isDottedI, JS.isKelvin. rewrite H132, H176, !andb_false_r.
    now destruct t.
  - cbn. unfold JS.isKelvin. rewrite H170, !andb_false_r. reflexivity.
Qed.

Ltac ascii_cases a := destruct a as [[] [] [] [] [] [] [] []].

Lemma isAscii_lowerChar (a : ascii) :
  isAscii (JS.lowerChar a) = true -> isAscii a = true.
Proof. ascii_cases a; vm_compute; intros H; exact H. Qed.

Lemma isAscii_plain (a : ascii) (r : string) :
  isAscii a = true -> special (String a r) = false.
Proof.
  intros H.
  assert (Ascii.eqb a "196" = false /\ Ascii.eqb a "226" = false) as [H1 H2]
      by (revert H; ascii_cases a; vm_compute; intros H; split; congruence).
  destruct r as [|b [|c r2]]; cbn; unfold JS.isDottedI, JS.isKelvin;
    rewrite ?H1, ?H2; reflexivity.
Qed.

Lemma isAscii_safe (a : ascii) (r : string) :
  isAscii a = true -> safeHead (String a r) = true.
Proof. ascii_cases a; vm_compute; intros H; congruence. Qed.

(** An all-ASCII lower case comes from whole characters, so what follows
    is lowered on its own. *)
Lemma lower_app_ascii (w post : string) :
  asciiOnly (JS.toLowerCase w) = true ->
  JS.toLowerCase (w ++ post) = JS.toLowerCase w ++ JS.toLowerCase post.
Proof.
  induction w as [w IH] using string_length_ind. intros H.
  destruct (lower_cases w) as [-> | [[r ->] | [[r ->] | (a & r & -> & Hp)]]].
  - reflexivity.
  - change ((kelvinSign ++ r) ++ post) with (kelvinSign ++ (r ++ post)).
    rewrite !lower_kelvin in *. cbn [append]. f_equal.
    apply IH; [cbn; lia | exact H].
  - rewrite lower_dottedI in H. discriminate H.
  - rewrite (lower_plain _ _ Hp) in *. cbn [asciiOnly] in H.
    apply andb_true_iff in H as [Ha Hr]. apply isAscii_lowerChar in Ha.
    change (String a r ++ post) with (String a (r ++ post)).
    rewrite (lower_plain _ _ (isAscii_plain a (r ++ post) Ha)).
    cbn [append]. f_equal. apply IH; [cbn; lia | exact Hr].
Qed.

Lemma lower_ascii_safe (w post : string) :
  w <> EmptyString -> asciiOnly (JS.toLowerCase w) = true ->
  safeHead (w ++ post) = true.
Proof.
  intros Hne H.
  destruct (lower_cases w) as [-> | [[r ->] | [[r ->] | (a & r & -> & Hp)]]].
  - contradiction.
  - reflexivity.
  - rewrite lower_dottedI in H. discriminate H.
  - rewrite (lower_plain _ _ Hp) in H. cbn [asciiOnly] in H.
    apply andb_true_iff in H as [Ha _]. apply isAscii_lowerChar in Ha.
    apply (isAscii_safe a (r ++ post) Ha).
Qed.

(** What precedes a safe byte is lowered on its own. *)
Lemma lower_app_safe (pre x : string) :
  safeHead x = true ->
  JS.toLowerCase (pre ++ x) = JS.toLowerCase pre ++ JS.toLowerCase x.
Proof.
  intros Hx. induction pre as [pre IH] using string_length_ind.
  destruct (lower_cases pre) as [-> | [[r ->] | [[r ->] | (a & r & -> & Hp)]]].
  - reflexivity.
  - change ((kelvinSign ++ r) ++ x) with (kelvinSign ++ (r ++ x)).
    rewrite !lower_kelvin. cbn [append]. f_equal. apply IH. cbn; lia.
  - change ((dottedI ++ r) ++ x) with (dottedI ++ (r ++ x)).
    rewrite !lower_dottedI. cbn [append]. do 3 f_equal. apply IH. cbn; lia.
  - assert (special (String a r ++ x) = false) as Hq
        by (rewrite special_app; [exact Hp | discriminate | exact Hx]).
    change (String a r ++ x) with (String a (r ++ x)) in *.
    rewrite (lower_plain _ _ Hp), (lower_plain _ _ Hq).
    cbn [append]. f_equal. apply IH. cbn; lia.
Qed.

Lemma endsWith_i_tail (x : ascii) (k : string) :
  endsWith_i (String x k) = false -> endsWith_i k = false.
Proof. destruct k; [reflexivity | intros H; exact H]. Qed.

Lemma startsWith_lower_split (k c : string) :
  asciiOnly k = true -> endsWith_i k = false ->
  JS.startsWith (JS.toLowerCase c) k = true ->
  exists w post, c = w ++ post /\ JS.toLowerCase w = k.
Proof.
  revert c. induction k as [|x k IH]; intros c Ha He H.
  - exists EmptyString, c. auto.
  - cbn [asciiOnly] in Ha. apply andb_true_iff in Ha as [Hx Hk].
    pose proof (endsWith_i_tail _ _ He) as He'.
    destruct (lower_cases c) as [-> | [[r ->] | [[r ->] | (a & r & -> & Hp)]]].
    + discriminate H.
    + rewrite lower_kelvin in H. cbn [JS.startsWith] in H.
      apply andb_true_iff in H as [Hc Hr]. apply Ascii.eqb_eq in Hc. subst x.
      destruct (IH r Hk He' Hr) as (w & post & -> & Hw).
      exists (kelvinSign ++ w), post. split; [reflexivity|].
      rewrite lower_kelvin, Hw. reflexivity.
    + rewrite lower_dottedI in H. cbn [JS.startsWith] in H.
      apply andb_true_iff in H as [Hc Hr]. apply Ascii.eqb_eq in Hc. subst x.
      destruct k as [|y k]; [discriminate He|].
      cbn [JS.startsWith] in Hr. apply andb_true_iff in Hr as [Hy _].
      apply Ascii.eqb_eq in Hy. subst y. discriminate Hk.
    + rewrite (lower_plain _ _ Hp) in H. cbn [JS.startsWith] in H.
      apply andb_true_iff in H as [Hc Hr]. apply Ascii.eqb_eq in Hc. subst x.
      apply isAscii_lowerChar in Hx.
      destruct (IH r Hk He' Hr) as (w & post & -> & Hw).
      exists (String a w), post. split; [reflexivity|].
      rewrite (lower_plain _ _ (isAscii_plain a w Hx)), Hw. reflexivity.
Qed.

Lemma startsWith_nonAscii (y : ascii) (s k : string) :
  isAscii y = false -> asciiOnly k = true ->
  JS.startsWith (String y s) k = true -> k = EmptyString.
Proof.
  intros Hy Hk H. destruct k as [|x k]; [reflexivity|].
  cbn [JS.startsWith asciiOnly] in H, Hk.
  apply andb_true_iff in H as [Hx _]. apply Ascii.eqb_eq in Hx.
  subst x. rewrite Hy in Hk. discriminate Hk.
Qed.

Lemma includes_lower_split (k c : string) :
  asciiOnly k = true -> endsWith_i k = false ->
  JS.includes (JS.toLowerCase c) k = true ->
  exists pre w post, c = pre ++ w ++ post /\ JS.toLowerCase w = k.
Proof.
  intros Ha He. induction c as [c IH] using string_length_ind. intros H.
  destruct (JS.startsWith (JS.toLowerCase c) k) eqn:E.
  { destruct (startsWith_lower_split k c Ha He E) as (w & post & -> & Hw).
    exists EmptyString, w, post. auto. }
  assert (forall y s, isAscii y = false -> JS.startsWith (String y s) k = false) as Hn.
  { intros y s Hy. destruct (JS.startsWith (String y s) k) eqn:F; [|reflexivity].
    apply (startsWith_nonAscii y s k Hy Ha) in F. subst k.
    destruct (JS.toLowerCase c); discriminate E. }
  destruct (lower_cases c) as [-> | [[r ->] | [[r ->] | (a & r & -> & Hp)]]].
  - cbn in H, E. rewrite E in H. discriminate H.
  - rewrite lower_kelvin in H, E. cbn [JS.includes] in H. rewrite E in H.
    destruct (IH r) as (pre & w & post & -> & Hw); [cbn; lia | exact H |].
    exists (kelvinSign ++ pre), w, post. auto.
  - rewrite lower_dottedI in H, E. cbn [JS.includes] in H.
    rewrite E, !Hn in H by reflexivity.
    destruct (IH r) as (pre & w & post & -> & Hw); [cbn; lia | exact H |].
    exists (dottedI ++ pre), w, post. auto.
  - rewrite (lower_plain _ _ Hp) in H, E. cbn [JS.includes] in H. rewrite E in H.
    destruct (IH r) as (pre & w & post & -> & Hw); [cbn; lia | exact H |].
    exists (String a pre), w, post. auto.
Qed.

Lemma startsWith_app (w r : string) : JS.startsWith (w ++ r) w = true.
Proof.
  induction w as [|c w IH]; simpl; [now destruct r|].
  now rewrite Ascii.eqb_refl, IH.
Qed.

Lemma startsWith_inv (s sub : string) :
  JS.startsWith s sub = true -> exists r, s = sub ++ r.
Proof.
  revert s. induction sub as [|b sub IH]; intros s H.
  - exists s. reflexivity.
  - destruct s as [|a s]; simpl in H; [discriminate|].
    apply andb_true_iff in H as [Hab Hs].
    apply Ascii.eqb_eq in Hab. subst b.
    destruct (IH s Hs) as [r ->]. exists r. reflexivity.
Qed.

Lemma includes_startsWith (s sub : string) :
  JS.startsWith s sub = true -> JS.includes s sub = true.
Proof.
  intros H. destruct s as [|a s].
  - destruct sub; [reflexivity | discriminate].
  - change (JS.startsWith (String a s) sub || JS.includes s sub = true).
    rewrite H. reflexivity.
Qed.

Lemma includes_app (pre w post : string) :
  JS.includes (pre ++ w ++ post) w = true.
Proof.
  induction pre as [|c pre IH].
  - change (EmptyString ++ w ++ post) with (w ++ post).
    apply includes_startsWith, startsWith_app.
  - change (JS.startsWith (String c (pre ++ w ++ post)) w
            || JS.includes (pre ++ w ++ post) w = true).
    rewrite IH. apply orb_true_r.
Qed.

Lemma includes_inv (s sub : string) :
  JS.includes s sub = true -> exists pre post, s = pre ++ sub ++ post.
Proof.
  induction s as [|c s IH]; intros H.
  - destruct sub; [|discriminate].
    exists EmptyString, EmptyString. reflexivity.
  - change (JS.startsWith (String c s) sub || JS.includes s sub = true) in H.
    apply orb_true_iff in H as [H|H].
    + destruct (startsWith_inv _ _ H) as [r Hr].
      exists EmptyString, r. exact Hr.
    + destruct (IH H) as (pre & post & ->).
      exists (String c pre), post. reflexivity.
Qed.

Lemma includes_lower_app (k pre w post : string) :
  asciiOnly k = true -> JS.toLowerCase w = k ->
  JS.includes (JS.toLowerCase (pre ++ w ++ post)) k = true.
Proof.
  intros Ha Hw. destruct w as [|a w'] eqn:Ew.
  - cbn in Hw. subst k. apply includes_startsWith.
    now destruct (JS.toLowerCase _).
  - rewrite <- Ew in *. assert (w <> EmptyString) as Hne by (subst w; discriminate).
    rewrite <- Hw in Ha.
    rewrite (lower_app_safe pre (w ++ post) (lower_ascii_safe w post Hne Ha)),
      (lower_app_ascii w post Ha), Hw.
    apply includes_app.
Qed.

(** The host's test [lower.includes(kw)] is containment up to letter case,
    for a keyword of ASCII characters that is in lower case and does not
    end in 'i'. *)
Lemma includes_lower_iff (k content : string) :
  asciiOnly k = true -> endsWith_i k = false -> JS.toLowerCase k = k ->
  JS.includes (JS.toLowerCase content) k = true <-> containsTerm content k.
Proof.
  intros Ha He Hk. unfold containsTerm. rewrite Hk. split.
  - apply includes_lower_split; assumption.
  - intros (pre & w & post & -> & Hw). apply includes_lower_app; assumption.
Qed.

(** The configured terms are non-empty, ASCII and already in lower case. *)
Lemma blockedKeywords_shape : Forall plainKeyword blockedKeywords.
Proof.
  unfold blockedKeywords, plainKeyword. repeat constructor; discriminate.
Qed.

Lemma keywordList_hit_iff (kws : list string) (content : string) :
  Forall plainKeyword kws ->
  (JS.truthyStr
     (find (fun keyword => JS.includes (JS.toLowerCase content) keyword) kws) = true
   <-> exists kw, In kw kws /\ containsTerm content kw).
Proof.
  intros Hs. rewrite Forall_forall in Hs. split.
  - destruct (find _ kws) as [k|] eqn:F; [intros _ | discriminate].
    apply find_some in F as [Hin Hinc].
    destruct (Hs k Hin) as (Hk & _ & Ha & He).
    exists k. split; [exact Hin|].
    apply (includes_lower_iff k content Ha He Hk), Hinc.
  - intros (kw & Hin & Hc).
    destruct (find _ kws) as [k|] eqn:F.
    + apply find_some in F as [Hk _].
      destruct (Hs k Hk) as (_ & Hne & _). simpl.
      destruct (String.eqb_spec k EmptyString); [contradiction | reflexivity].
    + exfalso.
      pose proof (find_none _ _ F kw Hin) as Hn. simpl in Hn.
      destruct (Hs kw Hin) as (Hk & _ & Ha & He).
      apply (includes_lower_iff kw content Ha He Hk) in Hc. congruence.
Qed.

(** The code's deny-list test agrees with the specification's wording. *)
Lemma denyList_hit_iff (content : string) :
  JS.truthyStr
    (find (fun keyword => JS.includes (JS.toLowerCase content) keyword)
          blockedKeywords) = true
  <-> containsBlocked content.
Proof. apply keywordList_hit_iff, blockedKeywords_shape. Qed.

Lemma denyList_miss (content : string) :
  ~ containsBlocked content ->
  JS.truthyStr
    (find (fun keyword => JS.includes (JS.toLowerCase content) keyword)
          blockedKeywords) = false.
Proof.
  intros H. destruct (JS.truthyStr _) eqn:E; [|reflexivity].
  exfalso. apply H, denyList_hit_iff, E.
Qed.

(** ** Binary64 comparisons against the two thresholds *)

Lemma SFcompare_swap (x y : spec_float) :
  SFcompare y x = option_map CompOpp (SFcompare x y).
Proof.
  destruct x as [s|s| |s m e], y as [s'|s'| |s' m' e'];
    try destruct s; try destruct s'; try reflexivity;
    unfold SFcompare; simpl option_map;
    rewrite (Z.compare_antisym e' e);
    destruct (Z.compare e' e); simpl CompOpp; try reflexivity;
    change (PosDef.Pos.compare_cont Eq) with Pos.compare;
    rewrite (Pos.compare_antisym m' m); try reflexivity;
    now destruct (Pos.compare m' m).
Qed.

Lemma ltb_false_of_leb (x y : float) :
  PrimFloat.leb x y = true -> PrimFloat.ltb y x = false.
Proof.
  rewrite leb_spec, ltb_spec. unfold SFleb, SFltb.
  rewrite (SFcompare_swap (Prim2SF x) (Prim2SF y)).
  now destruct (SFcompare (Prim2SF x) (Prim2SF y)) as [[]|].
Qed.

Lemma leb_false_of_ltb (x y : float) :
  PrimFloat.ltb x y = true -> PrimFloat.leb y x = false.
Proof.
  rewrite leb_spec, ltb_spec. unfold SFleb, SFltb.
  rewrite (SFcompare_swap (Prim2SF x) (Prim2SF y)).
  now destruct (SFcompare (Prim2SF x) (Prim2SF y)) as [[]|].
Qed.

Lemma Prim2SF_high : Prim2SF 0.8 = sfHigh.
Proof. vm_compute. reflexivity. Qed.

Lemma Prim2SF_low : Prim2SF 0.5 = sfLow.
Proof. vm_compute. reflexivity. Qed.

Lemma mantissa_order : (7205759403792794 < 4503599627370496)%positive -> False.
Proof. intro H. discriminate H. Qed.

Lemma SFcompare_finite_pos (m1 : positive) (e1 : Z) (m2 : positive) (e2 : Z) :
  SFcompare (S754_finite false m1 e1) (S754_finite false m2 e2) =
  Some (match Z.compare e1 e2 with
        | Lt => Lt
        | Gt => Gt
        | Eq => Pos.compare m1 m2
        end).
Proof. unfold SFcompare. destruct (Z.compare e1 e2); reflexivity. Qed.

Lemma SFltb_low_high (x : spec_float) :
  SFltb x sfLow = true -> SFltb sfHigh x = false.
Proof.
  unfold SFltb, sfLow, sfHigh.
  destruct x as [s|s| |s m e]; try reflexivity.
  - destruct s; [reflexivity | discriminate].
  - destruct s; [reflexivity|].
    rewrite !SFcompare_finite_pos, (Z.compare_antisym e (-53)).
    destruct (Z.compare e (-53)); simpl CompOpp; cbv iota;
      try discriminate; try reflexivity.
    destruct (Pos.compare m 4503599627370496) eqn:E1; try discriminate.
    intros _.
    destruct (Pos.compare 7205759403792794 m) eqn:E2; try reflexivity.
    exfalso. apply mantissa_order, (Pos.lt_trans _ _ _ E2 E1).
Qed.

Lemma ltb_high_false_of_ltb_low (x : float) :
  PrimFloat.ltb x 0.5 = true -> PrimFloat.ltb 0.8 x = false.
Proof.
  rewrite !ltb_spec, Prim2SF_high, Prim2SF_low. apply SFltb_low_high.
Qed.

(** ** [Math.max] returns the largest argument *)

Lemma SFcompare_finite_same (s : bool) (m1 : positive) (e1 : Z) (m2 : positive) (e2 : Z) :
  SFcompare (S754_finite s m1 e1) (S754_finite s m2 e2) =
  Some (let c := match Z.compare e1 e2 with
                 | Lt => Lt
                 | Gt => Gt
                 | Eq => Pos.compare m1 m2
                 end in if s then CompOpp c else c).
Proof. unfold SFcompare. destruct s, (Z.compare e1 e2); reflexivity. Qed.

Lemma lex_trans (e1 e2 e3 : Z) (m1 m2 m3 : positive) :
  let c a b x y := match Z.compare a b with Lt => Lt | Gt => Gt | Eq => Pos.compare x y end in
  c e1 e2 m1 m2 <> Gt -> c e2 e3 m2 m3 <> Gt -> c e1 e3 m1 m3 <> Gt.
Proof.
  cbv beta zeta.
  destruct (Z.compare_spec e1 e2), (Z.compare_spec e2 e3), (Z.compare_spec e1 e3);
    subst; try lia; try congruence;
    destruct (Pos.compare_spec m1 m2), (Pos.compare_spec m2 m3), (Pos.compare_spec m1 m3);
    subst; try lia; congruence.
Qed.

Lemma lex_trans_opp (e1 e2 e3 : Z) (m1 m2 m3 : positive) :
  let c a b x y := match Z.compare a b with Lt => Lt | Gt => Gt | Eq => Pos.compare x y end in
  c e1 e2 m1 m2 <> Lt -> c e2 e3 m2 m3 <> Lt -> c e1 e3 m1 m3 <> Lt.
Proof.
  cbv beta zeta.
  destruct (Z.compare_spec e1 e2), (Z.compare_spec e2 e3), (Z.compare_spec e1 e3);
    subst; try lia; try congruence;
    destruct (Pos.compare_spec m1 m2), (Pos.compare_spec m2 m3), (Pos.compare_spec m1 m3);
    subst; try lia; congruence.
Qed.

Lemma SFleb_trans (x y z : spec_float) :
  SFleb x y = true -> SFleb y z = true -> SFleb x z = true.
Proof.
  unfold SFleb.
  destruct x as [s1|s1| |s1 m1 e1], y as [s2|s2| |s2 m2 e2], z as [s3|s3| |s3 m3 e3];
    try (destruct s1); try (destruct s2); try (destruct s3);
    try reflexivity; try discriminate;
    rewrite ?SFcompare_finite_same; cbv zeta iota;
    try (intros _ _; reflexivity); try (intros H; discriminate H);
    try (intros _ H; discriminate H).
  all: intros H1 H2.
  - pose proof (lex_trans_opp e1 e2 e3 m1 m2 m3) as T. cbv zeta in T.
    destruct (match (e1 ?= e2)%Z with Lt => Lt | Gt => Gt | Eq => (m1 ?= m2)%positive end) eqn:C1;
    destruct (match (e2 ?= e3)%Z with Lt => Lt | Gt => Gt | Eq => (m2 ?= m3)%positive end) eqn:C2;
    destruct (match (e1 ?= e3)%Z with Lt => Lt | Gt => Gt | Eq => (m1 ?= m3)%positive end) eqn:C3;
    simpl in *; try reflexivity; try discriminate; exfalso; apply T; congruence.
  - pose proof (lex_trans e1 e2 e3 m1 m2 m3) as T. cbv zeta in T.
    destruct (match (e1 ?= e2)%Z with Lt => Lt | Gt => Gt | Eq => (m1 ?= m2)%positive end) eqn:C1;
    destruct (match (e2 ?= e3)%Z with Lt => Lt | Gt => Gt | Eq => (m2 ?= m3)%positive end) eqn:C2;
    destruct (match (e1 ?= e3)%Z with Lt => Lt | Gt => Gt | Eq => (m1 ?= m3)%positive end) eqn:C3;
    simpl in *; try reflexivity; try discriminate; exfalso; apply T; congruence.
Qed.

Lemma SFcompare_refl (x : spec_float) :
  x <> S754_nan -> SFcompare x x = Some Eq.
Proof.
  destruct x as [s|s| |s m e]; try (destruct s; reflexivity);
    [intros H; now contradiction H|].
  intros _. rewrite SFcompare_finite_same, Z.compare_refl, Pos.compare_refl.
  now destruct s.
Qed.

Lemma SFcompare_defined (x y : spec_float) :
  x <> S754_nan -> y <> S754_nan -> SFcompare x y <> None.
Proof.
  destruct x as [s|s| |s m e], y as [s'|s'| |s' m' e']; intros Hx Hy;
    try (now contradiction Hx); try (now contradiction Hy); discriminate.
Qed.

Lemma is_nan_false (x : float) :
  PrimFloat.is_nan x = false -> Prim2SF x <> S754_nan.
Proof.
  unfold PrimFloat.is_nan. rewrite eqb_spec. intros H E.
  rewrite E in H. discriminate H.
Qed.

Lemma leb_refl (x : float) : PrimFloat.is_nan x = false -> PrimFloat.leb x x = true.
Proof.
  intros H. rewrite leb_spec. unfold SFleb.
  now rewrite (SFcompare_refl _ (is_nan_false x H)).
Qed.

Lemma leb_of_ltb (x y : float) : PrimFloat.ltb x y = true -> PrimFloat.leb x y = true.
Proof.
  rewrite leb_spec, ltb_spec. unfold SFleb, SFltb.
  now destruct (SFcompare (Prim2SF x) (Prim2SF y)) as [[]|].
Qed.

Lemma leb_of_not_ltb (x y : float) :
  PrimFloat.is_nan x = false -> PrimFloat.is_nan y = false ->
  PrimFloat.ltb y x = false -> PrimFloat.leb x y = true.
Proof.
  intros Hx Hy. rewrite leb_spec, ltb_spec. unfold SFleb, SFltb.
  rewrite (SFcompare_swap (Prim2SF x) (Prim2SF y)).
  pose proof (SFcompare_defined _ _ (is_nan_false x Hx) (is_nan_false y Hy)) as D.
  destruct (SFcompare (Prim2SF x) (Prim2SF y)) as [[]|]; simpl; congruence.
Qed.

Lemma leb_trans (x y z : float) :
  PrimFloat.leb x y = true -> PrimFloat.leb y z = true -> PrimFloat.leb x z = true.
Proof. rewrite !leb_spec. apply SFleb_trans. Qed.

Lemma max2_spec (a b : float) :
  PrimFloat.is_nan a = false -> PrimFloat.is_nan b = false ->
  (JS.max2 a b = a \/ JS.max2 a b = b) /\
  PrimFloat.leb a (JS.max2 a b) = true /\ PrimFloat.leb b (JS.max2 a b) = true.
Proof.
  intros Ha Hb. unfold JS.max2. rewrite Ha, Hb. simpl orb. cbv iota.
  destruct (PrimFloat.ltb a b) eqn:Lab.
  - split; [now right|]. split; [now apply leb_of_ltb | now apply leb_refl].
  - destruct (PrimFloat.ltb b a) eqn:Lba.
    + split; [now left|]. split; [now apply leb_refl | now apply leb_of_ltb].
    + destruct (PrimFloat.get_sign a).
      * split; [now right|]. split; [now apply leb_of_not_ltb | now apply leb_refl].
      * split; [now left|]. split; [now apply leb_refl | now apply leb_of_not_ltb].
Qed.

Lemma Prim2SF_neg_infinity : Prim2SF PrimFloat.neg_infinity = S754_infinity true.
Proof. vm_compute. reflexivity. Qed.

Lemma max2_neg_infinity (t : float) :
  PrimFloat.is_nan t = false -> JS.max2 PrimFloat.neg_infinity t = t.
Proof.
  intros Ht. unfold JS.max2. rewrite Ht.
  change (PrimFloat.is_nan PrimFloat.neg_infinity) with false.
  change (PrimFloat.get_sign PrimFloat.neg_infinity) with true.
  simpl orb. cbv iota.
  destruct (PrimFloat.ltb PrimFloat.neg_infinity t); [reflexivity|].
  assert (PrimFloat.ltb t PrimFloat.neg_infinity = false) as ->; [|reflexivity].
  rewrite ltb_spec, Prim2SF_neg_infinity. unfold SFltb.
  now destruct (Prim2SF t) as [[]|[]| |[] m e].
Qed.

Lemma Math_max_is_max (t i p : float) :
  PrimFloat.is_nan t = false -> PrimFloat.is_nan i = false ->
  PrimFloat.is_nan p = false ->
  let m := JS.Math_max [t; i; p] in
  In m [t; i; p] /\
  PrimFloat.leb t m = true /\ PrimFloat.leb i m = true /\ PrimFloat.leb p m = true.
Proof.
  intros Ht Hi Hp. unfold JS.Math_max. simpl fold_left.
  rewrite (max2_neg_infinity t Ht).
  destruct (max2_spec t i Ht Hi) as (C1 & Lt1 & Li1).
  assert (PrimFloat.is_nan (JS.max2 t i) = false) as H1
      by (destruct C1 as [-> | ->]; assumption).
  destruct (max2_spec (JS.max2 t i) p H1 Hp) as (C2 & L12 & Lp2).
  cbv zeta. split; [|split; [|split]].
  - destruct C2 as [-> | ->]; [destruct C1 as [-> | ->]|]; simpl; auto.
  - exact (leb_trans _ _ _ Lt1 L12).
  - exact (leb_trans _ _ _ Li1 L12).
  - exact Lp2.
Qed.

(** ** Lists: [findIndex], [modifyAt], [updateFirst] *)

Lemma findIndex_some_nth {A : Type} (f : A -> bool) (l : list A) (k : nat) :
  JS.findIndex f l = Some k ->
  exists x, nth_error l k = Some x /\ f x = true.
Proof.
  revert k. induction l as [|x l IH]; intros k H; simpl in H; [discriminate|].
  destruct (f x) eqn:Fx.
  - injection H as <-. exists x. auto.
  - destruct (JS.findIndex f l) as [j|]; [|discriminate].
    injection H as <-. apply (IH j eq_refl).
Qed.

Lemma findIndex_none_all {A : Type} (f : A -> bool) (l : list A) :
  JS.findIndex f l = None <-> forall x, In x l -> f x = false.
Proof.
  induction l as [|x l IH]; simpl.
  - split; [intros _ y [] | reflexivity].
  - destruct (f x) eqn:Fx.
    + split; [discriminate|]. intros H.
      rewrite (H x (or_introl eq_refl)) in Fx. discriminate.
    + destruct (JS.findIndex f l) as [j|]; simpl.
      * split; [discriminate|]. intros H.
        assert (Some j = None) as E by (apply IH; intros y Hy; apply H; auto).
        discriminate E.
      * split; [|reflexivity]. intros _ y [<-|Hy]; [exact Fx|].
        now apply (proj1 IH).
Qed.

Lemma findIndex_id_none (postId : string) (ps : list Post) :
  JS.findIndex (fun p => String.eqb (id p) postId) ps = None
  <-> ~ In postId (map id ps).
Proof.
  rewrite findIndex_none_all. split.
  - intros H Hin. apply in_map_iff in Hin as (p & <- & Hp).
    specialize (H p Hp). rewrite String.eqb_refl in H. discriminate.
  - intros H p Hp. apply String.eqb_neq. intros E. apply H.
    rewrite <- E. now apply in_map.
Qed.

Lemma modifyAt_nth_same {A : Type} (f : A -> A) (l : list A) (k : nat) (x : A) :
  nth_error l k = Some x -> nth_error (modifyAt k f l) k = Some (f x).
Proof.
  revert k. induction l as [|y l IH]; intros [|k] H; simpl in *;
    try discriminate.
  - now injection H as ->.
  - now apply IH.
Qed.

Lemma modifyAt_nth_other {A : Type} (f : A -> A) (l : list A) (k i : nat) :
  i <> k -> nth_error (modifyAt k f l) i = nth_error l i.
Proof.
  revert k i. induction l as [|y l IH]; intros [|k] [|i] H; simpl;
    try reflexivity; try contradiction.
  apply IH. congruence.
Qed.

Lemma modifyAt_map {A B : Type} (g : A -> B) (f : A -> A) (l : list A) (k : nat) :
  (forall x, g (f x) = g x) -> map g (modifyAt k f l) = map g l.
Proof.
  intros H. revert k. induction l as [|y l IH]; intros [|k]; simpl;
    try reflexivity.
  - now rewrite H.
  - now rewrite IH.
Qed.

Lemma updateFirst_found (postId : string) (u : Update) (ds : list Post) (k : nat) :
  JS.findIndex (fun p => String.eqb (id p) postId) ds = Some k ->
  updateFirst postId u ds = (modifyAt k (applySet u) ds, 1%nat).
Proof.
  revert k. induction ds as [|d ds IH]; intros k H; simpl in *; [discriminate|].
  destruct (String.eqb (id d) postId).
  - now injection H as <-.
  - destruct (JS.findIndex _ ds) as [j|]; [|discriminate].
    injection H as <-. now rewrite (IH j eq_refl).
Qed.

Lemma updateFirst_missing (postId : string) (u : Update) (ds : list Post) :
  JS.findIndex (fun p => String.eqb (id p) postId) ds = None ->
  updateFirst postId u ds = (ds, 0%nat).
Proof.
  induction ds as [|d ds IH]; intros H; simpl in *; [reflexivity|].
  destruct (String.eqb (id d) postId); [discriminate|].
  destruct (JS.findIndex _ ds) as [j|]; [discriminate|].
  now rewrite IH.
Qed.

(** The [$set] of a worker leaves the input fields alone. *)
Lemma applySet_inputs (u : Update) (p : Post) : sameInputFields p (applySet u p).
Proof.
  destruct u as [[?|] [?|] [?|] [?|] [?|] [?|] [?|]];
    repeat split; reflexivity.
Qed.

Lemma applySet_id (u : Update) (p : Post) : id (applySet u p) = id p.
Proof. apply (applySet_inputs u p). Qed.

(** The field assignments of the file worker are the [$set] of the
    document the MongoDB worker builds. *)
Lemma assign_applySet now status workerId md pt ts rr (p : Post) :
  FileWorker.assign now status workerId md pt ts rr p =
  applySet (MongoWorker.buildUpdate now status workerId md pt ts rr) p.
Proof.
  unfold FileWorker.assign, MongoWorker.buildUpdate, applySet, setWith; simpl.
  destruct md as [m|], pt as [t|], ts as [x|], rr as [r|]; simpl;
    repeat match goal with
           | |- context [if ?b then _ else _] => destruct b
           end; reflexivity.
Qed.

Lemma modifyAt_ext {A : Type} (f g : A -> A) (l : list A) (k : nat) :
  (forall x, f x = g x) -> modifyAt k f l = modifyAt k g l.
Proof.
  intros H. revert k. induction l as [|y l IH]; intros [|k]; simpl;
    try reflexivity.
  - now rewrite H.
  - now rewrite IH.
Qed.

(** ** What one call of [updatePostStatus] does *)

Lemma file_update_run io now postId status workerId md pt ts rr (w : World) :
  FileWorker.updatePostStatus io now postId status workerId md pt ts rr w =
  (Val tt,
   if FileWorker.readOk io then
     match JS.findIndex (fun p => String.eqb (id p) postId) (posts w) with
     | Some k =>
         if FileWorker.writeOk io then
           mkWorld (modifyAt k (FileWorker.assign now status workerId md pt ts rr)
                             (posts w))
                   (backups w)
                   (Console LogInfo ("Updated post " ++ postId ++ " status to " ++ status)
                    :: StoreWrite :: trace w)
         else
           mkWorld (posts w) (backups w)
                   (Console LogError ("Error updating post " ++ postId ++ ":")
                    :: Console LogError "Error writing posts:" :: trace w)
     | None =>
         mkWorld (posts w) (backups w)
                 (Console LogInfo ("Post " ++ postId ++ " not found") :: trace w)
     end
   else
     mkWorld (posts w) (backups w)
             (Console LogInfo ("Post " ++ postId ++ " not found")
              :: Console LogError "Error reading posts:" :: trace w)).
Proof.
  unfold FileWorker.updatePostStatus, FileWorker.readPosts, FileWorker.writePosts,
    tryCatch, bind, console, emit, getPosts, putPosts, throw, ret.
  destruct io as [[] wr]; simpl; [|reflexivity].
  destruct (JS.findIndex _ (posts w)); [|reflexivity].
  destruct wr; reflexivity.
Qed.

Lemma mongo_update_run tag ok now postId status workerId md pt ts rr (w : World) :
  MongoWorker.updatePostStatus tag ok now postId status workerId md pt ts rr w =
  (Val tt,
   if ok then
     match JS.findIndex (fun p => String.eqb (id p) postId) (posts w) with
     | Some k =>
         mkWorld (modifyAt k (applySet (MongoWorker.buildUpdate
                                          now status workerId md pt ts rr))
                           (posts w))
                 (backups w)
                 (Console LogInfo (tag ++ ": Updated post " ++ postId ++
                                   " status to " ++ status)
                  :: StoreWrite :: trace w)
     | None =>
         mkWorld (posts w) (backups w)
                 (Console LogInfo (tag ++ ": Post " ++ postId ++ " not found")
                  :: trace w)
     end
   else
     mkWorld (posts w) (backups w)
             (Console LogError (tag ++ ": Error updating post " ++ postId ++ ":")
              :: trace w)).
Proof.
  unfold MongoWorker.updatePostStatus, updateOne, tryCatch, bind, console, emit,
    throw, ret.
  destruct ok; [|reflexivity].
  destruct (JS.findIndex _ (posts w)) as [k|] eqn:F.
  - rewrite (updateFirst_found _ _ _ _ F). reflexivity.
  - rewrite (updateFirst_missing _ _ _ F). reflexivity.
Qed.

(** Either worker's call leaves the store as it was, or applies one [$set]
    carrying the new status to the first record with the given id. *)
Lemma updateStep_effect (postId status : string) (w w' : World) :
  updateStep postId status w w' ->
  posts w' = posts w \/
  exists k now workerId md pt ts rr,
    JS.findIndex (fun p => String.eqb (id p) postId) (posts w) = Some k /\
    posts w' = modifyAt k (applySet (MongoWorker.buildUpdate
                                       now status workerId md pt ts rr))
                        (posts w).
Proof.
  intros [io now wid md pt ts rr w0 | tag ok now wid md pt ts rr w0].
  - rewrite file_update_run. simpl.
    destruct (FileWorker.readOk io); [|now left].
    destruct (JS.findIndex _ (posts w0)) as [k|] eqn:F; [|now left].
    destruct (FileWorker.writeOk io); [|now left].
    right. exists k, now, wid, md, pt, ts, rr. split; [reflexivity|].
    simpl. apply modifyAt_ext. intros p. apply assign_applySet.
  - rewrite mongo_update_run. simpl.
    destruct ok; [|now left].
    destruct (JS.findIndex _ (posts w0)) as [k|] eqn:F; [|now left].
    right. exists k, now, wid, md, pt, ts, rr. auto.
Qed.

Lemma modifyAt_Forall {A : Type} (P : A -> Prop) (f : A -> A) (l : list A) (k : nat) :
  (forall x, P x -> P (f x)) -> Forall P l -> Forall P (modifyAt k f l).
Proof.
  intros Hf H. revert k. induction H as [|x l Hx Hl IH]; intros [|k]; simpl;
    constructor; auto.
Qed.

Lemma updateFirst_Forall (P : Post -> Prop) postId (u : Update) (ds : list Post) :
  (forall p, P p -> P (applySet u p)) ->
  Forall P ds -> Forall P (fst (updateFirst postId u ds)).
Proof.
  intros Hu H. induction H as [|d ds Hd Hds IH]; simpl; [constructor|].
  destruct (String.eqb (id d) postId); simpl.
  - constructor; auto.
  - destruct (updateFirst postId u ds) as [ds' n]. simpl in *.
    constructor; auto.
Qed.

(** ** [completedAt] and terminal statuses *)

Lemma workerSet_terminalCompleted now status workerId md pt ts rr (p : Post) :
  terminalCompleted
    (applySet (MongoWorker.buildUpdate now status workerId md pt ts rr) p).
Proof.
  unfold terminalCompleted, MongoWorker.buildUpdate, applySet, setWith; simpl.
  destruct (isTerminal status) eqn:T; simpl.
  - intros _. discriminate.
  - destruct (if JS.truthyStr md then md else None),
             (if JS.truthyNum pt then pt else None), ts,
             (if JS.truthyStr rr then rr else None); simpl;
      rewrite T; discriminate.
Qed.

Lemma workerSet_completedAt now status workerId md pt ts rr (p : Post) :
  completedAt (applySet (MongoWorker.buildUpdate now status workerId md pt ts rr) p)
  = if isTerminal status then Some now else completedAt p.
Proof.
  unfold MongoWorker.buildUpdate, applySet, setWith; simpl.
  destruct (isTerminal status),
           (if JS.truthyStr md then md else None),
           (if JS.truthyNum pt then pt else None), ts,
           (if JS.truthyStr rr then rr else None); reflexivity.
Qed.

Lemma updateStep_terminalCompleted postId status (w w' : World) :
  updateStep postId status w w' ->
  Forall terminalCompleted (posts w) -> Forall terminalCompleted (posts w').
Proof.
  intros Hs H.
  destruct (updateStep_effect _ _ _ _ Hs)
    as [-> | (k & now & wid & md & pt & ts & rr & _ & ->)]; [exact H|].
  apply modifyAt_Forall; [|exact H].
  intros p _. apply workerSet_terminalCompleted.
Qed.

Lemma newPost_terminalCompleted uuid now req :
  terminalCompleted (newPost uuid now req).
Proof. unfold terminalCompleted. simpl. discriminate. Qed.

Lemma processingSet_terminalCompleted (p : Post) :
  terminalCompleted
    (applySet (mkUpdate (Some "processing") None None None None None None) p).
Proof. unfold terminalCompleted. simpl. discriminate. Qed.

Lemma submitStep_terminalCompleted (w w' : World) :
  submitStep w w' ->
  Forall terminalCompleted (posts w) -> Forall terminalCompleted (posts w').
Proof.
  intros [env req w0 | env req w0] H.
  - unfold FileServer.submit, FileServer.readPosts, FileServer.writePosts,
      sendToQueue, tryCatch, bind, console, emit, getPosts, putPosts, putBackup,
      throw, ret.
    destruct (negb _ || negb _ || negb _); [exact H|].
    destruct env as [u n rd wr ch sd]; simpl.
    assert (Forall terminalCompleted (posts w0 ++ [newPost u n req])) as H1
        by (apply Forall_app; split;
            [exact H | repeat constructor; apply newPost_terminalCompleted]).
    assert (Forall terminalCompleted ([] ++ [newPost u n req])) as H2
        by (repeat constructor; apply newPost_terminalCompleted).
    destruct rd, wr, ch, sd; simpl; assumption.
  - unfold MongoServer.submit, insertOne, updateOne, sendToQueue, tryCatch,
      bind, console, emit, throw, ret.
    destruct (negb _ || negb _ || negb _); [exact H|].
    destruct env as [u n ins ch sd up]; simpl.
    assert (Forall terminalCompleted (posts w0 ++ [newPost u n req])) as H1
        by (apply Forall_app; split;
            [exact H | repeat constructor; apply newPost_terminalCompleted]).
    pose proof (updateFirst_Forall terminalCompleted u
                  (mkUpdate (Some "processing") None None None None None None)
                  _ (fun p _ => processingSet_terminalCompleted p) H1) as H2.
    destruct ins, ch, sd, up; simpl; try assumption.
    destruct (updateFirst u _ (posts w0 ++ [newPost u n req])) as [ds k].
    exact H2.
Qed.

Lemma reachable_terminalCompleted (w : World) :
  reachable w -> Forall terminalCompleted (posts w).
Proof.
  induction 1 as [bk tr | w w' _ IH Hs | postId status w w' _ IH Hs].
  - constructor.
  - exact (submitStep_terminalCompleted _ _ Hs IH).
  - exact (updateStep_terminalCompleted _ _ _ _ Hs IH).
Qed.

(** C1 (as amended): in every store the pipeline can reach, a record whose
    status is 'approved' or 'rejected' has a non-null [completedAt]; a call
    of [updatePostStatus] keeps every record in place, never clears a
    [completedAt] that is set, and leaves [completedAt] as it was when the
    status it writes is not terminal. *)
Theorem completedAt_set_on_terminal (w : World) :
  reachable w ->
  Forall terminalCompleted (posts w) /\
  forall postId status w', updateStep postId status w w' ->
    forall i p, nth_error (posts w) i = Some p ->
      exists p', nth_error (posts w') i = Some p' /\
                 (completedAt p <> None -> completedAt p' <> None) /\
                 (isTerminal status = false -> completedAt p' = completedAt p).
Proof.
  intros Hr. split; [now apply reachable_terminalCompleted|].
  intros postId status w' Hs i p Hp.
  destruct (updateStep_effect _ _ _ _ Hs)
    as [-> | (k & now & wid & md & pt & ts & rr & _ & ->)].
  - exists p. auto.
  - destruct (Nat.eq_dec i k) as [->|Hik].
    + exists (applySet (MongoWorker.buildUpdate now status wid md pt ts rr) p).
      split; [now apply modifyAt_nth_same|].
      rewrite workerSet_completedAt.
      destruct (isTerminal status); split; auto; discriminate.
    + exists p. rewrite (modifyAt_nth_other _ _ _ _ Hik). auto.
Qed.

(** C1, the claim as worded fails: a job is submitted, written 'approved'
    and then, on redelivery, written 'processing'; its record then has a
    non-terminal status and a non-null [completedAt], on either store. *)
Lemma completedAt_survives_reprocessing :
  let created :=
    snd (FileServer.submit
           (FileServer.mkEnv "job-1" 1000%Z true FileServer.WriteOk true true)
           greatRequest emptyWorld) in
  let approved :=
    snd (FileWorker.updatePostStatus fileOk 2000%Z "job-1" "approved" "worker-4001"
           None None None None created) in
  let redelivered :=
    snd (FileWorker.updatePostStatus fileOk 3000%Z "job-1" "processing" "worker-4001"
           None None None None approved) in
  let created' :=
    snd (MongoServer.submit
           (MongoServer.mkEnv "job-1" 1000%Z true true true true)
           greatRequest emptyWorld) in
  let approved' :=
    snd (MongoWorker.updatePostStatus "worker-1" true 2000%Z "job-1" "approved"
           "worker-1" None None None None created') in
  let redelivered' :=
    snd (MongoWorker.updatePostStatus "worker-1" true 3000%Z "job-1" "processing"
           "worker-1" None None None None approved') in
  (exists p, posts redelivered = [p] /\ status p = "processing" /\
             completedAt p = Some 2000%Z /\ ~ completedIffTerminal p) /\
  (exists p, posts redelivered' = [p] /\ status p = "processing" /\
             completedAt p = Some 2000%Z /\ ~ completedIffTerminal p).
Proof.
  split; eexists; (split; [reflexivity|]); (split; [reflexivity|]);
    (split; [reflexivity|]);
    unfold completedIffTerminal; simpl; intros [H _];
    assert (false = true) as E by (apply H; discriminate); discriminate E.
Qed.

Lemma completedAt_set_on_terminal_witness :
  let created :=
    snd (FileServer.submit
           (FileServer.mkEnv "job-1" 1000%Z true FileServer.WriteOk true true)
           greatRequest emptyWorld) in
  let approved :=
    snd (FileWorker.updatePostStatus fileOk 2000%Z "job-1" "approved" "worker-4001"
           None None None None created) in
  reachable approved /\ Forall terminalCompleted (posts approved).
Proof.
  assert (reachable
            (snd (FileWorker.updatePostStatus fileOk 2000%Z "job-1" "approved"
                    "worker-4001" None None None None
                    (snd (FileServer.submit
                            (FileServer.mkEnv "job-1" 1000%Z true
                               FileServer.WriteOk true true)
                            greatRequest emptyWorld))))) as Hr.
  { eapply reach_update; [eapply reach_submit; [apply reach_empty|]|].
    - apply file_submit.
    - apply file_update. }
  split; [exact Hr|].
  exact (proj1 (completedAt_set_on_terminal _ Hr)).
Defined.

(** ** Frame of [updatePostStatus] *)

(** C9: a call of [updatePostStatus] keeps the sequence of record ids (no
    record is removed or added), keeps at every position the fields id,
    title, content, author, category, server and createdAt, and leaves every
    record other than the targeted one (the first with the given id)
    unchanged. *)
Theorem updatePostStatus_frame (postId status : string) (w w' : World) :
  updateStep postId status w w' ->
  map id (posts w') = map id (posts w) /\
  forall i p, nth_error (posts w) i = Some p ->
    exists p', nth_error (posts w') i = Some p' /\
               sameInputFields p p' /\
               (JS.findIndex (fun q => String.eqb (id q) postId) (posts w) <> Some i ->
                p' = p).
Proof.
  intros Hs.
  destruct (updateStep_effect _ _ _ _ Hs)
    as [-> | (k & now & wid & md & pt & ts & rr & F & ->)].
  - split; [reflexivity|]. intros i p Hp. exists p.
    repeat split; auto.
  - split; [apply modifyAt_map, applySet_id|].
    intros i p Hp. destruct (Nat.eq_dec i k) as [->|Hik].
    + eexists. split; [apply modifyAt_nth_same, Hp|].
      split; [apply applySet_inputs|]. intros Hne. now contradiction Hne.
    + exists p. rewrite (modifyAt_nth_other _ _ _ _ Hik).
      repeat split; auto.
Qed.

Lemma updatePostStatus_frame_witness :
  let after :=
    snd (FileWorker.updatePostStatus fileOk 2000%Z "job-1" "approved" "worker-4001"
           (Some "Content approved") (Some 7%Z) None None oneJob) in
  map id (posts after) = ["job-1"] /\
  exists p', nth_error (posts after) 0 = Some p' /\ sameInputFields greatPost p'.
Proof.
  destruct (updatePostStatus_frame "job-1" "approved" oneJob _
              (file_update "job-1" "approved" fileOk 2000%Z "worker-4001"
                 (Some "Content approved") (Some 7%Z) None None oneJob))
    as [Hids Hrec].
  split; [exact Hids|].
  destruct (Hrec 0%nat greatPost eq_refl) as (p' & Hp' & Hsame & _).
  exists p'. split; assumption.
Defined.

(** ** Last writer wins *)

Lemma findIndex_modifyAt {A : Type} (g : A -> bool) (f : A -> A) (l : list A) (k : nat) :
  (forall x, g (f x) = g x) ->
  JS.findIndex g (modifyAt k f l) = JS.findIndex g l.
Proof.
  intros H. revert k. induction l as [|y l IH]; intros [|k]; simpl;
    try reflexivity.
  - now rewrite H.
  - now rewrite IH.
Qed.

Lemma countId_map (postId : string) (ps qs : list Post) :
  map id ps = map id qs -> countId postId ps = countId postId qs.
Proof.
  unfold countId. revert qs.
  induction ps as [|p ps IH]; intros [|q qs] H; simpl in *;
    try discriminate; [reflexivity|].
  injection H as Hid Hrest. rewrite Hid.
  destruct (String.eqb (id q) postId); simpl; now rewrite (IH qs Hrest).
Qed.

Lemma workerSet_written now status workerId md pt ts rr (p : Post) :
  written now status workerId md pt ts rr
    (applySet (MongoWorker.buildUpdate now status workerId md pt ts rr) p).
Proof.
  unfold written, MongoWorker.buildUpdate, applySet, setWith; simpl.
  destruct (JS.truthyStr md) eqn:Tm, (JS.truthyNum pt) eqn:Tp, ts as [x|],
           (JS.truthyStr rr) eqn:Tr, (isTerminal status) eqn:Tt;
    destruct md as [m|], pt as [t|], rr as [r|]; simpl in *;
      try discriminate; repeat split; try reflexivity;
        intros; try discriminate; try contradiction; reflexivity.
Qed.

Lemma workerSet_kept now status workerId md pt ts rr (p : Post) :
  keptWhenOmitted status md pt ts rr p
    (applySet (MongoWorker.buildUpdate now status workerId md pt ts rr) p).
Proof.
  unfold keptWhenOmitted, MongoWorker.buildUpdate, applySet, setWith; simpl.
  destruct (JS.truthyStr md) eqn:Tm, (JS.truthyNum pt) eqn:Tp, ts as [x|],
           (JS.truthyStr rr) eqn:Tr, (isTerminal status) eqn:Tt;
    destruct md as [m|], pt as [t|], rr as [r|]; simpl in *;
      try discriminate; repeat split; intros; try discriminate; reflexivity.
Qed.

Lemma kept_refl status md pt ts rr (p : Post) :
  keptWhenOmitted status md pt ts rr p p.
Proof. repeat split. Qed.

Lemma two_writes_merged postId k (ps : list Post)
      now1 s1 wid1 md1 pt1 ts1 rr1 now2 s2 wid2 md2 pt2 ts2 rr2 :
  JS.findIndex (fun p => String.eqb (id p) postId) ps = Some k ->
  secondWriteMerged postId k now1 s1 wid1 md1 pt1 ts1 rr1
    now2 s2 wid2 md2 pt2 ts2 rr2 ps
    (modifyAt k (applySet (MongoWorker.buildUpdate now1 s1 wid1 md1 pt1 ts1 rr1)) ps)
    (modifyAt k (applySet (MongoWorker.buildUpdate now2 s2 wid2 md2 pt2 ts2 rr2))
       (modifyAt k (applySet (MongoWorker.buildUpdate now1 s1 wid1 md1 pt1 ts1 rr1))
          ps)).
Proof.
  intros F.
  assert (map id
            (modifyAt k (applySet (MongoWorker.buildUpdate now2 s2 wid2 md2 pt2 ts2 rr2))
               (modifyAt k (applySet (MongoWorker.buildUpdate now1 s1 wid1 md1 pt1 ts1 rr1))
                  ps)) = map id ps) as Hids
      by (rewrite !modifyAt_map; auto using applySet_id).
  destruct (findIndex_some_nth _ _ _ F) as (p0 & Hp0 & _).
  split.
  - split; [exact Hids|]. split; [now apply countId_map|].
    eexists. split.
    + apply modifyAt_nth_same, modifyAt_nth_same, Hp0.
    + apply workerSet_written.
  - eexists _, _. split; [apply modifyAt_nth_same, Hp0|].
    split; [apply modifyAt_nth_same, modifyAt_nth_same, Hp0|].
    split; [apply workerSet_written | apply workerSet_kept].
Qed.

(** C4 (as amended): [updatePostStatus] writes the status and the worker
    it is given whatever the record's previous status; after two calls for
    the same job (store I/O succeeding) the store holds the same ids as
    before, each as many times as before, and the record shows every field
    the second call supplies.  The second call merges into the record: a
    field it leaves out keeps the value the record had after the first
    call. *)
Theorem updatePostStatus_second_write_merges
        (w : World) (postId : string) (k : nat) (tag : string)
        now1 s1 wid1 md1 pt1 ts1 rr1 now2 s2 wid2 md2 pt2 ts2 rr2 :
  JS.findIndex (fun p => String.eqb (id p) postId) (posts w) = Some k ->
  (let mid := snd (FileWorker.updatePostStatus fileOk now1 postId s1 wid1
                     md1 pt1 ts1 rr1 w) in
   secondWriteMerged postId k now1 s1 wid1 md1 pt1 ts1 rr1
     now2 s2 wid2 md2 pt2 ts2 rr2 (posts w) (posts mid)
     (posts (snd (FileWorker.updatePostStatus fileOk now2 postId s2 wid2
                    md2 pt2 ts2 rr2 mid)))) /\
  (let mid := snd (MongoWorker.updatePostStatus tag true now1 postId s1 wid1
                     md1 pt1 ts1 rr1 w) in
   secondWriteMerged postId k now1 s1 wid1 md1 pt1 ts1 rr1
     now2 s2 wid2 md2 pt2 ts2 rr2 (posts w) (posts mid)
     (posts (snd (MongoWorker.updatePostStatus tag true now2 postId s2 wid2
                    md2 pt2 ts2 rr2 mid)))).
Proof.
  intros F. cbv zeta.
  pose proof (two_writes_merged postId k (posts w)
                now1 s1 wid1 md1 pt1 ts1 rr1 now2 s2 wid2 md2 pt2 ts2 rr2 F) as H.
  split.
  - rewrite !file_update_run. simpl. rewrite F. simpl.
    rewrite findIndex_modifyAt, F.
    + simpl.
      rewrite (modifyAt_ext _ _ _ _ (assign_applySet now2 s2 wid2 md2 pt2 ts2 rr2)).
      rewrite !(modifyAt_ext _ _ (posts w) _
                  (assign_applySet now1 s1 wid1 md1 pt1 ts1 rr1)).
      exact H.
    + intros p. rewrite assign_applySet, applySet_id. reflexivity.
  - rewrite !mongo_update_run. simpl. rewrite F. simpl.
    rewrite findIndex_modifyAt, F.
    + exact H.
    + intros p. rewrite applySet_id. reflexivity.
Qed.

Lemma updatePostStatus_second_write_merges_witness :
  exists p,
    nth_error
      (posts (snd (FileWorker.updatePostStatus fileOk 3000%Z "job-1" "rejected"
                     "worker-2" None (Some 9%Z) None None
                     (snd (FileWorker.updatePostStatus fileOk 2000%Z "job-1"
                             "needs_review" "worker-1" None (Some 7%Z) None
                             (Some "Borderline content requiring human evaluation")
                             oneJob))))) 0 = Some p /\
    status p = "rejected" /\ worker p = Some "worker-2" /\
    processingTime p = Some 9%Z /\ completedAt p = Some 3000%Z /\
    reviewReason p = Some "Borderline content requiring human evaluation".
Proof.
  destruct (updatePostStatus_second_write_merges oneJob "job-1" 0 "worker-1"
              2000%Z "needs_review" "worker-1" None (Some 7%Z) None
              (Some "Borderline content requiring human evaluation")
              3000%Z "rejected" "worker-2" None (Some 9%Z) None None eq_refl)
    as (((_ & _ & q & Hq & Hst & Hwk & _ & Hpt & _ & _ & Hc)
         & p1 & p2 & Hp1 & Hp2 & (_ & _ & _ & _ & _ & Hr1 & _)
         & (_ & _ & _ & Hkeep & _)) & _).
  exists p2. split; [exact Hp2|].
  cbv zeta in Hq. rewrite Hp2 in Hq. injection Hq as <-.
  split; [exact Hst|]. split; [exact Hwk|].
  split; [exact (Hpt eq_refl)|]. split; [exact (Hc eq_refl)|].
  rewrite (Hkeep eq_refl). exact (Hr1 eq_refl).
Defined.

(** C4, the claim as worded fails: after a 'needs_review' write carrying
    a review reason and an 'approved' write carrying none, the record is
    'approved' and still holds the reason of the first write, so the store
    is not in the state the second write alone leaves; on either store. *)
Lemma second_write_keeps_stale_reason :
  let reason := Some "Borderline content requiring human evaluation" in
  let first1 := FileWorker.updatePostStatus fileOk 2000%Z "job-1" "needs_review"
                  "worker-1" (Some "Content flagged for human review") (Some 7%Z)
                  (Some 0.6%float) reason in
  let second1 := FileWorker.updatePostStatus fileOk 3000%Z "job-1" "approved"
                   "worker-2" (Some "Content approved") (Some 9%Z)
                   (Some 0.2%float) None in
  let first2 := MongoWorker.updatePostStatus "worker-1" true 2000%Z "job-1"
                  "needs_review" "worker-1" (Some "Content flagged for human review")
                  (Some 7%Z) (Some 0.6%float) reason in
  let second2 := MongoWorker.updatePostStatus "worker-2" true 3000%Z "job-1"
                   "approved" "worker-2" (Some "Content approved") (Some 9%Z)
                   (Some 0.2%float) None in
  (map status (posts (snd (second1 (snd (first1 oneJob))))) = ["approved"] /\
   map reviewReason (posts (snd (second1 (snd (first1 oneJob))))) = [reason] /\
   map reviewReason (posts (snd (second1 oneJob))) = [None] /\
   posts (snd (second1 (snd (first1 oneJob)))) <> posts (snd (second1 oneJob))) /\
  (map status (posts (snd (second2 (snd (first2 oneJob))))) = ["approved"] /\
   map reviewReason (posts (snd (second2 (snd (first2 oneJob))))) = [reason] /\
   map reviewReason (posts (snd (second2 oneJob))) = [None] /\
   posts (snd (second2 (snd (first2 oneJob)))) <> posts (snd (second2 oneJob))).
Proof.
  cbv zeta. split; (split; [reflexivity|]); (split; [reflexivity|]);
    (split; [reflexivity|]); intros H;
    apply (f_equal (map reviewReason)) in H; discriminate H.
Qed.

(** ** The classifier *)

Section ClassifierFacts.

Variable toFixed2 : float -> string.

Lemma moderateContent_hit (tag : string) (api : option Scores) (content : string)
      (w : World) :
  containsBlocked content ->
  exists k,
    In k blockedKeywords /\
    moderateContent toFixed2 tag api content w =
    (Val (mkDecision "rejected"
            (Some ("Content rejected due to egregious keyword: " ++ k)) None None),
     w).
Proof.
  intros H. apply denyList_hit_iff in H. unfold moderateContent.
  destruct (find _ blockedKeywords) as [k|] eqn:F; [|discriminate].
  rewrite H. exists k. split; [|reflexivity].
  now apply find_some in F.
Qed.

Lemma moderateContent_scored (tag : string) (t i p : float) (content : string)
      (w : World) :
  ~ containsBlocked content ->
  moderateContent toFixed2 tag (Some (t, i, p)) content w =
  (Val (let maxScore := JS.Math_max [t; i; p] in
        if PrimFloat.ltb 0.8 maxScore then
          mkDecision "rejected"
            (Some ("Content rejected due to high scores: " ++ scoreText toFixed2 t i p))
            (Some maxScore) None
        else if PrimFloat.leb 0.5 maxScore then
          mkDecision "needs_review"
            (Some ("Content flagged for human review: " ++ scoreText toFixed2 t i p))
            (Some maxScore)
            (Some "Borderline content requiring human evaluation")
        else
          mkDecision "approved"
            (Some ("Content approved: " ++ scoreText toFixed2 t i p))
            (Some maxScore) None),
   mkWorld (posts w) (backups w) (ScoringRequest content :: trace w)).
Proof.
  intros H. unfold moderateContent. rewrite (denyList_miss _ H).
  cbv [tryCatch bind axios_post emit ret].
  destruct (PrimFloat.ltb 0.8 (JS.Math_max [t; i; p])); [reflexivity|].
  destruct (PrimFloat.leb 0.5 (JS.Math_max [t; i; p])); reflexivity.
Qed.

Lemma moderateContent_unscored (tag : string) (content : string) (w : World) :
  ~ containsBlocked content ->
  moderateContent toFixed2 tag None content w =
  (Val (mkDecision "needs_review"
          (Some "Failed to analyze content with Perspective API") None
          (Some "API error, requires human review")),
   mkWorld (posts w) (backups w)
           (Console LogError (tag ++ "Perspective API error:")
            :: ScoringRequest content :: trace w)).
Proof.
  intros H. unfold moderateContent. rewrite (denyList_miss _ H). reflexivity.
Qed.

(** The classifier always returns a decision; it touches neither the store
    nor the backups and writes nothing. *)
Lemma moderateContent_returns (tag : string) (api : option Scores)
      (content : string) (w : World) :
  exists d w',
    moderateContent toFixed2 tag api content w = (Val d, w') /\
    posts w' = posts w /\ backups w' = backups w /\
    storeWrites (trace w') = storeWrites (trace w).
Proof.
  destruct (JS.truthyStr
              (find (fun keyword => JS.includes (JS.toLowerCase content) keyword)
                    blockedKeywords)) eqn:E.
  - apply denyList_hit_iff in E.
    destruct (moderateContent_hit tag api content w E) as (k & _ & ->).
    eexists _, w. repeat split.
  - assert (~ containsBlocked content) as H
        by (intros C; apply denyList_hit_iff in C; congruence).
    destruct api as [[[t i] p]|].
    + eexists _, _.
      split; [apply (moderateContent_scored tag t i p content w H)|].
      repeat split.
    + eexists _, _.
      split; [apply (moderateContent_unscored tag content w H)|].
      repeat split.
Qed.

(** C2 (as amended): when the deny-list passes and the scoring service
    answers, the decision depends on the largest of the three scores only:
    above 0.8 it is 'rejected'; from 0.5 to 0.8, both included, it is
    'needs_review' with the reason "Borderline content requiring human
    evaluation" (capital B); below 0.5 it is 'approved'. *)
Theorem moderateContent_thresholds (tag : string) (t i p : float)
        (content : string) (w : World) :
  ~ containsBlocked content ->
  let maxScore := JS.Math_max [t; i; p] in
  exists d,
    moderateContent toFixed2 tag (Some (t, i, p)) content w =
    (Val d, mkWorld (posts w) (backups w) (ScoringRequest content :: trace w)) /\
    d_toxicityScore d = Some maxScore /\
    (PrimFloat.ltb 0.8 maxScore = true -> d_status d = "rejected") /\
    (PrimFloat.leb 0.5 maxScore = true -> PrimFloat.leb maxScore 0.8 = true ->
     d_status d = "needs_review" /\
     d_reviewReason d = Some "Borderline content requiring human evaluation") /\
    (PrimFloat.ltb maxScore 0.5 = true -> d_status d = "approved") /\
    (PrimFloat.is_nan t = false -> PrimFloat.is_nan i = false ->
     PrimFloat.is_nan p = false ->
     In maxScore [t; i; p] /\ PrimFloat.leb t maxScore = true /\
     PrimFloat.leb i maxScore = true /\ PrimFloat.leb p maxScore = true).
Proof.
  intros H maxScore.
  assert (PrimFloat.is_nan t = false -> PrimFloat.is_nan i = false ->
          PrimFloat.is_nan p = false ->
          In maxScore [t; i; p] /\ PrimFloat.leb t maxScore = true /\
          PrimFloat.leb i maxScore = true /\ PrimFloat.leb p maxScore = true)
    as Hmax by (intros Ht Hi Hp; apply (Math_max_is_max t i p Ht Hi Hp)).
  eexists. rewrite (moderateContent_scored tag t i p content w H).
  fold maxScore. cbv zeta.
  split; [reflexivity|].
  destruct (PrimFloat.ltb 0.8 maxScore) eqn:Hhi.
  - split; [reflexivity|]. split; [reflexivity|]. split; [|split; [|exact Hmax]].
    + intros _ Hle. apply ltb_false_of_leb in Hle. congruence.
    + intros Hlo. apply ltb_high_false_of_ltb_low in Hlo. congruence.
  - destruct (PrimFloat.leb 0.5 maxScore) eqn:Hmid.
    + split; [reflexivity|]. split; [discriminate|]. split; [|split; [|exact Hmax]].
      * intros _ _. split; reflexivity.
      * intros Hlo. apply leb_false_of_ltb in Hlo. congruence.
    + split; [reflexivity|]. split; [discriminate|]. split; [|split; [|exact Hmax]].
      * discriminate.
      * reflexivity.
Qed.

(** C3: content that contains a configured blocked term, letter case
    ignored, is 'rejected' with a null score whatever the scoring service
    would answer, and the world is returned as it was: no request to the
    scoring service is made. *)
Theorem denylist_rejects_without_scoring (tag : string) (api : option Scores)
        (content : string) (w : World) :
  containsBlocked content ->
  exists d w',
    moderateContent toFixed2 tag api content w = (Val d, w') /\
    d_status d = "rejected" /\ d_toxicityScore d = None /\
    w' = w /\ scoringRequests (trace w') = scoringRequests (trace w).
Proof.
  intros H. destruct (moderateContent_hit tag api content w H) as (k & _ & E).
  eexists _, w. split; [exact E|]. repeat split.
Qed.

End ClassifierFacts.

(** ** The store after a call of [updatePostStatus] *)

Lemma committed_missing ok postId (u : Update) (ps : list Post) :
  ~ In postId (map id ps) -> committed ok postId u ps = ps.
Proof.
  intros H. apply findIndex_id_none in H. unfold committed.
  destruct ok; [|reflexivity]. now rewrite (updateFirst_missing _ _ _ H).
Qed.

Lemma committed_found postId (u : Update) (ps : list Post) (k : nat) :
  JS.findIndex (fun p => String.eqb (id p) postId) ps = Some k ->
  committed true postId u ps = modifyAt k (applySet u) ps.
Proof.
  intros H. unfold committed. now rewrite (updateFirst_found _ _ _ _ H).
Qed.

Lemma committed_findIndex ok postId (u : Update) (ps : list Post) :
  JS.findIndex (fun p => String.eqb (id p) postId) (committed ok postId u ps)
  = JS.findIndex (fun p => String.eqb (id p) postId) ps.
Proof.
  destruct ok; [|reflexivity].
  destruct (JS.findIndex (fun p => String.eqb (id p) postId) ps) as [k|] eqn:F.
  - rewrite (committed_found _ _ _ _ F), findIndex_modifyAt; [exact F|].
    intros p. now rewrite applySet_id.
  - unfold committed. now rewrite (updateFirst_missing _ _ _ F).
Qed.

Lemma file_update_posts io now postId status workerId md pt ts rr (w : World) :
  posts (snd (FileWorker.updatePostStatus io now postId status workerId
                md pt ts rr w))
  = committed (FileWorker.readOk io && FileWorker.writeOk io) postId
              (MongoWorker.buildUpdate now status workerId md pt ts rr) (posts w).
Proof.
  rewrite file_update_run. simpl.
  destruct (JS.findIndex (fun p => String.eqb (id p) postId) (posts w))
    as [k|] eqn:F;
    destruct (FileWorker.readOk io), (FileWorker.writeOk io); simpl;
      unfold committed; simpl; try reflexivity.
  - rewrite (updateFirst_found _ _ _ _ F). apply modifyAt_ext.
    intros p. apply assign_applySet.
  - now rewrite (updateFirst_missing _ _ _ F).
Qed.

Lemma mongo_update_posts tag ok now postId status workerId md pt ts rr (w : World) :
  posts (snd (MongoWorker.updatePostStatus tag ok now postId status workerId
                md pt ts rr w))
  = committed ok postId
              (MongoWorker.buildUpdate now status workerId md pt ts rr) (posts w).
Proof.
  rewrite mongo_update_run. simpl.
  destruct ok; simpl; [|reflexivity].
  destruct (JS.findIndex _ (posts w)) as [k|] eqn:F; unfold committed; simpl.
  - now rewrite (updateFirst_found _ _ _ _ F).
  - now rewrite (updateFirst_missing _ _ _ F).
Qed.

(** A call for an id the store does not hold writes nothing. *)
Lemma file_update_unknown io now postId status workerId md pt ts rr (w : World) :
  ~ In postId (map id (posts w)) ->
  storeWrites (trace (snd (FileWorker.updatePostStatus io now postId status
                             workerId md pt ts rr w)))
  = storeWrites (trace w).
Proof.
  intros H. apply findIndex_id_none in H.
  rewrite file_update_run. simpl. rewrite H.
  destruct (FileWorker.readOk io); reflexivity.
Qed.

Lemma mongo_update_unknown tag ok now postId status workerId md pt ts rr (w : World) :
  ~ In postId (map id (posts w)) ->
  storeWrites (trace (snd (MongoWorker.updatePostStatus tag ok now postId status
                             workerId md pt ts rr w)))
  = storeWrites (trace w).
Proof.
  intros H. apply findIndex_id_none in H.
  rewrite mongo_update_run. simpl. rewrite H.
  destruct ok; reflexivity.
Qed.

Lemma file_update_backups io now postId status workerId md pt ts rr (w : World) :
  backups (snd (FileWorker.updatePostStatus io now postId status workerId
                  md pt ts rr w)) = backups w.
Proof.
  rewrite file_update_run. simpl.
  destruct (JS.findIndex (fun p => String.eqb (id p) postId) (posts w)),
           (FileWorker.readOk io), (FileWorker.writeOk io); reflexivity.
Qed.

Lemma mongo_update_backups tag ok now postId status workerId md pt ts rr (w : World) :
  backups (snd (MongoWorker.updatePostStatus tag ok now postId status workerId
                  md pt ts rr w)) = backups w.
Proof.
  rewrite mongo_update_run. simpl.
  destruct (JS.findIndex (fun p => String.eqb (id p) postId) (posts w)), ok;
    reflexivity.
Qed.

Lemma file_update_pair io now postId status workerId md pt ts rr (w : World) :
  FileWorker.updatePostStatus io now postId status workerId md pt ts rr w =
  (Val tt, snd (FileWorker.updatePostStatus io now postId status workerId
                  md pt ts rr w)).
Proof. rewrite file_update_run. reflexivity. Qed.

Lemma mongo_update_pair tag ok now postId status workerId md pt ts rr (w : World) :
  MongoWorker.updatePostStatus tag ok now postId status workerId md pt ts rr w =
  (Val tt, snd (MongoWorker.updatePostStatus tag ok now postId status workerId
                  md pt ts rr w)).
Proof. rewrite mongo_update_run. reflexivity. Qed.

(** ** The message handler *)

Section HandlerFacts.

Variable toFixed2 : float -> string.
Variable WORKER_ID : string.

(** The decision does not depend on the world or on the console prefix. *)
Lemma moderateContent_decision (tag tag' : string) (api : option Scores)
      (content : string) (w w' : World) :
  fst (moderateContent toFixed2 tag api content w)
  = fst (moderateContent toFixed2 tag' api content w').
Proof.
  destruct (JS.truthyStr
              (find (fun keyword => JS.includes (JS.toLowerCase content) keyword)
                    blockedKeywords)) eqn:E.
  - unfold moderateContent. rewrite E. reflexivity.
  - assert (~ containsBlocked content) as H
        by (intros C; apply denyList_hit_iff in C; congruence).
    destruct api as [[[t i] p]|].
    + etransitivity;
        [apply (f_equal fst (moderateContent_scored toFixed2 tag t i p content w H))|].
      symmetry.
      apply (f_equal fst (moderateContent_scored toFixed2 tag' t i p content w' H)).
    + etransitivity;
        [apply (f_equal fst (moderateContent_unscored toFixed2 tag content w H))|].
      symmetry.
      apply (f_equal fst (moderateContent_unscored toFixed2 tag' content w' H)).
Qed.

(** One run of the file-store handler: it returns normally, its last act
    is the acknowledgement, and the store has gone through the two updates,
    each committed only if its read and write succeeded. *)
Lemma file_onMessage_run (r : FileWorker.Run) (post : Post) (w : World) :
  exists d w',
    fst (moderateContent toFixed2 "" (FileWorker.api r) (content post) emptyWorld)
    = Val d /\
    FileWorker.onMessage toFixed2 WORKER_ID r (Some (Job post)) w = (Val tt, w') /\
    hd_error (trace w') = Some (Ack post) /\
    backups w' = backups w /\
    posts w' =
      committed
        (FileWorker.readOk (FileWorker.io2 r) && FileWorker.writeOk (FileWorker.io2 r))
        (id post)
        (MongoWorker.buildUpdate (FileWorker.now2 r) (d_status d) WORKER_ID
           (d_moderationDetails d)
           (Some (FileWorker.endTime r - FileWorker.startTime r)%Z)
           (d_toxicityScore d) (d_reviewReason d))
        (committed
           (FileWorker.readOk (FileWorker.io1 r) && FileWorker.writeOk (FileWorker.io1 r))
           (id post)
           (MongoWorker.buildUpdate (FileWorker.now1 r) "processing" WORKER_ID
              None None None None)
           (posts w)) /\
    (~ In (id post) (map id (posts w)) ->
     storeWrites (trace w') = storeWrites (trace w)).
Proof.
  unfold FileWorker.onMessage, JSON_parse, contentOf, moderate, bind, ret,
    console, emit.
  set (w0 := mkWorld (posts w) (backups w)
                     (Console LogInfo (WORKER_ID ++ " processing post " ++ id post)
                      :: trace w)).
  rewrite (file_update_pair (FileWorker.io1 r)).
  set (w1 := snd (FileWorker.updatePostStatus (FileWorker.io1 r) _ _ _ _ _ _ _ _ w0)).
  destruct (moderateContent_returns toFixed2 "" (FileWorker.api r) (content post) w1)
    as (d & w2 & E2 & P2 & B2 & S2).
  rewrite E2.
  rewrite (file_update_pair (FileWorker.io2 r)).
  set (w3 := snd (FileWorker.updatePostStatus (FileWorker.io2 r) _ _ _ _ _ _ _ _ w2)).
  exists d, (mkWorld (posts w3) (backups w3) (Ack post :: trace w3)).
  assert (posts w1 = committed
            (FileWorker.readOk (FileWorker.io1 r) && FileWorker.writeOk (FileWorker.io1 r))
            (id post)
            (MongoWorker.buildUpdate (FileWorker.now1 r) "processing" WORKER_ID
               None None None None) (posts w)) as P1
      by (unfold w1; rewrite file_update_posts; reflexivity).
  split.
  { rewrite (moderateContent_decision "" "" _ _ emptyWorld w1), E2. reflexivity. }
  split; [reflexivity|]. split; [reflexivity|]. split.
  { simpl. unfold w3. rewrite file_update_backups, B2. unfold w1.
    rewrite file_update_backups. reflexivity. }
  split.
  { simpl. unfold w3. rewrite file_update_posts, P2, P1. reflexivity. }
  intros Hno. change (storeWrites (trace w3) = storeWrites (trace w)). unfold w3.
  rewrite file_update_unknown.
  - rewrite S2. unfold w1. rewrite file_update_unknown; [reflexivity | exact Hno].
  - rewrite P2, P1, committed_missing; exact Hno.
Qed.

Lemma mongo_onMessage_run (r : MongoWorker.Run) (post : Post) (w : World) :
  exists d w',
    fst (moderateContent toFixed2 "" (MongoWorker.api r) (content post) emptyWorld)
    = Val d /\
    MongoWorker.onMessage toFixed2 WORKER_ID r (Some (Job post)) w = (Val tt, w') /\
    hd_error (trace w') = Some (Ack post) /\
    backups w' = backups w /\
    posts w' =
      committed (MongoWorker.ok2 r) (id post)
        (MongoWorker.buildUpdate (MongoWorker.now2 r) (d_status d) WORKER_ID
           (d_moderationDetails d)
           (Some (MongoWorker.endTime r - MongoWorker.startTime r)%Z)
           (d_toxicityScore d) (d_reviewReason d))
        (committed (MongoWorker.ok1 r) (id post)
           (MongoWorker.buildUpdate (MongoWorker.now1 r) "processing" WORKER_ID
              None None None None)
           (posts w)) /\
    (~ In (id post) (map id (posts w)) ->
     storeWrites (trace w') = storeWrites (trace w)).
Proof.
  unfold MongoWorker.onMessage, JSON_parse, contentOf, moderate, bind, ret,
    console, emit.
  set (w0 := mkWorld (posts w) (backups w)
                     (Console LogInfo (WORKER_ID ++ ": Processing post " ++ id post)
                      :: trace w)).
  rewrite (mongo_update_pair WORKER_ID (MongoWorker.ok1 r)).
  set (w1 := snd (MongoWorker.updatePostStatus WORKER_ID (MongoWorker.ok1 r)
                    _ _ _ _ _ _ _ _ w0)).
  destruct (moderateContent_returns toFixed2 (WORKER_ID ++ ": ")
              (MongoWorker.api r) (content post) w1)
    as (d & w2 & E2 & P2 & B2 & S2).
  rewrite E2.
  rewrite (mongo_update_pair WORKER_ID (MongoWorker.ok2 r)).
  set (w3 := snd (MongoWorker.updatePostStatus WORKER_ID (MongoWorker.ok2 r)
                    _ _ _ _ _ _ _ _ w2)).
  exists d, (mkWorld (posts w3) (backups w3) (Ack post :: trace w3)).
  assert (posts w1 = committed (MongoWorker.ok1 r) (id post)
            (MongoWorker.buildUpdate (MongoWorker.now1 r) "processing" WORKER_ID
               None None None None) (posts w)) as P1
      by (unfold w1; rewrite mongo_update_posts; reflexivity).
  split.
  { rewrite (moderateContent_decision "" (WORKER_ID ++ ": ") _ _ emptyWorld w1), E2.
    reflexivity. }
  split; [reflexivity|]. split; [reflexivity|]. split.
  { simpl. unfold w3. rewrite mongo_update_backups, B2. unfold w1.
    rewrite mongo_update_backups. reflexivity. }
  split.
  { simpl. unfold w3. rewrite mongo_update_posts, P2, P1. reflexivity. }
  intros Hno. change (storeWrites (trace w3) = storeWrites (trace w)). unfold w3.
  rewrite mongo_update_unknown.
  - rewrite S2. unfold w1. rewrite mongo_update_unknown; [reflexivity | exact Hno].
  - rewrite P2, P1, committed_missing; exact Hno.
Qed.

End HandlerFacts.

(** ** Deliveries the handler does not survive *)

Lemma file_update_acks io now postId status workerId md pt ts rr (w : World) :
  acknowledged (trace (snd (FileWorker.updatePostStatus io now postId status
                              workerId md pt ts rr w)))
  = acknowledged (trace w).
Proof.
  rewrite file_update_run. simpl.
  destruct (JS.findIndex (fun p => String.eqb (id p) postId) (posts w)),
           (FileWorker.readOk io), (FileWorker.writeOk io); reflexivity.
Qed.

Lemma mongo_update_acks tag ok now postId status workerId md pt ts rr (w : World) :
  acknowledged (trace (snd (MongoWorker.updatePostStatus tag ok now postId status
                              workerId md pt ts rr w)))
  = acknowledged (trace w).
Proof.
  rewrite mongo_update_run. simpl.
  destruct (JS.findIndex (fun p => String.eqb (id p) postId) (posts w)), ok;
    reflexivity.
Qed.

Lemma file_update_scoring io now postId status workerId md pt ts rr (w : World) :
  scoringRequests (trace (snd (FileWorker.updatePostStatus io now postId status
                                 workerId md pt ts rr w)))
  = scoringRequests (trace w).
Proof.
  rewrite file_update_run. simpl.
  destruct (JS.findIndex (fun p => String.eqb (id p) postId) (posts w)),
           (FileWorker.readOk io), (FileWorker.writeOk io); reflexivity.
Qed.

Lemma mongo_update_scoring tag ok now postId status workerId md pt ts rr (w : World) :
  scoringRequests (trace (snd (MongoWorker.updatePostStatus tag ok now postId status
                                 workerId md pt ts rr w)))
  = scoringRequests (trace w).
Proof.
  rewrite mongo_update_run. simpl.
  destruct (JS.findIndex (fun p => String.eqb (id p) postId) (posts w)), ok;
    reflexivity.
Qed.

Section HandlerFailures.

Variable toFixed2 : float -> string.
Variable WORKER_ID : string.

(** A body that does not parse: the handler throws at once. *)
Lemma onMessage_notJson (rf : FileWorker.Run) (rm : MongoWorker.Run) (w : World) :
  FileWorker.onMessage toFixed2 WORKER_ID rf (Some NotJson) w = (Exn "SyntaxError", w) /\
  MongoWorker.onMessage toFixed2 WORKER_ID rm (Some NotJson) w = (Exn "SyntaxError", w).
Proof. split; reflexivity. Qed.

(** A content that is no string: the 'processing' update runs, then the
    classifier throws, and neither the outcome update nor the
    acknowledgement is reached. *)
Lemma file_onMessage_odd (r : FileWorker.Run) (post : Post) (w : World) :
  exists e w',
    FileWorker.onMessage toFixed2 WORKER_ID r (Some (OddJob post)) w = (Exn e, w') /\
    acknowledged (trace w') = acknowledged (trace w) /\
    backups w' = backups w /\
    posts w' =
      committed
        (FileWorker.readOk (FileWorker.io1 r) && FileWorker.writeOk (FileWorker.io1 r))
        (id post)
        (MongoWorker.buildUpdate (FileWorker.now1 r) "processing" WORKER_ID
           None None None None)
        (posts w) /\
    scoringRequests (trace w') = scoringRequests (trace w) /\
    (~ In (id post) (map id (posts w)) ->
     storeWrites (trace w') = storeWrites (trace w)).
Proof.
  unfold FileWorker.onMessage, JSON_parse, contentOf, moderate, bind, ret,
    console, emit, throw.
  set (w0 := mkWorld (posts w) (backups w)
                     (Console LogInfo (WORKER_ID ++ " processing post " ++ id post)
                      :: trace w)).
  rewrite (file_update_pair (FileWorker.io1 r)).
  eexists _, _. split; [reflexivity|].
  split; [apply (file_update_acks _ _ _ _ _ _ _ _ _ w0)|].
  split; [apply (file_update_backups _ _ _ _ _ _ _ _ _ w0)|].
  split; [apply (file_update_posts _ _ _ _ _ _ _ _ _ w0)|].
  split; [apply (file_update_scoring _ _ _ _ _ _ _ _ _ w0)|].
  intros Hno. apply (file_update_unknown _ _ _ _ _ _ _ _ _ w0 Hno).
Qed.

Lemma mongo_onMessage_odd (r : MongoWorker.Run) (post : Post) (w : World) :
  exists e w',
    MongoWorker.onMessage toFixed2 WORKER_ID r (Some (OddJob post)) w = (Exn e, w') /\
    acknowledged (trace w') = acknowledged (trace w) /\
    backups w' = backups w /\
    posts w' =
      committed (MongoWorker.ok1 r) (id post)
        (MongoWorker.buildUpdate (MongoWorker.now1 r) "processing" WORKER_ID
           None None None None)
        (posts w) /\
    scoringRequests (trace w') = scoringRequests (trace w) /\
    (~ In (id post) (map id (posts w)) ->
     storeWrites (trace w') = storeWrites (trace w)).
Proof.
  unfold MongoWorker.onMessage, JSON_parse, contentOf, moderate, bind, ret,
    console, emit, throw.
  set (w0 := mkWorld (posts w) (backups w)
                     (Console LogInfo (WORKER_ID ++ ": Processing post " ++ id post)
                      :: trace w)).
  rewrite (mongo_update_pair WORKER_ID (MongoWorker.ok1 r)).
  eexists _, _. split; [reflexivity|].
  split; [apply (mongo_update_acks _ _ _ _ _ _ _ _ _ _ w0)|].
  split; [apply (mongo_update_backups _ _ _ _ _ _ _ _ _ _ w0)|].
  split; [apply (mongo_update_posts _ _ _ _ _ _ _ _ _ _ w0)|].
  split; [apply (mongo_update_scoring _ _ _ _ _ _ _ _ _ _ w0)|].
  intros Hno. apply (mongo_update_unknown _ _ _ _ _ _ _ _ _ _ w0 Hno).
Qed.

End HandlerFailures.

Lemma committed_written postId (k : nat) (ps : list Post)
      now status workerId md pt ts rr :
  JS.findIndex (fun p => String.eqb (id p) postId) ps = Some k ->
  exists p',
    nth_error (committed true postId
                 (MongoWorker.buildUpdate now status workerId md pt ts rr) ps) k
    = Some p' /\
    written now status workerId md pt ts rr p'.
Proof.
  intros F. rewrite (committed_found _ _ _ _ F).
  destruct (findIndex_some_nth _ _ _ F) as (p0 & Hp0 & _).
  eexists. split; [apply modifyAt_nth_same, Hp0 | apply workerSet_written].
Qed.

Lemma great_passes : ~ containsBlocked "this is great".
Proof. intros H. apply denyList_hit_iff in H. vm_compute in H. discriminate H. Qed.

Lemma shouting_is_blocked : containsBlocked "What the FuCk is this".
Proof.
  exists "fuck". split; [left; reflexivity|].
  exists "What the ", "FuCk", " is this". split; reflexivity.
Qed.

(** The Kelvin sign U+212A lowers to 'k', so the spelling with it hits
    the deny-list as the ASCII spelling does. *)
Example kelvin_sign_is_blocked :
  containsBlocked ("what the FUC" ++ kelvinSign) /\
  JS.toLowerCase ("what the FUC" ++ kelvinSign) = "what the fuck".
Proof.
  split; [|reflexivity].
  exists "fuck". split; [simpl; tauto|].
  exists "what the ", ("FUC" ++ kelvinSign), "". split; reflexivity.
Qed.

Lemma moderateContent_thresholds_witness :
  (exists d w', moderateContent Number_toFixed2 "" (Some (0.80, 0.1, 0.2)%float)
                  "this is great" emptyWorld = (Val d, w') /\
                d_status d = "needs_review") /\
  (exists d w', moderateContent Number_toFixed2 "" (Some (0.8000001, 0.1, 0.2)%float)
                  "this is great" emptyWorld = (Val d, w') /\
                d_status d = "rejected") /\
  (exists d w', moderateContent Number_toFixed2 "" (Some (0.4999, 0.1, 0.2)%float)
                  "this is great" emptyWorld = (Val d, w') /\
                d_status d = "approved").
Proof.
  split; [|split].
  - destruct (moderateContent_thresholds Number_toFixed2 "" 0.80 0.1 0.2
                "this is great" emptyWorld great_passes)
      as (d & E & _ & _ & Hmid & _).
    exists d. eexists. split; [exact E|].
    apply Hmid; reflexivity.
  - destruct (moderateContent_thresholds Number_toFixed2 "" 0.8000001 0.1 0.2
                "this is great" emptyWorld great_passes)
      as (d & E & _ & Hhigh & _).
    exists d. eexists. split; [exact E|].
    apply Hhigh; reflexivity.
  - destruct (moderateContent_thresholds Number_toFixed2 "" 0.4999 0.1 0.2
                "this is great" emptyWorld great_passes)
      as (d & E & _ & _ & _ & Hlow & _).
    exists d. eexists. split; [exact E|].
    apply Hlow; reflexivity.
Defined.

(** C2, the claim as worded fails on the reason text: the code's string
    starts with a capital letter. *)
Lemma borderline_reason_is_capitalised :
  exists d w',
    moderateContent Number_toFixed2 "" (Some (0.6, 0.1, 0.1)%float)
      "this is great" emptyWorld = (Val d, w') /\
    d_status d = "needs_review" /\
    d_moderationDetails d =
      Some "Content flagged for human review: toxicity=0.60, insult=0.10, profanity=0.10" /\
    d_reviewReason d = Some "Borderline content requiring human evaluation" /\
    d_reviewReason d <> Some "borderline content requiring human evaluation".
Proof.
  eexists _, _. split; [vm_compute; reflexivity|].
  repeat split. discriminate.
Qed.

Lemma denylist_rejects_without_scoring_witness :
  exists d,
    moderateContent Number_toFixed2 "" None "What the FuCk is this" emptyWorld
    = (Val d, emptyWorld) /\
    d_status d = "rejected" /\ d_toxicityScore d = None.
Proof.
  destruct (denylist_rejects_without_scoring Number_toFixed2 "" None
              "What the FuCk is this" emptyWorld shouting_is_blocked)
    as (d & w' & E & Hs & Ht & -> & _).
  exists d. repeat split; assumption.
Defined.

(** C6, the claim as worded fails on the reason text. *)
Lemma scoring_failure_reason_text :
  exists d w',
    moderateContent Number_toFixed2 "" None "this is great" emptyWorld = (Val d, w') /\
    d_status d = "needs_review" /\ d_toxicityScore d = None /\
    d_reviewReason d = Some "API error, requires human review" /\
    d_reviewReason d <> Some "scoring unavailable, requires human review".
Proof.
  eexists _, _. split; [vm_compute; reflexivity|].
  repeat split. discriminate.
Qed.

(** ** Algebra of committed updates *)


(** Position by position, a committed update keeps the record or applies
    the [$set] to it, the latter only for a record with the given id. *)
Lemma committed_nth ok postId (u : Update) (ps : list Post) (i : nat) (p : Post) :
  nth_error ps i = Some p ->
  exists q, nth_error (committed ok postId u ps) i = Some q /\
            (q = p \/ (q = applySet u p /\ id p = postId)).
Proof.
  intros Hp. destruct ok; [|exists p; auto].
  destruct (JS.findIndex (fun x => String.eqb (id x) postId) ps) as [k|] eqn:F.
  - rewrite (committed_found _ _ _ _ F).
    destruct (Nat.eq_dec i k) as [->|Hik].
    + destruct (findIndex_some_nth _ _ _ F) as (x & Hx & Hid).
      rewrite Hp in Hx. injection Hx as <-.
      exists (applySet u p). split; [now apply modifyAt_nth_same|].
      right. split; [reflexivity|]. now apply String.eqb_eq.
    + exists p. rewrite (modifyAt_nth_other _ _ _ _ Hik). auto.
  - unfold committed. rewrite (updateFirst_missing _ _ _ F). exists p. auto.
Qed.


Lemma updateFirst_absorb postId (u1 u2 : Update) (ps : list Post) :
  (forall x, applySet u2 (applySet u1 x) = applySet u2 x) ->
  fst (updateFirst postId u2 (fst (updateFirst postId u1 ps)))
  = fst (updateFirst postId u2 ps).
Proof.
  intros H. induction ps as [|d ds IH]; simpl; [reflexivity|].
  destruct (String.eqb (id d) postId) eqn:E; simpl.
  - rewrite applySet_id, E. simpl. now rewrite H.
  - destruct (updateFirst postId u1 ds) as [ds1 n1].
    destruct (updateFirst postId u2 ds) as [ds2 n2]. simpl in *.
    rewrite E.
    destruct (updateFirst postId u2 ds1) as [ds3 n3]. simpl in *.
    now rewrite IH.
Qed.

Lemma applySet_idem (u : Update) (p : Post) :
  applySet u (applySet u p) = applySet u p.
Proof.
  destruct p. destruct u as [[?|] [?|] [?|] [?|] [?|] [?|] [?|]];
    vm_compute; reflexivity.
Qed.

(** The 'processing' write is overwritten by any later write of a worker:
    it sets the status and the worker only, and every write sets both. *)
Lemma processing_absorbed now1 w1 now2 status w2 md pt ts rr (x : Post) :
  applySet (MongoWorker.buildUpdate now2 status w2 md pt ts rr)
    (applySet (MongoWorker.buildUpdate now1 "processing" w1 None None None None) x)
  = applySet (MongoWorker.buildUpdate now2 status w2 md pt ts rr) x.
Proof.
  destruct x. unfold MongoWorker.buildUpdate, applySet, setWith. simpl.
  destruct (if JS.truthyStr md then md else None),
           (if JS.truthyNum pt then pt else None), ts,
           (if JS.truthyStr rr then rr else None),
           (if isTerminal status then Some now2 else None); reflexivity.
Qed.

Lemma committed_absorb b1 postId now1 w1 now2 status w2 md pt ts rr (ps : list Post) :
  committed true postId (MongoWorker.buildUpdate now2 status w2 md pt ts rr)
    (committed b1 postId
       (MongoWorker.buildUpdate now1 "processing" w1 None None None None) ps)
  = committed true postId (MongoWorker.buildUpdate now2 status w2 md pt ts rr) ps.
Proof.
  destruct b1; [|reflexivity]. unfold committed.
  apply updateFirst_absorb. intros x. apply processing_absorbed.
Qed.

Lemma committed_idem ok postId (u : Update) (ps : list Post) :
  committed ok postId u (committed ok postId u ps) = committed ok postId u ps.
Proof.
  destruct ok; [|reflexivity]. unfold committed.
  apply updateFirst_absorb. intros x. apply applySet_idem.
Qed.

(** The store after the two updates of one handled message, written twice
    over, is the store after one. *)
Lemma handled_twice b1 b2 postId now1 w1 now2 status w2 md pt ts rr (ps : list Post) :
  let u1 := MongoWorker.buildUpdate now1 "processing" w1 None None None None in
  let u2 := MongoWorker.buildUpdate now2 status w2 md pt ts rr in
  committed b2 postId u2 (committed b1 postId u1
    (committed b2 postId u2 (committed b1 postId u1 ps)))
  = committed b2 postId u2 (committed b1 postId u1 ps).
Proof.
  intros u1 u2. destruct b2.
  - unfold u1, u2. rewrite !committed_absorb. apply committed_idem.
  - change (committed false postId u2) with (fun l : list Post => l). cbv beta.
    apply committed_idem.
Qed.


Lemma degradedSet now workerId elapsed (p : Post) :
  degraded workerId elapsed p
    (applySet (MongoWorker.buildUpdate now "needs_review" workerId
                 (Some "Failed to analyze content with Perspective API")
                 (Some elapsed) None
                 (Some "API error, requires human review")) p).
Proof.
  unfold degraded, sameInputFields, MongoWorker.buildUpdate, applySet, setWith.
  simpl. destruct (Z.eqb elapsed 0); simpl; repeat split; reflexivity.
Qed.

Section HandlerClaims.

Variable toFixed2 : float -> string.
Variable WORKER_ID : string.

(** C5 (as amended): a failing store write is caught and logged inside
    [updatePostStatus], which returns normally and leaves the store as it
    was; the handler acknowledges every message once the second status
    update has returned, whether or not that write went through.  (The
    deliveries that get as far as that update are the jobs with a string
    content, [Job].) *)
Theorem store_failure_is_logged_and_acknowledged
        (rf : FileWorker.Run) (rm : MongoWorker.Run) (post : Post) (w : World) :
  (forall io now postId status workerId md pt ts rr k,
      FileWorker.readOk io = true -> FileWorker.writeOk io = false ->
      JS.findIndex (fun p => String.eqb (id p) postId) (posts w) = Some k ->
      FileWorker.updatePostStatus io now postId status workerId md pt ts rr w =
      (Val tt,
       mkWorld (posts w) (backups w)
               (Console LogError ("Error updating post " ++ postId ++ ":")
                :: Console LogError "Error writing posts:" :: trace w))) /\
  (forall tag now postId status workerId md pt ts rr,
      MongoWorker.updatePostStatus tag false now postId status workerId md pt ts rr w =
      (Val tt,
       mkWorld (posts w) (backups w)
               (Console LogError (tag ++ ": Error updating post " ++ postId ++ ":")
                :: trace w))) /\
  (exists w', FileWorker.onMessage toFixed2 WORKER_ID rf (Some (Job post)) w = (Val tt, w') /\
              hd_error (trace w') = Some (Ack post)) /\
  (exists w', MongoWorker.onMessage toFixed2 WORKER_ID rm (Some (Job post)) w = (Val tt, w') /\
              hd_error (trace w') = Some (Ack post)).
Proof.
  split; [|split; [|split]].
  - intros io now postId status workerId md pt ts rr k Hr Hw F.
    rewrite file_update_run, Hr, Hw, F. reflexivity.
  - intros. rewrite mongo_update_run. reflexivity.
  - destruct (file_onMessage_run toFixed2 WORKER_ID rf post w)
      as (d & w' & _ & E & Hack & _).
    exists w'. auto.
  - destruct (mongo_onMessage_run toFixed2 WORKER_ID rm post w)
      as (d & w' & _ & E & Hack & _).
    exists w'. auto.
Qed.

(** C6 (as amended): when the deny-list passes and the scoring call fails,
    the decision is 'needs_review' with a null score and the reason "API
    error, requires human review"; the handler returns normally and
    acknowledges the message; and when the job is in the store and the
    store I/O of the outcome update succeeds, its record takes the status,
    the reason, the detail text, the worker and the elapsed time (unless
    zero) of this attempt, while its score and [completedAt] stay as they
    were: the null score of the decision does not reset a stored one. *)
Theorem scoring_failure_degrades_to_review
        (rf : FileWorker.Run) (rm : MongoWorker.Run) (post : Post) (w : World)
        (k : nat) :
  ~ containsBlocked (content post) ->
  FileWorker.api rf = None -> MongoWorker.api rm = None ->
  (forall tag w0,
      exists w0',
        moderateContent toFixed2 tag None (content post) w0 =
        (Val (mkDecision "needs_review"
                (Some "Failed to analyze content with Perspective API") None
                (Some "API error, requires human review")), w0') /\
        posts w0' = posts w0) /\
  (exists w', FileWorker.onMessage toFixed2 WORKER_ID rf (Some (Job post)) w = (Val tt, w') /\
              hd_error (trace w') = Some (Ack post) /\
              (FileWorker.readOk (FileWorker.io2 rf) = true ->
               FileWorker.writeOk (FileWorker.io2 rf) = true ->
               JS.findIndex (fun p => String.eqb (id p) (id post)) (posts w) = Some k ->
               exists p p', nth_error (posts w) k = Some p /\
                            nth_error (posts w') k = Some p' /\
                            degraded WORKER_ID
                              (FileWorker.endTime rf - FileWorker.startTime rf) p p')) /\
  (exists w', MongoWorker.onMessage toFixed2 WORKER_ID rm (Some (Job post)) w = (Val tt, w') /\
              hd_error (trace w') = Some (Ack post) /\
              (MongoWorker.ok2 rm = true ->
               JS.findIndex (fun p => String.eqb (id p) (id post)) (posts w) = Some k ->
               exists p p', nth_error (posts w) k = Some p /\
                            nth_error (posts w') k = Some p' /\
                            degraded WORKER_ID
                              (MongoWorker.endTime rm - MongoWorker.startTime rm) p p')).
Proof.
  intros Hpass Hf Hm. split; [|split].
  - intros tag w0. eexists.
    rewrite (moderateContent_unscored toFixed2 tag (content post) w0 Hpass).
    split; reflexivity.
  - destruct (file_onMessage_run toFixed2 WORKER_ID rf post w)
      as (d & w' & Hd & E & Hack & _ & Hposts & _).
    exists w'. split; [exact E|]. split; [exact Hack|].
    intros Hr Hw F. rewrite Hposts, Hr, Hw. simpl andb.
    rewrite Hf, (moderateContent_unscored toFixed2 "" _ _ Hpass) in Hd.
    injection Hd as <-.
    cbn [d_status d_moderationDetails d_toxicityScore d_reviewReason].
    rewrite committed_absorb, (committed_found _ _ _ _ F).
    destruct (findIndex_some_nth _ _ _ F) as (p0 & Hp0 & _).
    exists p0. eexists. split; [exact Hp0|].
    split; [apply modifyAt_nth_same, Hp0 | apply degradedSet].
  - destruct (mongo_onMessage_run toFixed2 WORKER_ID rm post w)
      as (d & w' & Hd & E & Hack & _ & Hposts & _).
    exists w'. split; [exact E|]. split; [exact Hack|].
    intros Hok F. rewrite Hposts, Hok.
    rewrite Hm, (moderateContent_unscored toFixed2 "" _ _ Hpass) in Hd.
    injection Hd as <-.
    cbn [d_status d_moderationDetails d_toxicityScore d_reviewReason].
    rewrite committed_absorb, (committed_found _ _ _ _ F).
    destruct (findIndex_some_nth _ _ _ F) as (p0 & Hp0 & _).
    exists p0. eexists. split; [exact Hp0|].
    split; [apply modifyAt_nth_same, Hp0 | apply degradedSet].
Qed.

(** C10: for a message whose job id the store does not hold,
    [updatePostStatus] leaves the store exactly as it was and writes
    nothing (so no record appears for that id).  A job whose content is a
    string is then acknowledged, as the handler's last act.  A job whose
    content is no string is not: [content.toLowerCase()] throws outside
    any [try], and the handler ends with that error before it reaches
    [channel.ack].  Nor is a body that does not parse, which carries no
    job id at all: the handler ends at [JSON.parse]. *)
Theorem unknown_job_is_skipped_and_text_acknowledged
        (rf : FileWorker.Run) (rm : MongoWorker.Run) (post : Post) (w : World) :
  ~ In (id post) (map id (posts w)) ->
  (forall io now status workerId md pt ts rr,
      exists w',
        FileWorker.updatePostStatus io now (id post) status workerId md pt ts rr w
        = (Val tt, w') /\
        posts w' = posts w /\ storeWrites (trace w') = storeWrites (trace w)) /\
  (forall tag ok now status workerId md pt ts rr,
      exists w',
        MongoWorker.updatePostStatus tag ok now (id post) status workerId md pt ts rr w
        = (Val tt, w') /\
        posts w' = posts w /\ storeWrites (trace w') = storeWrites (trace w)) /\
  (exists w', FileWorker.onMessage toFixed2 WORKER_ID rf (Some (Job post)) w = (Val tt, w') /\
              hd_error (trace w') = Some (Ack post) /\
              posts w' = posts w /\ storeWrites (trace w') = storeWrites (trace w)) /\
  (exists w', MongoWorker.onMessage toFixed2 WORKER_ID rm (Some (Job post)) w = (Val tt, w') /\
              hd_error (trace w') = Some (Ack post) /\
              posts w' = posts w /\ storeWrites (trace w') = storeWrites (trace w)) /\
  (exists e w',
      FileWorker.onMessage toFixed2 WORKER_ID rf (Some (OddJob post)) w = (Exn e, w') /\
      acknowledged (trace w') = acknowledged (trace w) /\
      posts w' = posts w /\ storeWrites (trace w') = storeWrites (trace w)) /\
  (exists e w',
      MongoWorker.onMessage toFixed2 WORKER_ID rm (Some (OddJob post)) w = (Exn e, w') /\
      acknowledged (trace w') = acknowledged (trace w) /\
      posts w' = posts w /\ storeWrites (trace w') = storeWrites (trace w)) /\
  (exists e,
      FileWorker.onMessage toFixed2 WORKER_ID rf (Some NotJson) w = (Exn e, w) /\
      MongoWorker.onMessage toFixed2 WORKER_ID rm (Some NotJson) w = (Exn e, w)).
Proof.
  intros Hno. split; [|split; [|split; [|split; [|split; [|split]]]]].
  - intros. eexists. split; [apply file_update_pair|]. split.
    + rewrite file_update_posts. now apply committed_missing.
    + now apply file_update_unknown.
  - intros. eexists. split; [apply mongo_update_pair|]. split.
    + rewrite mongo_update_posts. now apply committed_missing.
    + now apply mongo_update_unknown.
  - destruct (file_onMessage_run toFixed2 WORKER_ID rf post w)
      as (d & w' & _ & E & Hack & _ & Hposts & Hwr).
    exists w'. split; [exact E|]. split; [exact Hack|]. split; [|now apply Hwr].
    rewrite Hposts, (committed_missing _ _ _ (posts w) Hno).
    now apply committed_missing.
  - destruct (mongo_onMessage_run toFixed2 WORKER_ID rm post w)
      as (d & w' & _ & E & Hack & _ & Hposts & Hwr).
    exists w'. split; [exact E|]. split; [exact Hack|]. split; [|now apply Hwr].
    rewrite Hposts, (committed_missing _ _ _ (posts w) Hno).
    now apply committed_missing.
  - destruct (file_onMessage_odd toFixed2 WORKER_ID rf post w)
      as (e & w' & E & Hack & _ & Hposts & _ & Hwr).
    exists e, w'. split; [exact E|]. split; [exact Hack|]. split; [|now apply Hwr].
    rewrite Hposts. now apply committed_missing.
  - destruct (mongo_onMessage_odd toFixed2 WORKER_ID rm post w)
      as (e & w' & E & Hack & _ & Hposts & _ & Hwr).
    exists e, w'. split; [exact E|]. split; [exact Hack|]. split; [|now apply Hwr].
    rewrite Hposts. now apply committed_missing.
  - eexists. split; reflexivity.
Qed.

End HandlerClaims.

Lemma store_failure_is_logged_and_acknowledged_witness :
  FileWorker.updatePostStatus (FileWorker.mkIO true false) 3000%Z "job-1" "approved"
    "worker-4001" None None None None oneJob =
  (Val tt,
   mkWorld [greatPost] []
           [Console LogError "Error updating post job-1:";
            Console LogError "Error writing posts:"]).
Proof.
  exact (proj1 (store_failure_is_logged_and_acknowledged Number_toFixed2 "worker-4001"
                  (FileWorker.mkRun fileOk 2000%Z 10%Z None 17%Z fileOk 3000%Z)
                  (MongoWorker.mkRun true 2000%Z 10%Z None 17%Z true 3000%Z)
                  greatPost oneJob)
               (FileWorker.mkIO true false) 3000%Z "job-1" "approved" "worker-4001"
               None None None None 0%nat eq_refl eq_refl eq_refl).
Defined.

(** C5, the claim as worded fails: the write of the outcome fails, the
    error is logged, and the handler acknowledges the message all the same;
    the store still shows 'processing', on either store. *)
Lemma failed_write_is_acknowledged :
  (exists w',
      FileWorker.onMessage Number_toFixed2 "worker-4001"
        (FileWorker.mkRun fileOk 2000%Z 10%Z (Some (0.2, 0.1, 0.1)%float) 17%Z
           (FileWorker.mkIO true false) 3000%Z)
        (Some (Job greatPost)) oneJob = (Val tt, w') /\
      hd_error (trace w') = Some (Ack greatPost) /\
      In (Console LogError "Error writing posts:") (trace w') /\
      map status (posts w') = ["processing"]) /\
  (exists w',
      MongoWorker.onMessage Number_toFixed2 "worker-1"
        (MongoWorker.mkRun true 2000%Z 10%Z (Some (0.2, 0.1, 0.1)%float) 17%Z
           false 3000%Z)
        (Some (Job greatPost)) oneJob = (Val tt, w') /\
      hd_error (trace w') = Some (Ack greatPost) /\
      In (Console LogError "worker-1: Error updating post job-1:") (trace w') /\
      map status (posts w') = ["processing"]).
Proof.
  split; eexists; (split; [vm_compute; reflexivity|]);
    (split; [reflexivity|]); split; [|reflexivity| |reflexivity]; simpl; tauto.
Qed.

Lemma scoring_failure_degrades_to_review_witness :
  exists w' p',
    FileWorker.onMessage Number_toFixed2 "worker-4001"
      (FileWorker.mkRun fileOk 2000%Z 10%Z None 17%Z fileOk 3000%Z)
      (Some (Job greatPost)) oneJob = (Val tt, w') /\
    hd_error (trace w') = Some (Ack greatPost) /\
    nth_error (posts w') 0 = Some p' /\
    degraded "worker-4001" 7 greatPost p'.
Proof.
  destruct (scoring_failure_degrades_to_review Number_toFixed2 "worker-4001"
              (FileWorker.mkRun fileOk 2000%Z 10%Z None 17%Z fileOk 3000%Z)
              (MongoWorker.mkRun true 2000%Z 10%Z None 17%Z true 3000%Z)
              greatPost oneJob 0 great_passes eq_refl eq_refl)
    as (_ & (w' & E & Hack & Hrec) & _).
  destruct (Hrec eq_refl eq_refl eq_refl) as (p & p' & Hp & Hp' & Hdeg).
  injection Hp as <-.
  exists w', p'. repeat split; try assumption; apply Hdeg.
Defined.

(** A job scored and approved, then delivered again while the scoring
    service is down: the record goes to 'needs_review' with the reason of
    the failure, and keeps the score and the completion time of the first
    attempt. *)
Example degraded_record_keeps_earlier_score :
  let scored :=
    snd (FileWorker.onMessage Number_toFixed2 "worker-4001"
           (FileWorker.mkRun fileOk 2000%Z 10%Z (Some (0.2, 0.1, 0.1)%float) 17%Z
              fileOk 2010%Z)
           (Some (Job greatPost)) oneJob) in
  let again :=
    snd (FileWorker.onMessage Number_toFixed2 "worker-4002"
           (FileWorker.mkRun fileOk 3000%Z 20%Z None 29%Z fileOk 3010%Z)
           (Some (Job greatPost)) scored) in
  map status (posts again) = ["needs_review"] /\
  map reviewReason (posts again) = [Some "API error, requires human review"] /\
  map toxicityScore (posts again) = [Some 0.2%float] /\
  map completedAt (posts again) = [Some 2010%Z].
Proof. vm_compute. repeat split. Qed.

(** The failing input of C10: a job with the content 12345 and an id the
    store does not hold.  The handler ends with the TypeError, the store is
    untouched and nothing is acknowledged. *)
Lemma unknown_job_is_skipped_and_text_acknowledged_witness :
  exists w',
    MongoWorker.onMessage Number_toFixed2 "worker-1"
      (MongoWorker.mkRun true 2000%Z 10%Z None 17%Z true 3000%Z)
      (Some (OddJob greatPost)) emptyWorld
    = (Exn "TypeError: content.toLowerCase is not a function", w') /\
    acknowledged (trace w') = [] /\ posts w' = [] /\
    storeWrites (trace w') = 0%nat.
Proof.
  destruct (unknown_job_is_skipped_and_text_acknowledged Number_toFixed2 "worker-1"
              (FileWorker.mkRun fileOk 2000%Z 10%Z None 17%Z fileOk 3000%Z)
              (MongoWorker.mkRun true 2000%Z 10%Z None 17%Z true 3000%Z)
              greatPost emptyWorld (fun H : In (id greatPost) [] => H))
    as (_ & _ & _ & _ & _ & (e & w' & E & Hack & Hposts & Hwr) & _).
  exists w'. split; [|repeat split; assumption].
  rewrite E. f_equal. f_equal.
  apply (f_equal fst) in E. vm_compute in E. injection E as <-. reflexivity.
Defined.

(** ** Ingestion *)

Lemma accepted_guard (req : Request) :
  accepted req ->
  negb (JS.truthyStr (r_title req)) || negb (JS.truthyStr (r_content req))
  || negb (JS.truthyStr (r_author req)) = false.
Proof. intros (-> & -> & ->). reflexivity. Qed.

Lemma refused_guard (req : Request) :
  ~ accepted req ->
  negb (JS.truthyStr (r_title req)) || negb (JS.truthyStr (r_content req))
  || negb (JS.truthyStr (r_author req)) = true.
Proof.
  unfold accepted. intros H.
  destruct (JS.truthyStr (r_title req)), (JS.truthyStr (r_content req)),
           (JS.truthyStr (r_author req)); try reflexivity.
  exfalso. apply H. auto.
Qed.

Lemma absent_refused (req : Request) :
  r_title req = None \/ r_content req = None \/ r_author req = None ->
  ~ accepted req.
Proof.
  intros [H|[H|H]] (Ht & Hc & Ha); rewrite H in *; discriminate.
Qed.

Lemma truthy_valueOf (o : option string) :
  JS.truthyStr o = true -> o = Some (valueOf o).
Proof. destruct o; [reflexivity | discriminate]. Qed.

Lemma file_submit_refused (env : FileServer.Env) (req : Request) (w : World) :
  ~ accepted req -> FileServer.submit env req w = (Val validationError, w).
Proof.
  intros H. unfold FileServer.submit, tryCatch, ret.
  rewrite (refused_guard req H). reflexivity.
Qed.

Lemma mongo_submit_refused (env : MongoServer.Env) (req : Request) (w : World) :
  ~ accepted req -> MongoServer.submit env req w = (Val validationError, w).
Proof.
  intros H. unfold MongoServer.submit, tryCatch, ret.
  rewrite (refused_guard req H). reflexivity.
Qed.

Lemma file_submit_stored (env : FileServer.Env) (req : Request) (w : World) :
  accepted req ->
  FileServer.write env = FileServer.WriteOk ->
  (FileServer.channel env = true -> FileServer.sendOk env = true) ->
  let post := newPost (FileServer.uuid env) (FileServer.now env) req in
  let base := if FileServer.readOk env then posts w else [] in
  FileServer.submit env req w =
  (Val (mkResponse 201 (PostJson post)),
   mkWorld (base ++ [post])%list ((base ++ [post])%list :: backups w)
           ((if FileServer.channel env then Publish post else queueWarning)
            :: StoreWrite
            :: (if FileServer.readOk env then trace w
                else Console LogError "Error reading posts:" :: trace w))).
Proof.
  intros Hacc Hwr Hsend. unfold FileServer.submit.
  rewrite (accepted_guard req Hacc).
  unfold FileServer.readPosts, FileServer.writePosts, sendToQueue, tryCatch,
    bind, console, emit, getPosts, putPosts, putBackup, throw, ret.
  destruct env as [u n rd wr ch sd]; simpl in *. subst wr.
  destruct rd, ch; simpl; try reflexivity;
    rewrite (Hsend eq_refl); reflexivity.
Qed.

Lemma updateFirst_fresh_app (postId : string) (u : Update) (ps : list Post) (p : Post) :
  ~ In postId (map id ps) -> id p = postId ->
  updateFirst postId u (ps ++ [p])%list = ((ps ++ [applySet u p])%list, 1%nat).
Proof.
  intros Hno Hid. induction ps as [|q ps IH]; simpl.
  - rewrite Hid, String.eqb_refl. reflexivity.
  - destruct (String.eqb_spec (id q) postId) as [E|_].
    + exfalso. apply Hno. left. exact E.
    + rewrite IH; [reflexivity|]. intros Hin. apply Hno. right. exact Hin.
Qed.

Lemma updateFirst_app_matched (postId : string) (u : Update) (ps : list Post) (p : Post) :
  id p = postId -> snd (updateFirst postId u (ps ++ [p])%list) = 1%nat.
Proof.
  intros Hid. induction ps as [|q ps IH]; simpl.
  - rewrite Hid, String.eqb_refl. reflexivity.
  - destruct (String.eqb (id q) postId); [reflexivity|].
    destruct (updateFirst postId u (ps ++ [p])%list) as [ds n]. exact IH.
Qed.

Lemma mongo_submit_unqueued (env : MongoServer.Env) (req : Request) (w : World) :
  accepted req ->
  MongoServer.insertOk env = true -> MongoServer.channel env = false ->
  let post := newPost (MongoServer.uuid env) (MongoServer.now env) req in
  MongoServer.submit env req w =
  (Val (mkResponse 201 (PostJson post)),
   mkWorld (posts w ++ [post])%list (backups w)
           (queueWarning :: StoreWrite :: trace w)).
Proof.
  intros Hacc Hins Hch. unfold MongoServer.submit.
  rewrite (accepted_guard req Hacc), Hins, Hch. reflexivity.
Qed.

Lemma mongo_submit_queued (env : MongoServer.Env) (req : Request) (w : World) :
  accepted req ->
  MongoServer.insertOk env = true -> MongoServer.channel env = true ->
  MongoServer.sendOk env = true -> MongoServer.updateOk env = true ->
  let post := newPost (MongoServer.uuid env) (MongoServer.now env) req in
  MongoServer.submit env req w =
  (Val (mkResponse 201 (PostJson (set_status "processing" post))),
   mkWorld (fst (updateFirst (MongoServer.uuid env)
                   (mkUpdate (Some "processing") None None None None None None)
                   (posts w ++ [post])%list))
           (backups w)
           (StoreWrite :: Publish post :: StoreWrite :: trace w)).
Proof.
  intros Hacc Hins Hch Hsend Hup. unfold MongoServer.submit.
  rewrite (accepted_guard req Hacc), Hins, Hch, Hsend, Hup.
  unfold insertOne, updateOne, sendToQueue, tryCatch, bind, emit, ret. simpl.
  pose proof (updateFirst_app_matched (MongoServer.uuid env)
                (mkUpdate (Some "processing") None None None None None None)
                (posts w)
                (newPost (MongoServer.uuid env) (MongoServer.now env) req)
                eq_refl) as Hn.
  destruct (updateFirst _ _ (posts w ++ _)%list) as [ds n]. simpl in Hn. subst n.
  reflexivity.
Qed.

Lemma countId_fresh_app (postId : string) (ps : list Post) (p : Post) :
  ~ In postId (map id ps) -> id p = postId -> countId postId (ps ++ [p])%list = 1%nat.
Proof.
  intros Hno Hid. unfold countId. rewrite filter_app, length_app. simpl.
  rewrite Hid, String.eqb_refl. simpl.
  assert (filter (fun q => String.eqb (id q) postId) ps = []) as ->.
  { induction ps as [|q ps IH]; simpl; [reflexivity|].
    destruct (String.eqb_spec (id q) postId) as [E|_].
    - exfalso. apply Hno. left. exact E.
    - apply IH. intros Hin. apply Hno. right. exact Hin. }
  reflexivity.
Qed.

(** C7 (as amended): a request in which title, content or author is absent
    (or empty) is answered 400 and the world is left as it was: no record,
    nothing published.  A request with all three present and non-empty,
    the store and queue calls succeeding, creates a job with the generated
    id and status 'pending' and appends it to the store; with a generated id
    the store does not hold yet, it is the only record with that id.  The
    file-store server returns it as 'pending'.  The MongoDB server returns
    it as 'pending' when the queue channel is unavailable; when it
    published the job it marks the record 'processing' and returns it so. *)
Theorem submit_validates_and_creates
        (fenv : FileServer.Env) (menv : MongoServer.Env) (req : Request) (w : World) :
  (r_title req = None \/ r_content req = None \/ r_author req = None ->
   ~ accepted req) /\
  (~ accepted req ->
   FileServer.submit fenv req w = (Val validationError, w) /\
   MongoServer.submit menv req w = (Val validationError, w)) /\
  (accepted req ->
   let fpost := newPost (FileServer.uuid fenv) (FileServer.now fenv) req in
   let mpost := newPost (MongoServer.uuid menv) (MongoServer.now menv) req in
   (id fpost = FileServer.uuid fenv /\ status fpost = "pending" /\
    r_title req = Some (title fpost) /\ r_content req = Some (content fpost) /\
    r_author req = Some (author fpost)) /\
   (FileServer.write fenv = FileServer.WriteOk ->
    (FileServer.channel fenv = true -> FileServer.sendOk fenv = true) ->
    exists w',
      FileServer.submit fenv req w = (Val (mkResponse 201 (PostJson fpost)), w') /\
      posts w' = ((if FileServer.readOk fenv then posts w else []) ++ [fpost])%list /\
      published (trace w') =
        (if FileServer.channel fenv then fpost :: published (trace w)
         else published (trace w)) /\
      (~ In (FileServer.uuid fenv) (map id (posts w)) ->
       countId (FileServer.uuid fenv) (posts w') = 1%nat)) /\
   (MongoServer.insertOk menv = true -> MongoServer.channel menv = false ->
    exists w',
      MongoServer.submit menv req w = (Val (mkResponse 201 (PostJson mpost)), w') /\
      status mpost = "pending" /\
      posts w' = (posts w ++ [mpost])%list /\
      published (trace w') = published (trace w) /\
      (~ In (MongoServer.uuid menv) (map id (posts w)) ->
       countId (MongoServer.uuid menv) (posts w') = 1%nat)) /\
   (MongoServer.insertOk menv = true -> MongoServer.channel menv = true ->
    MongoServer.sendOk menv = true -> MongoServer.updateOk menv = true ->
    ~ In (MongoServer.uuid menv) (map id (posts w)) ->
    exists w',
      MongoServer.submit menv req w =
      (Val (mkResponse 201 (PostJson (set_status "processing" mpost))), w') /\
      posts w' = (posts w ++ [set_status "processing" mpost])%list /\
      published (trace w') = mpost :: published (trace w) /\
      countId (MongoServer.uuid menv) (posts w') = 1%nat)).
Proof.
  split; [apply absent_refused|]. split.
  { intros H. split; [now apply file_submit_refused | now apply mongo_submit_refused]. }
  intros Hacc fpost mpost. split; [|split; [|split]].
  - destruct Hacc as (Ht & Hc & Ha).
    repeat split; try reflexivity; now apply truthy_valueOf.
  - intros Hwr Hsend. eexists.
    split; [apply (file_submit_stored fenv req w Hacc Hwr Hsend)|].
    split; [reflexivity|]. split.
    + simpl. destruct (FileServer.channel fenv), (FileServer.readOk fenv);
        reflexivity.
    + intros Hno. simpl posts.
      destruct (FileServer.readOk fenv);
        apply countId_fresh_app; auto.
  - intros Hins Hch. eexists.
    split; [apply (mongo_submit_unqueued menv req w Hacc Hins Hch)|].
    split; [reflexivity|]. split; [reflexivity|]. split; [reflexivity|].
    intros Hno. simpl posts. apply countId_fresh_app; auto.
  - intros Hins Hch Hsend Hup Hno. eexists.
    split; [apply (mongo_submit_queued menv req w Hacc Hins Hch Hsend Hup)|].
    simpl posts.
    rewrite (updateFirst_fresh_app (MongoServer.uuid menv) _ (posts w) mpost
               Hno eq_refl). simpl fst.
    split; [reflexivity|]. split; [reflexivity|].
    apply countId_fresh_app; auto.
Qed.

(** C7, the claim as worded fails on the MongoDB server: with the queue
    channel available, the job it returns and the record it leaves in the
    store have status 'processing', not 'pending'. *)
Lemma mongo_submit_returns_processing :
  exists p w',
    MongoServer.submit (MongoServer.mkEnv "job-1" 1000%Z true true true true)
      greatRequest emptyWorld = (Val (mkResponse 201 (PostJson p)), w') /\
    id p = "job-1" /\ status p = "processing" /\ status p <> "pending" /\
    map status (posts w') = ["processing"].
Proof.
  eexists _, _. split; [vm_compute; reflexivity|].
  repeat split. discriminate.
Qed.

Lemma accepted_great : accepted greatRequest.
Proof. repeat split. Qed.

Lemma submit_validates_and_creates_witness :
  (FileServer.submit
     (FileServer.mkEnv "job-1" 1000%Z true FileServer.WriteOk true true)
     (mkRequest None (Some "this is great") (Some "a") None None) emptyWorld
   = (Val validationError, emptyWorld)) /\
  (exists w',
      FileServer.submit
        (FileServer.mkEnv "job-1" 1000%Z true FileServer.WriteOk true true)
        greatRequest emptyWorld
      = (Val (mkResponse 201 (PostJson greatPost)), w') /\
      posts w' = [greatPost]).
Proof.
  split.
  - apply (submit_validates_and_creates
             (FileServer.mkEnv "job-1" 1000%Z true FileServer.WriteOk true true)
             (MongoServer.mkEnv "job-1" 1000%Z true true true true)
             (mkRequest None (Some "this is great") (Some "a") None None)
             emptyWorld).
    apply (submit_validates_and_creates
             (FileServer.mkEnv "job-1" 1000%Z true FileServer.WriteOk true true)
             (MongoServer.mkEnv "job-1" 1000%Z true true true true)
             (mkRequest None (Some "this is great") (Some "a") None None)
             emptyWorld).
    left. reflexivity.
  - destruct (proj2 (proj2 (submit_validates_and_creates
                (FileServer.mkEnv "job-1" 1000%Z true FileServer.WriteOk true true)
                (MongoServer.mkEnv "job-1" 1000%Z true true true true)
                greatRequest emptyWorld)) accepted_great)
      as (_ & Hfile & _).
    destruct (Hfile eq_refl (fun _ => eq_refl)) as (w' & E & Hposts & _).
    exists w'. split; assumption.
Defined.

(** C8: a valid submission while the queue is unavailable, the store
    write succeeding.  With the channel variable unset, the request is
    answered 201 with the job, the job is in the store with status
    'pending' and the submitted content, the warning is the last thing
    logged and nothing is published.  With the variable still holding a
    channel that has since been closed (the server never clears it),
    [sendToQueue] throws: the job is in the store as 'pending' with its
    content all the same, but no warning is logged and the request is
    answered with the 500 error. *)
Theorem submit_with_queue_unavailable
        (fenv : FileServer.Env) (menv : MongoServer.Env) (req : Request) (w : World) :
  accepted req ->
  FileServer.write fenv = FileServer.WriteOk -> MongoServer.insertOk menv = true ->
  let fpost := newPost (FileServer.uuid fenv) (FileServer.now fenv) req in
  let mpost := newPost (MongoServer.uuid menv) (MongoServer.now menv) req in
  (FileServer.channel fenv = false ->
   exists w',
     FileServer.submit fenv req w = (Val (mkResponse 201 (PostJson fpost)), w') /\
     In fpost (posts w') /\ status fpost = "pending" /\
     r_content req = Some (content fpost) /\
     hd_error (trace w') = Some queueWarning /\
     published (trace w') = published (trace w)) /\
  (MongoServer.channel menv = false ->
   exists w',
     MongoServer.submit menv req w = (Val (mkResponse 201 (PostJson mpost)), w') /\
     In mpost (posts w') /\ status mpost = "pending" /\
     r_content req = Some (content mpost) /\
     hd_error (trace w') = Some queueWarning /\
     published (trace w') = published (trace w)) /\
  (FileServer.channel fenv = true -> FileServer.sendOk fenv = false ->
   exists w',
     FileServer.submit fenv req w
     = (Val (mkResponse 500 (ErrorJson "Failed to add post")), w') /\
     In fpost (posts w') /\ status fpost = "pending" /\
     r_content req = Some (content fpost) /\
     hd_error (trace w') = Some (Console LogError "Error adding post:") /\
     published (trace w') = published (trace w)) /\
  (MongoServer.channel menv = true -> MongoServer.sendOk menv = false ->
   exists w',
     MongoServer.submit menv req w
     = (Val (mkResponse 500 (ErrorJson "Failed to add post")), w') /\
     In mpost (posts w') /\ status mpost = "pending" /\
     r_content req = Some (content mpost) /\
     hd_error (trace w') = Some (Console LogError "Error adding post:") /\
     published (trace w') = published (trace w)).
Proof.
  intros Hacc Hfwr Hmins fpost mpost.
  assert (r_content req = Some (valueOf (r_content req))) as Hc
      by (apply truthy_valueOf, Hacc).
  split; [|split; [|split]].
  - intros Hfch. eexists.
    split; [apply (file_submit_stored fenv req w Hacc Hfwr)|].
    + rewrite Hfch. discriminate.
    + rewrite Hfch. simpl.
      split; [apply in_or_app; right; left; reflexivity|].
      split; [reflexivity|]. split; [exact Hc|]. split; [reflexivity|].
      destruct (FileServer.readOk fenv); reflexivity.
  - intros Hmch. eexists.
    split; [apply (mongo_submit_unqueued menv req w Hacc Hmins Hmch)|].
    simpl.
    split; [apply in_or_app; right; left; reflexivity|].
    split; [reflexivity|]. split; [exact Hc|]. split; reflexivity.
  - intros Hch Hsd. subst fpost. unfold FileServer.submit.
    rewrite (accepted_guard req Hacc), Hfwr, Hch, Hsd.
    unfold FileServer.readPosts, FileServer.writePosts, sendToQueue, tryCatch,
      bind, console, emit, getPosts, putPosts, putBackup, throw, ret.
    destruct (FileServer.readOk fenv); cbn; eexists;
      (split; [reflexivity|]); cbn [posts trace];
      (split; [first [left; reflexivity
                     | apply in_or_app; right; left; reflexivity]|]);
      (split; [reflexivity|]); (split; [exact Hc|]); split; reflexivity.
  - intros Hch Hsd. subst mpost. unfold MongoServer.submit.
    rewrite (accepted_guard req Hacc), Hmins, Hch, Hsd.
    unfold insertOne, sendToQueue, tryCatch, bind, console, emit, throw, ret.
    cbn. eexists. split; [reflexivity|]. cbn [posts trace].
    split; [apply in_or_app; right; left; reflexivity|].
    split; [reflexivity|]. split; [exact Hc|]. split; reflexivity.
Qed.

(** The failing input of C8: a valid request, the store writable, the
    channel variable set to a channel that has been closed. *)
Lemma submit_with_queue_unavailable_witness :
  exists w',
    FileServer.submit
      (FileServer.mkEnv "job-1" 1000%Z true FileServer.WriteOk true false)
      greatRequest emptyWorld
    = (Val (mkResponse 500 (ErrorJson "Failed to add post")), w') /\
    In greatPost (posts w') /\
    hd_error (trace w') = Some (Console LogError "Error adding post:").
Proof.
  destruct (submit_with_queue_unavailable
              (FileServer.mkEnv "job-1" 1000%Z true FileServer.WriteOk true false)
              (MongoServer.mkEnv "job-1" 1000%Z true true false true)
              greatRequest emptyWorld accepted_great eq_refl eq_refl)
    as (_ & _ & Hclosed & _).
  destruct (Hclosed eq_refl eq_refl) as (w' & E & Hin & _ & _ & Hlog & _).
  exists w'. repeat split; assumption.
Defined.

(** ** End-to-end runs *)

(** A harmless post is submitted, consumed and scored 0.2: its record ends
    'approved' with no review reason, and one scoring request was made. *)
Example end_to_end_approved :
  let created :=
    snd (FileServer.submit
           (FileServer.mkEnv "job-1" 1000%Z true FileServer.WriteOk true true)
           greatRequest emptyWorld) in
  let handled :=
    snd (FileWorker.onMessage Number_toFixed2 "worker-4001"
           (FileWorker.mkRun fileOk 2000%Z 2000%Z (Some (0.2, 0.1, 0.1)%float)
              2007%Z fileOk 2010%Z)
           (Some (Job greatPost)) created) in
  map status (posts handled) = ["approved"] /\
  map reviewReason (posts handled) = [None] /\
  map completedAt (posts handled) = [Some 2010%Z] /\
  map processingTime (posts handled) = [Some 7%Z] /\
  scoringRequests (trace handled) = 1%nat /\
  hd_error (trace handled) = Some (Ack greatPost).
Proof. vm_compute. repeat split. Qed.

(** A post carrying a deny-listed term ends 'rejected' and no scoring
    request is made. *)
Example end_to_end_denylisted :
  let req := mkRequest (Some "t") (Some "What the FuCk is this") (Some "a") None None in
  let post := newPost "job-2" 1000%Z req in
  let created :=
    snd (MongoServer.submit (MongoServer.mkEnv "job-2" 1000%Z true true true true)
           req emptyWorld) in
  let handled :=
    snd (MongoWorker.onMessage Number_toFixed2 "worker-1"
           (MongoWorker.mkRun true 2000%Z 2000%Z None 2001%Z true 2010%Z)
           (Some (Job post)) created) in
  map status (posts handled) = ["rejected"] /\
  map toxicityScore (posts handled) = [None] /\
  scoringRequests (trace handled) = 0%nat /\
  hd_error (trace handled) = Some (Ack post).
Proof. vm_compute. repeat split. Qed.

(** * Further properties of the code *)

(** ** Keyword lists in general *)

Lemma keywordWorker_keywords_shape :
  Forall plainKeyword KeywordWorker.blockedKeywords.
Proof.
  unfold KeywordWorker.blockedKeywords, plainKeyword.
  repeat constructor; discriminate.
Qed.

(** X1: the first revision's classifier rejects exactly the contents in
    which one of its four keywords occurs as a substring, letter case
    ignored, and names such a keyword; every other content is approved. *)
Theorem keyword_classifier_decides (content : string) :
  (containsAny KeywordWorker.blockedKeywords content ->
   exists k,
     In k KeywordWorker.blockedKeywords /\ containsTerm content k /\
     KeywordWorker.moderateContent content =
     KeywordWorker.mkVerdict "rejected" ("Content rejected due to keyword: " ++ k)) /\
  (~ containsAny KeywordWorker.blockedKeywords content ->
   KeywordWorker.moderateContent content =
   KeywordWorker.mkVerdict "approved" "Content approved after review").
Proof.
  pose proof (keywordList_hit_iff KeywordWorker.blockedKeywords content
                keywordWorker_keywords_shape) as Hiff.
  pose proof keywordWorker_keywords_shape as Hs. rewrite Forall_forall in Hs.
  unfold KeywordWorker.moderateContent. split.
  - intros H. apply Hiff in H.
    destruct (find _ KeywordWorker.blockedKeywords) as [k|] eqn:F; [|discriminate].
    rewrite H. exists k.
    apply find_some in F as [Hin Hinc].
    split; [exact Hin|]. split; [|reflexivity].
    destruct (Hs k Hin) as (Hk & _ & Ha & He).
    apply (includes_lower_iff k content Ha He Hk), Hinc.
  - intros H.
    destruct (JS.truthyStr (find _ KeywordWorker.blockedKeywords)) eqn:E;
      [|reflexivity].
    exfalso. apply H, Hiff. reflexivity.
Qed.

Lemma keyword_classifier_decides_witness :
  exists k,
    In k KeywordWorker.blockedKeywords /\ containsTerm "Whatever you say" k /\
    KeywordWorker.moderateContent "Whatever you say" =
    KeywordWorker.mkVerdict "rejected" ("Content rejected due to keyword: " ++ k).
Proof.
  apply (keyword_classifier_decides "Whatever you say").
  exists "hate". split; [simpl; tauto|].
  exists "W", "hate", "ver you say". split; reflexivity.
Defined.

Lemma decision_status_known (toFixed2 : float -> string) (tag : string)
      (api : option Scores) (content : string) (w : World) :
  exists d w',
    moderateContent toFixed2 tag api content w = (Val d, w') /\
    (d_status d = "rejected" \/ d_status d = "needs_review" \/
     d_status d = "approved").
Proof.
  destruct (JS.truthyStr
              (find (fun keyword => JS.includes (JS.toLowerCase content) keyword)
                    blockedKeywords)) eqn:E.
  - apply denyList_hit_iff in E.
    destruct (moderateContent_hit toFixed2 tag api content w E) as (k & _ & Hrun).
    eexists _, _. split; [exact Hrun|]. simpl. auto.
  - assert (~ containsBlocked content) as H
        by (intros C; apply denyList_hit_iff in C; congruence).
    destruct api as [[[t i] p]|].
    + eexists _, _.
      split; [apply (moderateContent_scored toFixed2 tag t i p content w H)|].
      cbv zeta.
      destruct (PrimFloat.ltb 0.8 (JS.Math_max [t; i; p]));
        [|destruct (PrimFloat.leb 0.5 (JS.Math_max [t; i; p]))]; simpl; auto.
    + eexists _, _.
      split; [apply (moderateContent_unscored toFixed2 tag content w H)|]. simpl.
      auto.
Qed.

Section DecisionShape.

Variable toFixed2 : float -> string.

(** X2: whatever the content and the scoring answer, the decision has one
    of the statuses 'rejected', 'needs_review', 'approved' and a non-empty
    detail text; it carries a review reason exactly when the status is
    'needs_review', and a null score exactly when the deny-list hit or the
    scoring call failed. *)
Theorem decision_shape (tag : string) (api : option Scores) (content : string)
        (w : World) :
  exists d w',
    moderateContent toFixed2 tag api content w = (Val d, w') /\
    (d_status d = "rejected" \/ d_status d = "needs_review" \/
     d_status d = "approved") /\
    JS.truthyStr (d_moderationDetails d) = true /\
    (d_reviewReason d <> None <-> d_status d = "needs_review") /\
    (d_toxicityScore d = None <-> containsBlocked content \/ api = None).
Proof.
  destruct (JS.truthyStr
              (find (fun keyword => JS.includes (JS.toLowerCase content) keyword)
                    blockedKeywords)) eqn:E.
  - apply denyList_hit_iff in E.
    destruct (moderateContent_hit toFixed2 tag api content w E) as (k & _ & Hrun).
    eexists _, _. split; [exact Hrun|]. simpl.
    split; [auto|]. split; [reflexivity|]. split.
    + split; [intros H; now contradiction H | discriminate].
    + split; auto.
  - assert (~ containsBlocked content) as H
        by (intros C; apply denyList_hit_iff in C; congruence).
    destruct api as [[[t i] p]|].
    + eexists _, _.
      split; [apply (moderateContent_scored toFixed2 tag t i p content w H)|].
      cbv zeta.
      destruct (PrimFloat.ltb 0.8 (JS.Math_max [t; i; p]));
        [|destruct (PrimFloat.leb 0.5 (JS.Math_max [t; i; p]))]; simpl;
        (split; [auto|]); (split; [reflexivity|]); split;
        try (split; [intros Hn; now contradiction Hn | discriminate]);
        try (split; [reflexivity | discriminate]);
        (split; [discriminate | intros [C | C]; [contradiction | discriminate]]).
    + eexists _, _.
      split; [apply (moderateContent_unscored toFixed2 tag content w H)|]. simpl.
      split; [auto|]. split; [reflexivity|]. split.
      * split; [reflexivity | discriminate].
      * split; auto.
Qed.

End DecisionShape.

Lemma decision_shape_witness :
  exists d w',
    moderateContent Number_toFixed2 "" (Some (0.6, 0.1, 0.1)%float) "this is great"
      emptyWorld = (Val d, w') /\
    d_status d = "needs_review" /\ d_reviewReason d <> None.
Proof.
  destruct (decision_shape Number_toFixed2 "" (Some (0.6, 0.1, 0.1)%float)
              "this is great" emptyWorld)
    as (d & w' & E & _ & _ & Hrr & _).
  exists d, w'. split; [exact E|].
  assert (d_status d = "needs_review") as Hs
      by (vm_compute in E; injection E as <- _; reflexivity).
  split; [exact Hs | now apply Hrr].
Defined.

(** ** Fields a call does not supply *)

Lemma committed_kept ok postId now status workerId md pt ts rr
      (ps : list Post) (i : nat) (p : Post) :
  nth_error ps i = Some p ->
  exists q,
    nth_error (committed ok postId
                 (MongoWorker.buildUpdate now status workerId md pt ts rr) ps) i
    = Some q /\
    keptWhenOmitted status md pt ts rr p q.
Proof.
  intros Hp.
  destruct (committed_nth ok postId
              (MongoWorker.buildUpdate now status workerId md pt ts rr) ps i p Hp)
    as (q & Hq & [-> | [-> _]]);
    eexists; (split; [exact Hq|]); [apply kept_refl | apply workerSet_kept].
Qed.

(** X3: [updatePostStatus] never clears an optional field: a null or
    empty [moderationDetails] or [reviewReason], a null or zero
    [processingTime] and a null [toxicityScore] leave the stored value as it
    was, as a non-terminal status does for [completedAt]; so a value
    written by an earlier attempt survives a later write that omits it. *)
Theorem omitted_fields_are_kept
        (io : FileWorker.StoreIO) (tag : string) (ok : bool) (now : Timestamp)
        (postId status workerId : string) md pt ts rr (w : World)
        (i : nat) (p : Post) :
  nth_error (posts w) i = Some p ->
  (exists q,
      nth_error (posts (snd (FileWorker.updatePostStatus io now postId status
                               workerId md pt ts rr w))) i = Some q /\
      keptWhenOmitted status md pt ts rr p q) /\
  (exists q,
      nth_error (posts (snd (MongoWorker.updatePostStatus tag ok now postId status
                               workerId md pt ts rr w))) i = Some q /\
      keptWhenOmitted status md pt ts rr p q).
Proof.
  intros Hp. split.
  - rewrite file_update_posts. now apply committed_kept.
  - rewrite mongo_update_posts. now apply committed_kept.
Qed.

Lemma omitted_fields_are_kept_witness :
  exists q,
    nth_error
      (posts (snd (FileWorker.updatePostStatus fileOk 3000%Z "job-1" "approved"
                     "worker-4001" (Some "Content approved") (Some 7%Z)
                     (Some 0.2%float) None
                     (mkWorld [reviewedPost] [] [])))) 0 = Some q /\
    reviewReason q = Some "Borderline content requiring human evaluation".
Proof.
  destruct (omitted_fields_are_kept fileOk "worker-1" true 3000%Z "job-1" "approved"
              "worker-4001" (Some "Content approved") (Some 7%Z) (Some 0.2%float)
              None (mkWorld [reviewedPost] [] []) 0 reviewedPost eq_refl)
    as ((q & Hq & _ & _ & _ & Hrr & _) & _).
  exists q. split; [exact Hq | exact (Hrr eq_refl)].
Defined.

(** ** The first revision's handler *)

Lemma keyword_update_is_file_update io now postId status workerId md :
  KeywordWorker.updatePostStatus io now postId status workerId md
  = FileWorker.updatePostStatus io now postId status workerId md None None None.
Proof. reflexivity. Qed.

Lemma keyword_onMessage_run (WORKER_ID : string) (r : KeywordWorker.Run)
      (post : Post) (w : World) :
  exists w',
    KeywordWorker.onMessage WORKER_ID r (Some (Job post)) w = (Val tt, w') /\
    hd_error (trace w') = Some (Ack post) /\
    backups w' = backups w /\
    posts w' =
      committed
        (FileWorker.readOk (KeywordWorker.io2 r)
         && FileWorker.writeOk (KeywordWorker.io2 r))
        (id post)
        (MongoWorker.buildUpdate (KeywordWorker.now2 r)
           (KeywordWorker.v_status (KeywordWorker.moderateContent (content post)))
           WORKER_ID
           (Some (KeywordWorker.v_moderationDetails
                    (KeywordWorker.moderateContent (content post))))
           None None None)
        (committed
           (FileWorker.readOk (KeywordWorker.io1 r)
            && FileWorker.writeOk (KeywordWorker.io1 r))
           (id post)
           (MongoWorker.buildUpdate (KeywordWorker.now1 r) "processing" WORKER_ID
              None None None None)
           (posts w)) /\
    scoringRequests (trace w') = scoringRequests (trace w).
Proof.
  unfold KeywordWorker.onMessage, JSON_parse, contentOf, KeywordWorker.moderate,
    bind, ret, console, emit.
  rewrite !keyword_update_is_file_update.
  set (w0 := mkWorld (posts w) (backups w)
                     (Console LogInfo (WORKER_ID ++ " processing post " ++ id post)
                      :: trace w)).
  rewrite (file_update_pair (KeywordWorker.io1 r)).
  set (w1 := snd (FileWorker.updatePostStatus (KeywordWorker.io1 r)
                    _ _ _ _ _ _ _ _ w0)).
  rewrite (file_update_pair (KeywordWorker.io2 r)).
  set (w3 := snd (FileWorker.updatePostStatus (KeywordWorker.io2 r)
                    _ _ _ _ _ _ _ _ w1)).
  exists (mkWorld (posts w3) (backups w3) (Ack post :: trace w3)).
  split; [reflexivity|]. split; [reflexivity|]. split.
  { simpl. unfold w3. rewrite file_update_backups. unfold w1.
    rewrite file_update_backups. reflexivity. }
  split.
  { simpl. unfold w3. rewrite file_update_posts. unfold w1.
    rewrite file_update_posts. reflexivity. }
  change (scoringRequests (trace w3) = scoringRequests (trace w)).
  unfold w3. rewrite file_update_scoring. unfold w1.
  rewrite file_update_scoring. reflexivity.
Qed.

Lemma keyword_onMessage_odd (WORKER_ID : string) (r : KeywordWorker.Run)
      (post : Post) (w : World) :
  exists e w',
    KeywordWorker.onMessage WORKER_ID r (Some (OddJob post)) w = (Exn e, w') /\
    acknowledged (trace w') = acknowledged (trace w) /\
    backups w' = backups w /\
    posts w' =
      committed
        (FileWorker.readOk (KeywordWorker.io1 r)
         && FileWorker.writeOk (KeywordWorker.io1 r))
        (id post)
        (MongoWorker.buildUpdate (KeywordWorker.now1 r) "processing" WORKER_ID
           None None None None)
        (posts w).
Proof.
  unfold KeywordWorker.onMessage, JSON_parse, contentOf, KeywordWorker.moderate,
    bind, ret, console, emit, throw.
  rewrite !keyword_update_is_file_update.
  set (w0 := mkWorld (posts w) (backups w)
                     (Console LogInfo (WORKER_ID ++ " processing post " ++ id post)
                      :: trace w)).
  rewrite (file_update_pair (KeywordWorker.io1 r)).
  eexists _, _. split; [reflexivity|].
  split; [apply (file_update_acks _ _ _ _ _ _ _ _ _ w0)|].
  split; [apply (file_update_backups _ _ _ _ _ _ _ _ _ w0)|].
  apply (file_update_posts _ _ _ _ _ _ _ _ _ w0).
Qed.

Lemma keyword_verdict_terminal (content : string) :
  isTerminal (KeywordWorker.v_status (KeywordWorker.moderateContent content)) = true.
Proof.
  unfold KeywordWorker.moderateContent.
  destruct (JS.truthyStr _); reflexivity.
Qed.

Lemma keyword_verdict_status (content : string) :
  KeywordWorker.v_status (KeywordWorker.moderateContent content) = "approved" \/
  KeywordWorker.v_status (KeywordWorker.moderateContent content) = "rejected".
Proof.
  unfold KeywordWorker.moderateContent.
  destruct (JS.truthyStr _); [right | left]; reflexivity.
Qed.

Lemma keyword_verdict_details (content : string) :
  JS.truthyStr
    (Some (KeywordWorker.v_moderationDetails (KeywordWorker.moderateContent content)))
  = true.
Proof.
  unfold KeywordWorker.moderateContent.
  destruct (JS.truthyStr (find _ _)); reflexivity.
Qed.

(** X4: in the first revision, a handled message whose outcome write goes
    through leaves its job 'approved' or 'rejected' with [completedAt] set
    to the time of that write, the worker recorded and the verdict's detail
    text stored; the message is acknowledged and no scoring request is
    made. *)
Theorem keyword_handler_ends_terminal
        (WORKER_ID : string) (r : KeywordWorker.Run) (post : Post) (w : World)
        (k : nat) :
  JS.findIndex (fun p => String.eqb (id p) (id post)) (posts w) = Some k ->
  FileWorker.readOk (KeywordWorker.io2 r) = true ->
  FileWorker.writeOk (KeywordWorker.io2 r) = true ->
  exists w' q,
    KeywordWorker.onMessage WORKER_ID r (Some (Job post)) w = (Val tt, w') /\
    hd_error (trace w') = Some (Ack post) /\
    scoringRequests (trace w') = scoringRequests (trace w) /\
    nth_error (posts w') k = Some q /\
    (status q = "approved" \/ status q = "rejected") /\
    status q = KeywordWorker.v_status (KeywordWorker.moderateContent (content post)) /\
    completedAt q = Some (KeywordWorker.now2 r) /\
    worker q = Some WORKER_ID /\
    moderationDetails q =
      Some (KeywordWorker.v_moderationDetails
              (KeywordWorker.moderateContent (content post))).
Proof.
  intros F Hr Hw.
  destruct (keyword_onMessage_run WORKER_ID r post w)
    as (w' & E & Hack & _ & Hposts & Hsc).
  rewrite Hr, Hw in Hposts. simpl andb in Hposts.
  rewrite <- (committed_findIndex
                (FileWorker.readOk (KeywordWorker.io1 r)
                 && FileWorker.writeOk (KeywordWorker.io1 r))
                (id post)
                (MongoWorker.buildUpdate (KeywordWorker.now1 r) "processing"
                   WORKER_ID None None None None)) in F.
  destruct (committed_written _ _ _ (KeywordWorker.now2 r)
              (KeywordWorker.v_status (KeywordWorker.moderateContent (content post)))
              WORKER_ID
              (Some (KeywordWorker.v_moderationDetails
                       (KeywordWorker.moderateContent (content post))))
              None None None F)
    as (q & Hq & Hst & Hwk & Hmd & _ & _ & _ & Hca).
  exists w', q. rewrite Hposts.
  split; [exact E|]. split; [exact Hack|]. split; [exact Hsc|].
  split; [exact Hq|]. split.
  { rewrite Hst. apply keyword_verdict_status. }
  split; [exact Hst|]. split; [apply Hca, keyword_verdict_terminal|].
  split; [exact Hwk|]. apply Hmd, keyword_verdict_details.
Qed.

Lemma keyword_handler_ends_terminal_witness :
  exists w' q,
    KeywordWorker.onMessage "worker-4001"
      (KeywordWorker.mkRun fileOk 2000%Z fileOk 3000%Z) (Some (Job greatPost)) oneJob
    = (Val tt, w') /\
    nth_error (posts w') 0 = Some q /\ status q = "approved" /\
    completedAt q = Some 3000%Z.
Proof.
  destruct (keyword_handler_ends_terminal "worker-4001"
              (KeywordWorker.mkRun fileOk 2000%Z fileOk 3000%Z) greatPost oneJob 0
              eq_refl eq_refl eq_refl)
    as (w' & q & E & _ & _ & Hq & _ & Hst & Hca & _).
  exists w', q. repeat split; assumption.
Defined.

(** ** One handled message: frame, redelivery, scoring requests *)

Section HandlerProperties.

Variable toFixed2 : float -> string.
Variable WORKER_ID : string.


(** X6: a delivery handled twice under the same conditions (same scoring
    answer, same I/O outcomes, same clock readings) leaves the store as
    one handling does, in all three workers and whatever the delivery
    holds. *)
Theorem redelivery_is_idempotent
        (rf : FileWorker.Run) (rm : MongoWorker.Run) (rk : KeywordWorker.Run)
        (msg : option Delivery) (w : World) :
  posts (snd (FileWorker.onMessage toFixed2 WORKER_ID rf msg
                (snd (FileWorker.onMessage toFixed2 WORKER_ID rf msg w))))
  = posts (snd (FileWorker.onMessage toFixed2 WORKER_ID rf msg w)) /\
  posts (snd (MongoWorker.onMessage toFixed2 WORKER_ID rm msg
                (snd (MongoWorker.onMessage toFixed2 WORKER_ID rm msg w))))
  = posts (snd (MongoWorker.onMessage toFixed2 WORKER_ID rm msg w)) /\
  posts (snd (KeywordWorker.onMessage WORKER_ID rk msg
                (snd (KeywordWorker.onMessage WORKER_ID rk msg w))))
  = posts (snd (KeywordWorker.onMessage WORKER_ID rk msg w)).
Proof.
  destruct msg as [[|post|post]|]; try (repeat split; reflexivity).
  - split; [|split].
    + destruct (file_onMessage_run toFixed2 WORKER_ID rf post w)
        as (d & w1 & Hd & E1 & _ & _ & P1 & _).
      rewrite E1. cbn [snd].
      destruct (file_onMessage_run toFixed2 WORKER_ID rf post w1)
        as (d' & w2 & Hd' & E2 & _ & _ & P2 & _).
      rewrite E2. cbn [snd].
      rewrite Hd in Hd'. injection Hd' as <-.
      rewrite P2, P1. apply handled_twice.
    + destruct (mongo_onMessage_run toFixed2 WORKER_ID rm post w)
        as (d & w1 & Hd & E1 & _ & _ & P1 & _).
      rewrite E1. cbn [snd].
      destruct (mongo_onMessage_run toFixed2 WORKER_ID rm post w1)
        as (d' & w2 & Hd' & E2 & _ & _ & P2 & _).
      rewrite E2. cbn [snd].
      rewrite Hd in Hd'. injection Hd' as <-.
      rewrite P2, P1. apply handled_twice.
    + destruct (keyword_onMessage_run WORKER_ID rk post w)
        as (w1 & E1 & _ & _ & P1 & _).
      rewrite E1. cbn [snd].
      destruct (keyword_onMessage_run WORKER_ID rk post w1)
        as (w2 & E2 & _ & _ & P2 & _).
      rewrite E2. cbn [snd].
      rewrite P2, P1. apply handled_twice.
  - split; [|split].
    + destruct (file_onMessage_odd toFixed2 WORKER_ID rf post w)
        as (e & w1 & E1 & _ & _ & P1 & _).
      rewrite E1. cbn [snd].
      destruct (file_onMessage_odd toFixed2 WORKER_ID rf post w1)
        as (e' & w2 & E2 & _ & _ & P2 & _).
      rewrite E2. cbn [snd]. rewrite P2, P1. apply committed_idem.
    + destruct (mongo_onMessage_odd toFixed2 WORKER_ID rm post w)
        as (e & w1 & E1 & _ & _ & P1 & _).
      rewrite E1. cbn [snd].
      destruct (mongo_onMessage_odd toFixed2 WORKER_ID rm post w1)
        as (e' & w2 & E2 & _ & _ & P2 & _).
      rewrite E2. cbn [snd]. rewrite P2, P1. apply committed_idem.
    + destruct (keyword_onMessage_odd WORKER_ID rk post w)
        as (e & w1 & E1 & _ & _ & P1).
      rewrite E1. cbn [snd].
      destruct (keyword_onMessage_odd WORKER_ID rk post w1)
        as (e' & w2 & E2 & _ & _ & P2).
      rewrite E2. cbn [snd]. rewrite P2, P1. apply committed_idem.
Qed.

Lemma moderateContent_requests (tag : string) (api : option Scores)
      (content : string) (w : World) :
  exists d w',
    moderateContent toFixed2 tag api content w = (Val d, w') /\
    (containsBlocked content ->
     scoringRequests (trace w') = scoringRequests (trace w)) /\
    (~ containsBlocked content ->
     scoringRequests (trace w') = S (scoringRequests (trace w))).
Proof.
  destruct (JS.truthyStr
              (find (fun keyword => JS.includes (JS.toLowerCase content) keyword)
                    blockedKeywords)) eqn:E.
  - apply denyList_hit_iff in E.
    destruct (moderateContent_hit toFixed2 tag api content w E) as (k & _ & Hrun).
    eexists _, _. split; [exact Hrun|]. split; [reflexivity | contradiction].
  - assert (~ containsBlocked content) as H
        by (intros C; apply denyList_hit_iff in C; congruence).
    destruct api as [[[t i] p]|].
    + eexists _, _.
      split; [apply (moderateContent_scored toFixed2 tag t i p content w H)|].
      split; [contradiction | reflexivity].
    + eexists _, _.
      split; [apply (moderateContent_unscored toFixed2 tag content w H)|].
      split; [contradiction | reflexivity].
Qed.

(** X7: handling one message sends at most one request to the scoring
    service.  For a job whose content is a string: none when the content
    hits the deny-list, exactly one otherwise, whether the call then
    succeeds or fails.  For a delivery that does not parse or whose
    content is no string: none. *)
Theorem one_scoring_request_per_message
        (rf : FileWorker.Run) (rm : MongoWorker.Run) (post : Post) (w : World) :
  let wf := snd (FileWorker.onMessage toFixed2 WORKER_ID rf (Some (Job post)) w) in
  let wm := snd (MongoWorker.onMessage toFixed2 WORKER_ID rm (Some (Job post)) w) in
  (containsBlocked (content post) ->
   scoringRequests (trace wf) = scoringRequests (trace w) /\
   scoringRequests (trace wm) = scoringRequests (trace w)) /\
  (~ containsBlocked (content post) ->
   scoringRequests (trace wf) = S (scoringRequests (trace w)) /\
   scoringRequests (trace wm) = S (scoringRequests (trace w))) /\
  (forall m, m = NotJson \/ m = OddJob post ->
   scoringRequests
     (trace (snd (FileWorker.onMessage toFixed2 WORKER_ID rf (Some m) w)))
   = scoringRequests (trace w) /\
   scoringRequests
     (trace (snd (MongoWorker.onMessage toFixed2 WORKER_ID rm (Some m) w)))
   = scoringRequests (trace w)).
Proof.
  cbv zeta.
  assert (Hfile :
    exists w2 w2',
      scoringRequests
        (trace (snd (FileWorker.onMessage toFixed2 WORKER_ID rf (Some (Job post)) w)))
      = scoringRequests (trace w2') /\
      scoringRequests (trace w2) = scoringRequests (trace w) /\
      (containsBlocked (content post) ->
       scoringRequests (trace w2') = scoringRequests (trace w2)) /\
      (~ containsBlocked (content post) ->
       scoringRequests (trace w2') = S (scoringRequests (trace w2)))).
  { unfold FileWorker.onMessage, JSON_parse, contentOf, moderate, bind, ret,
      console, emit.
    rewrite (file_update_pair (FileWorker.io1 rf)).
    set (w1 := snd (FileWorker.updatePostStatus (FileWorker.io1 rf)
                      _ _ _ _ _ _ _ _ _)).
    destruct (moderateContent_requests "" (FileWorker.api rf) (content post) w1)
      as (d & w2 & E2 & Hhit & Hmiss).
    rewrite E2. rewrite (file_update_pair (FileWorker.io2 rf)).
    exists w1, w2. split.
    - simpl snd.
      change (scoringRequests
                (trace (snd (FileWorker.updatePostStatus (FileWorker.io2 rf)
                               (FileWorker.now2 rf) (id post) (d_status d) WORKER_ID
                               (d_moderationDetails d)
                               (Some (FileWorker.endTime rf - FileWorker.startTime rf)%Z)
                               (d_toxicityScore d) (d_reviewReason d) w2)))
              = scoringRequests (trace w2)).
      apply file_update_scoring.
    - split; [|split; assumption].
      unfold w1. rewrite file_update_scoring. reflexivity. }
  assert (Hmongo :
    exists w2 w2',
      scoringRequests
        (trace (snd (MongoWorker.onMessage toFixed2 WORKER_ID rm (Some (Job post)) w)))
      = scoringRequests (trace w2') /\
      scoringRequests (trace w2) = scoringRequests (trace w) /\
      (containsBlocked (content post) ->
       scoringRequests (trace w2') = scoringRequests (trace w2)) /\
      (~ containsBlocked (content post) ->
       scoringRequests (trace w2') = S (scoringRequests (trace w2)))).
  { unfold MongoWorker.onMessage, JSON_parse, contentOf, moderate, bind, ret,
      console, emit.
    rewrite (mongo_update_pair WORKER_ID (MongoWorker.ok1 rm)).
    set (w1 := snd (MongoWorker.updatePostStatus WORKER_ID (MongoWorker.ok1 rm)
                      _ _ _ _ _ _ _ _ _)).
    destruct (moderateContent_requests (WORKER_ID ++ ": ") (MongoWorker.api rm)
                (content post) w1)
      as (d & w2 & E2 & Hhit & Hmiss).
    rewrite E2. rewrite (mongo_update_pair WORKER_ID (MongoWorker.ok2 rm)).
    exists w1, w2. split.
    - simpl snd.
      change (scoringRequests
                (trace (snd (MongoWorker.updatePostStatus WORKER_ID (MongoWorker.ok2 rm)
                               (MongoWorker.now2 rm) (id post) (d_status d) WORKER_ID
                               (d_moderationDetails d)
                               (Some (MongoWorker.endTime rm - MongoWorker.startTime rm)%Z)
                               (d_toxicityScore d) (d_reviewReason d) w2)))
              = scoringRequests (trace w2)).
      apply mongo_update_scoring.
    - split; [|split; assumption].
      unfold w1. rewrite mongo_update_scoring. reflexivity. }
  destruct Hfile as (a & a' & Fa & Fb & Fhit & Fmiss).
  destruct Hmongo as (b & b' & Ma & Mb & Mhit & Mmiss).
  split; [|split].
  - intros H. rewrite Fa, Ma, (Fhit H), (Mhit H), Fb, Mb. split; reflexivity.
  - intros H. rewrite Fa, Ma, (Fmiss H), (Mmiss H), Fb, Mb. split; reflexivity.
  - intros m [-> | ->]; [split; reflexivity|].
    destruct (file_onMessage_odd toFixed2 WORKER_ID rf post w)
      as (e & w1 & E1 & _ & _ & _ & S1 & _).
    destruct (mongo_onMessage_odd toFixed2 WORKER_ID rm post w)
      as (e' & w2 & E2 & _ & _ & _ & S2 & _).
    rewrite E1, E2. split; assumption.
Qed.

End HandlerProperties.


Lemma one_scoring_request_per_message_witness :
  scoringRequests
    (trace (snd (FileWorker.onMessage Number_toFixed2 "worker-4001"
                   (FileWorker.mkRun fileOk 2000%Z 10%Z None 17%Z fileOk 3000%Z)
                   (Some (Job greatPost)) oneJob))) = 1%nat.
Proof.
  destruct (one_scoring_request_per_message Number_toFixed2 "worker-4001"
              (FileWorker.mkRun fileOk 2000%Z 10%Z None 17%Z fileOk 3000%Z)
              (MongoWorker.mkRun true 2000%Z 10%Z None 17%Z true 3000%Z)
              greatPost oneJob) as (_ & Hmiss & _).
  exact (proj1 (Hmiss great_passes)).
Defined.

(** ** Statistics over the store *)

Lemma committed_Forall (P : Post -> Prop) ok postId (u : Update) (ps : list Post) :
  (forall p, P p -> P (applySet u p)) ->
  Forall P ps -> Forall P (committed ok postId u ps).
Proof.
  intros Hu H. destruct ok; [|exact H].
  unfold committed. now apply updateFirst_Forall.
Qed.

Lemma workerSet_status now newStatus workerId md pt ts rr (p : Post) :
  status (applySet (MongoWorker.buildUpdate now newStatus workerId md pt ts rr) p)
  = newStatus.
Proof. apply workerSet_written. Qed.

Lemma submitStep_preserves (P : Post -> Prop) (w w' : World) :
  (forall uuid now req, P (newPost uuid now req)) ->
  (forall p, P p ->
             P (applySet (mkUpdate (Some "processing") None None None None None None) p)) ->
  submitStep w w' -> Forall P (posts w) -> Forall P (posts w').
Proof.
  intros Hnew Hset [env req w0 | env req w0] H.
  - unfold FileServer.submit, FileServer.readPosts, FileServer.writePosts,
      sendToQueue, tryCatch, bind, console, emit, getPosts, putPosts, putBackup,
      throw, ret.
    destruct (negb _ || negb _ || negb _); [exact H|].
    destruct env as [u n rd wr ch sd]; simpl.
    assert (Forall P (posts w0 ++ [newPost u n req])) as H1
        by (apply Forall_app; split; [exact H | repeat constructor; apply Hnew]).
    assert (Forall P ([] ++ [newPost u n req])) as H2
        by (repeat constructor; apply Hnew).
    destruct rd, wr, ch, sd; simpl; assumption.
  - unfold MongoServer.submit, insertOne, updateOne, sendToQueue, tryCatch,
      bind, console, emit, throw, ret.
    destruct (negb _ || negb _ || negb _); [exact H|].
    destruct env as [u n ins ch sd up]; simpl.
    assert (Forall P (posts w0 ++ [newPost u n req])) as H1
        by (apply Forall_app; split; [exact H | repeat constructor; apply Hnew]).
    pose proof (updateFirst_Forall P u
                  (mkUpdate (Some "processing") None None None None None None)
                  _ Hset H1) as H2.
    destruct ins, ch, sd, up; simpl; try assumption.
    destruct (updateFirst u _ (posts w0 ++ [newPost u n req])) as [ds k].
    exact H2.
Qed.

Lemma pipelineStep_knownStatus (w w' : World) :
  pipelineStep w w' ->
  Forall (fun p => knownStatus (status p)) (posts w) ->
  Forall (fun p => knownStatus (status p)) (posts w').
Proof.
  intros [w0 w1 Hs | f W r msg w0 | f W r msg w0 | W r msg w0] H.
  - apply (submitStep_preserves _ _ _ (fun _ _ _ => or_introl eq_refl)
             (fun _ _ => or_intror (or_introl eq_refl)) Hs H).
  - destruct msg as [[|post|post]|]; try exact H.
    + destruct (file_onMessage_run f W r post w0)
        as (d & wr & Hd & E & _ & _ & Hposts & _).
      rewrite E. cbn [snd]. rewrite Hposts.
      destruct (decision_status_known f "" (FileWorker.api r) (content post)
                  emptyWorld)
        as (d' & w2 & E2 & Hst).
      rewrite E2 in Hd. injection Hd as ->.
      apply committed_Forall; [|apply committed_Forall; [|exact H]];
        intros p _; rewrite workerSet_status; unfold knownStatus; tauto.
    + destruct (file_onMessage_odd f W r post w0)
        as (e & wr & E & _ & _ & Hposts & _).
      rewrite E. cbn [snd]. rewrite Hposts.
      apply committed_Forall; [|exact H].
      intros p _; rewrite workerSet_status; unfold knownStatus; tauto.
  - destruct msg as [[|post|post]|]; try exact H.
    + destruct (mongo_onMessage_run f W r post w0)
        as (d & wr & Hd & E & _ & _ & Hposts & _).
      rewrite E. cbn [snd]. rewrite Hposts.
      destruct (decision_status_known f "" (MongoWorker.api r) (content post)
                  emptyWorld)
        as (d' & w2 & E2 & Hst).
      rewrite E2 in Hd. injection Hd as ->.
      apply committed_Forall; [|apply committed_Forall; [|exact H]];
        intros p _; rewrite workerSet_status; unfold knownStatus; tauto.
    + destruct (mongo_onMessage_odd f W r post w0)
        as (e & wr & E & _ & _ & Hposts & _).
      rewrite E. cbn [snd]. rewrite Hposts.
      apply committed_Forall; [|exact H].
      intros p _; rewrite workerSet_status; unfold knownStatus; tauto.
  - destruct msg as [[|post|post]|]; try exact H.
    + destruct (keyword_onMessage_run W r post w0) as (wr & E & _ & _ & Hposts & _).
      rewrite E. cbn [snd]. rewrite Hposts.
      pose proof (keyword_verdict_status (content post)) as Hv.
      apply committed_Forall; [|apply committed_Forall; [|exact H]];
        intros p _; rewrite workerSet_status; unfold knownStatus; tauto.
    + destruct (keyword_onMessage_odd W r post w0) as (e & wr & E & _ & _ & Hposts).
      rewrite E. cbn [snd]. rewrite Hposts.
      apply committed_Forall; [|exact H].
      intros p _; rewrite workerSet_status; unfold knownStatus; tauto.
Qed.

Lemma pipelineReachable_knownStatus (w : World) :
  pipelineReachable w -> Forall (fun p => knownStatus (status p)) (posts w).
Proof.
  induction 1 as [bk tr | w w' _ IH Hs].
  - constructor.
  - exact (pipelineStep_knownStatus _ _ Hs IH).
Qed.

Lemma countStatus_cons (s : string) (p : Post) (ps : list Post) :
  Reporting.countStatus s (p :: ps)
  = ((if String.eqb (status p) s then 1 else 0) + Reporting.countStatus s ps)%nat.
Proof.
  unfold Reporting.countStatus. simpl.
  destruct (String.eqb (status p) s); reflexivity.
Qed.

Lemma statusSum_bound (ps : list Post) :
  (statusSum (Reporting.computeStats ps) <= List.length ps)%nat.
Proof.
  unfold statusSum, Reporting.computeStats. cbn [Reporting.approved
    Reporting.rejected Reporting.pending Reporting.processing
    Reporting.needs_review].
  induction ps as [|p ps IH]; [apply Nat.le_refl|].
  rewrite !countStatus_cons. cbn [List.length].
  destruct (String.eqb_spec (status p) "approved") as [E1|_];
    destruct (String.eqb_spec (status p) "rejected") as [E2|_];
    destruct (String.eqb_spec (status p) "pending") as [E3|_];
    destruct (String.eqb_spec (status p) "processing") as [E4|_];
    destruct (String.eqb_spec (status p) "needs_review") as [E5|_];
    try congruence; lia.
Qed.

Lemma statusSum_known (ps : list Post) :
  Forall (fun p => knownStatus (status p)) ps ->
  statusSum (Reporting.computeStats ps) = List.length ps.
Proof.
  unfold statusSum, Reporting.computeStats. cbn [Reporting.approved
    Reporting.rejected Reporting.pending Reporting.processing
    Reporting.needs_review].
  induction 1 as [|p ps Hp _ IH]; [reflexivity|].
  rewrite !countStatus_cons. cbn [List.length].
  destruct Hp as [E|[E|[E|[E|E]]]]; rewrite E; cbn [String.eqb Ascii.eqb Bool.eqb andb];
    lia.
Qed.

(** X8: [computeStats] gives the number of records as [total], and its
    five status counts never add up to more than that; on every store
    built by submissions and handled messages alone they add up to exactly
    [total], each record being counted under one status. *)
Theorem stats_partition_the_store (w : World) :
  pipelineReachable w ->
  Reporting.total (Reporting.computeStats (posts w)) = List.length (posts w) /\
  (forall ps, (statusSum (Reporting.computeStats ps) <= List.length ps)%nat) /\
  statusSum (Reporting.computeStats (posts w))
  = Reporting.total (Reporting.computeStats (posts w)).
Proof.
  intros H. split; [reflexivity|]. split; [apply statusSum_bound|].
  apply statusSum_known, pipelineReachable_knownStatus, H.
Qed.

Lemma stats_partition_the_store_witness :
  let handled :=
    snd (FileWorker.onMessage Number_toFixed2 "worker-4001"
           (FileWorker.mkRun fileOk 2000%Z 2000%Z (Some (0.2, 0.1, 0.1)%float)
              2007%Z fileOk 2010%Z)
           (Some (Job greatPost))
           (snd (FileServer.submit
                   (FileServer.mkEnv "job-1" 1000%Z true FileServer.WriteOk true true)
                   greatRequest emptyWorld))) in
  pipelineReachable handled /\
  statusSum (Reporting.computeStats (posts handled))
  = Reporting.total (Reporting.computeStats (posts handled)).
Proof.
  assert (pipelineReachable
            (snd (FileWorker.onMessage Number_toFixed2 "worker-4001"
                    (FileWorker.mkRun fileOk 2000%Z 2000%Z
                       (Some (0.2, 0.1, 0.1)%float) 2007%Z fileOk 2010%Z)
                    (Some (Job greatPost))
                    (snd (FileServer.submit
                            (FileServer.mkEnv "job-1" 1000%Z true
                               FileServer.WriteOk true true)
                            greatRequest emptyWorld))))) as Hr.
  { eapply pipeline_step.
    - eapply pipeline_step; [apply pipeline_empty|].
      apply step_submit, file_submit.
    - apply step_file_message. }
  split; [exact Hr|].
  exact (proj2 (proj2 (stats_partition_the_store _ Hr))).
Defined.

(** ** [GET /api/posts] on the file store *)

Lemma filter_shorter {A : Type} (f : A -> bool) (l : list A) :
  (List.length (filter f l) <= List.length l)%nat.
Proof.
  induction l as [|x l IH]; simpl; [apply Nat.le_refl|].
  destruct (f x); simpl; lia.
Qed.

Lemma periodFilter_In (startDate : Reporting.Period -> Timestamp)
      (period : option string) (base : list Post) (p : Post) :
  In p (if JS.truthyStr period
        then Reporting.filterPostsByPeriod startDate base (valueOf period)
        else base)
  <-> In p base /\ periodSelected startDate period p.
Proof.
  unfold periodSelected, Reporting.filterPostsByPeriod.
  destruct period as [s|]; simpl; [|tauto].
  destruct (String.eqb_spec s EmptyString) as [->|_]; simpl; [tauto|].
  destruct (Reporting.periodOf s) as [k|]; [|tauto].
  rewrite filter_In, Z.leb_le. tauto.
Qed.

Lemma statusFilter_In (filter : option string) (base : list Post) (p : Post) :
  In p (if negb (String.eqb (match filter with Some f => f | None => "all" end) "all")
        then List.filter
               (fun q => String.eqb (status q)
                           (match filter with Some f => f | None => "all" end)) base
        else base)
  <-> In p base /\ statusSelected filter p.
Proof.
  unfold statusSelected. destruct filter as [f|]; simpl; [|tauto].
  destruct (String.eqb_spec f "all") as [->|Hne]; simpl; [tauto|].
  rewrite filter_In, String.eqb_eq. tauto.
Qed.

(** X9: [GET /api/posts] never modifies the store and always answers with
    a listing: the posts read that match the status filter and the period
    (a missing or 'all' filter, and a missing, empty or unknown period,
    select everything), with statistics computed over the whole store
    whatever the filter; when both reads succeed the listing is no longer
    than [total]. *)
Theorem listPosts_report (startDate : Reporting.Period -> Timestamp)
        (read1 read2 : bool) (filter period : option string) (w : World) :
  exists l w',
    Reporting.listPosts startDate read1 read2 filter period w = (Val (Reporting.Listed l), w') /\
    posts w' = posts w /\ backups w' = backups w /\
    storeWrites (trace w') = storeWrites (trace w) /\
    Reporting.l_stats l = Reporting.computeStats (if read2 then posts w else []) /\
    (forall p, In p (Reporting.l_posts l) <->
               In p (if read1 then posts w else []) /\
               statusSelected filter p /\ periodSelected startDate period p) /\
    (read1 = true -> read2 = true ->
     (List.length (Reporting.l_posts l)
      <= Reporting.total (Reporting.l_stats l))%nat).
Proof.
  unfold Reporting.listPosts, FileServer.readPosts, tryCatch, bind, console, emit,
    getPosts, throw, ret.
  destruct read1, read2; cbv beta iota zeta; eexists _, _;
    (split; [reflexivity|]); cbn [posts backups trace Reporting.l_stats
      Reporting.l_posts];
    (split; [reflexivity|]); (split; [reflexivity|]); (split; [reflexivity|]);
    (split; [reflexivity|]); split;
    try (intros p; rewrite statusFilter_In, periodFilter_In; tauto);
    try discriminate.
  intros _ _. cbn [Reporting.computeStats Reporting.total].
  destruct (negb _).
  - eapply Nat.le_trans; [apply filter_shorter|].
    destruct (JS.truthyStr period); [|apply Nat.le_refl].
    unfold Reporting.filterPostsByPeriod.
    destruct (Reporting.periodOf _); [apply filter_shorter | apply Nat.le_refl].
  - destruct (JS.truthyStr period); [|apply Nat.le_refl].
    unfold Reporting.filterPostsByPeriod.
    destruct (Reporting.periodOf _); [apply filter_shorter | apply Nat.le_refl].
Qed.

Lemma listPosts_report_witness :
  exists l,
    Reporting.listPosts (fun _ => 0%Z) true true (Some "approved") (Some "fortnight")
      oneJob = (Val (Reporting.Listed l), oneJob) /\
    Reporting.l_posts l = [] /\
    Reporting.total (Reporting.l_stats l) = 1%nat.
Proof.
  destruct (listPosts_report (fun _ => 0%Z) true true (Some "approved")
              (Some "fortnight") oneJob)
    as (l & w' & E & _ & _ & _ & Hstats & Hin & _).
  exists l.
  assert (w' = oneJob) as -> by (vm_compute in E; injection E as _ <-; reflexivity).
  split; [exact E|]. split.
  - destruct (Reporting.l_posts l) as [|p ps] eqn:Hl; [reflexivity|].
    exfalso. destruct (proj1 (Hin p) (or_introl eq_refl)) as ([<-|[]] & [Hf|Hf] & _);
      discriminate Hf.
  - rewrite Hstats. reflexivity.
Defined.

(** ** [/api/processing-times] on MongoDB *)

Lemma entry_updateEntry (key W : string)
      (f : MongoReporting.WorkerStats -> MongoReporting.WorkerStats)
      (ws : list (string * MongoReporting.WorkerStats)) :
  MongoReporting.entry W (MongoReporting.updateEntry key f ws)
  = if String.eqb key W then option_map f (MongoReporting.entry W ws)
    else MongoReporting.entry W ws.
Proof.
  induction ws as [|[k st] rest IH]; simpl.
  - now destruct (String.eqb key W).
  - destruct (String.eqb_spec k key) as [->|Hk]; simpl.
    + destruct (String.eqb_spec key W) as [->|Hw]; reflexivity.
    + rewrite IH.
      destruct (String.eqb_spec k W) as [->|Hw]; [|reflexivity].
      destruct (String.eqb_spec key W) as [->|_]; [contradiction | reflexivity].
Qed.

Lemma visit_entry (W : string) (ws : list (string * MongoReporting.WorkerStats))
      (p : Post) :
  MongoReporting.entry W (MongoReporting.visit ws p)
  = if String.eqb (JS.orDefault (worker p) "unknown") W
    then option_map (MongoReporting.account p) (MongoReporting.entry W ws)
    else MongoReporting.entry W ws.
Proof.
  unfold MongoReporting.visit.
  destruct (MongoReporting.entry (JS.orDefault (worker p) "unknown") ws) eqn:E.
  - apply entry_updateEntry.
  - destruct (String.eqb_spec (JS.orDefault (worker p) "unknown") W) as [<-|_];
      [rewrite E|]; reflexivity.
Qed.

Lemma fold_visit_entry (W : string) (sel : list Post)
      (ws : list (string * MongoReporting.WorkerStats)) :
  MongoReporting.entry W (fold_left MongoReporting.visit sel ws)
  = option_map
      (fun st =>
         fold_left (fun st p =>
                      if String.eqb (JS.orDefault (worker p) "unknown") W
                      then MongoReporting.account p st else st) sel st)
      (MongoReporting.entry W ws).
Proof.
  revert ws. induction sel as [|p sel IH]; intros ws; simpl.
  - now destruct (MongoReporting.entry W ws).
  - rewrite IH, visit_entry.
    destruct (String.eqb (JS.orDefault (worker p) "unknown") W);
      now destruct (MongoReporting.entry W ws).
Qed.

Lemma listed_worker_owns (W : string) (p : Post) :
  In W MongoReporting.workers ->
  String.eqb (JS.orDefault (worker p) "unknown") W = MongoReporting.owns W p.
Proof.
  intros HW. unfold MongoReporting.owns, JS.orDefault.
  assert (String.eqb "unknown" W = false /\ String.eqb EmptyString W = false)
    as [Hu He]
      by (destruct HW as [<-|[<-|[<-|[]]]]; split; reflexivity).
  destruct (worker p) as [v|]; [|exact Hu].
  destruct (String.eqb_spec v EmptyString) as [->|_]; [|reflexivity].
  now rewrite Hu, He.
Qed.

Lemma fold_account_tally (W : string) (sel : list Post)
      (st : MongoReporting.WorkerStats) :
  fold_left (fun st p => if MongoReporting.owns W p
                         then MongoReporting.account p st else st) sel st
  = MongoReporting.mkWorkerStats
      (MongoReporting.totalTime st + MongoReporting.totalTime (tally W sel))%Z
      (MongoReporting.count st + MongoReporting.count (tally W sel))%nat
      (MongoReporting.approved st + MongoReporting.approved (tally W sel))%nat
      (MongoReporting.rejected st + MongoReporting.rejected (tally W sel))%nat
      (MongoReporting.needs_review st + MongoReporting.needs_review (tally W sel))%nat.
Proof.
  revert st. induction sel as [|p sel IH]; intros st.
  - destruct st. unfold tally, Reporting.countStatus. simpl. f_equal; lia.
  - cbn [fold_left]. rewrite IH. unfold tally. cbn [filter].
    destruct (MongoReporting.owns W p); [|reflexivity].
    rewrite !countStatus_cons. cbn [filter].
    unfold MongoReporting.account.
    destruct (JS.truthyNum (processingTime p));
      destruct (String.eqb (status p) "approved") eqn:Ea;
      destruct (String.eqb (status p) "rejected") eqn:Er;
      destruct (String.eqb (status p) "needs_review") eqn:En;
      cbn [MongoReporting.totalTime MongoReporting.count MongoReporting.approved
           MongoReporting.rejected MongoReporting.needs_review map fold_right
           List.length];
      try (apply String.eqb_eq in Ea; rewrite Ea in Er; discriminate Er);
      try (apply String.eqb_eq in Ea; rewrite Ea in En; discriminate En);
      try (apply String.eqb_eq in Er; rewrite Er in En; discriminate En);
      f_equal; lia.
Qed.

Lemma fold_left_agree {A B : Type} (f g : A -> B -> A) (l : list B) (a : A) :
  (forall x y, f x y = g x y) -> fold_left f l a = fold_left g l a.
Proof.
  intros H. revert a. induction l as [|y l IH]; intros a; simpl;
    [reflexivity | now rewrite H, IH].
Qed.

Lemma listed_worker_entry (W : string) (sel : list Post) :
  In W MongoReporting.workers ->
  MongoReporting.entry W
    (fold_left MongoReporting.visit sel
       (map (fun w => (w, MongoReporting.zeroStats)) MongoReporting.workers))
  = Some (tally W sel).
Proof.
  intros HW. rewrite fold_visit_entry.
  assert (MongoReporting.entry W
            (map (fun w => (w, MongoReporting.zeroStats)) MongoReporting.workers)
          = Some MongoReporting.zeroStats) as ->
      by (destruct HW as [<-|[<-|[<-|[]]]]; reflexivity).
  simpl option_map. f_equal.
  rewrite (fold_left_agree
             (fun st p => if String.eqb (JS.orDefault (worker p) "unknown") W
                          then MongoReporting.account p st else st)
             (fun st p => if MongoReporting.owns W p
                          then MongoReporting.account p st else st)).
  - rewrite fold_account_tally. unfold tally, MongoReporting.zeroStats.
    cbn [MongoReporting.totalTime MongoReporting.count MongoReporting.approved
         MongoReporting.rejected MongoReporting.needs_review Nat.add].
    rewrite Z.add_0_l. reflexivity.
  - intros st p. now rewrite (listed_worker_owns W p HW).
Qed.

Lemma findKeyed_spec (hasKey : nat -> bool) (query : Post -> bool)
      (docs : list Post) (from : nat) (p : Post) :
  In p (MongoReporting.findKeyed hasKey query from docs) <->
  exists j, nth_error docs j = Some p /\ hasKey (from + j)%nat = true /\
            query p = true.
Proof.
  revert from. induction docs as [|d rest IH]; intros from; simpl.
  - split; [contradiction | intros ([|j] & H & _); discriminate].
  - destruct (hasKey from && query d) eqn:E.
    + split.
      * intros [<- | H].
        -- apply andb_true_iff in E as [Hk Hq].
           exists 0%nat. rewrite Nat.add_0_r. auto.
        -- apply IH in H as (j & Hj & Hk & Hq).
           exists (S j). rewrite Nat.add_succ_r. auto.
      * intros ([|j] & Hj & Hk & Hq).
        -- left. now injection Hj.
        -- right. apply IH. exists j. rewrite Nat.add_succ_r in Hk. auto.
    + split.
      * intros H. apply IH in H as (j & Hj & Hk & Hq).
        exists (S j). rewrite Nat.add_succ_r. auto.
      * intros ([|j] & Hj & Hk & Hq).
        -- injection Hj as ->. rewrite Nat.add_0_r in Hk.
           rewrite Hk, Hq in E. discriminate.
        -- apply IH. exists j. rewrite Nat.add_succ_r in Hk. auto.
Qed.

Lemma findKeyed_all (hasKey : nat -> bool) (query : Post -> bool)
      (docs : list Post) (from : nat) :
  (forall i, hasKey i = true) ->
  MongoReporting.findKeyed hasKey query from docs = filter query docs.
Proof.
  intros H. revert from. induction docs as [|d rest IH]; intros from; simpl;
    [reflexivity|].
  rewrite H, IH. reflexivity.
Qed.

(** X10: [/api/processing-times] answers, when the query succeeds, with
    one row per listed worker, in the order worker-1, worker-2, worker-3,
    and with the 500 error when it fails; the store is left as it was.
    The documents counted are those of the period that carry a
    [processingTime] key (all of them, when every document has the key).
    A row counts the worker's documents among these per final status, and
    as [processed] those with a non-zero processing time, so documents of
    no worker or of any other worker count nowhere and no row counts more
    than the worker's documents. *)
Theorem processingTimes_rows (averageText : Z -> nat -> string)
        (startDate : Reporting.Period -> Timestamp) (period : option string)
        (hasKey : nat -> bool) (w : World) :
  let selected :=
    MongoReporting.findKeyed hasKey (MongoReporting.periodQuery startDate period)
      0 (posts w) in
  MongoReporting.processingTimes averageText startDate true hasKey period w
  = (Val (MongoReporting.Times
            (map (fun W => MongoReporting.rowOf averageText W (tally W selected))
                 MongoReporting.workers)), w) /\
  (exists w',
      MongoReporting.processingTimes averageText startDate false hasKey period w
      = (Val (MongoReporting.TimesFailed "Failed to fetch processing times"), w') /\
      posts w' = posts w) /\
  (forall p, In p selected <->
             exists j, nth_error (posts w) j = Some p /\ hasKey j = true /\
                       MongoReporting.periodQuery startDate period p = true) /\
  ((forall i, hasKey i = true) ->
   selected = filter (MongoReporting.periodQuery startDate period) (posts w)) /\
  forall W,
    let mine := filter (MongoReporting.owns W) selected in
    (MongoReporting.approved (tally W selected)
     + MongoReporting.rejected (tally W selected)
     + MongoReporting.needs_review (tally W selected) <= List.length mine)%nat /\
    (MongoReporting.count (tally W selected) <= List.length mine)%nat.
Proof.
  intros selected. split; [|split; [|split; [|split]]].
  - unfold MongoReporting.processingTimes, MongoReporting.findPostsKeyed, tryCatch,
      bind, ret. fold selected.
    f_equal. f_equal. f_equal. apply map_ext_in. intros W HW.
    now rewrite (listed_worker_entry W selected HW).
  - eexists. split; reflexivity.
  - intros p. apply (findKeyed_spec hasKey _ (posts w) 0 p).
  - intros H. apply findKeyed_all, H.
  - intros W mine. unfold tally. fold mine.
    cbn [MongoReporting.approved MongoReporting.rejected
         MongoReporting.needs_review MongoReporting.count].
    split; [|apply filter_shorter].
    pose proof (statusSum_bound mine) as H.
    unfold statusSum, Reporting.computeStats in H.
    cbn [Reporting.approved Reporting.rejected Reporting.pending
         Reporting.processing Reporting.needs_review] in H. lia.
Qed.

Lemma processingTimes_rows_witness :
  let handled :=
    snd (MongoWorker.onMessage Number_toFixed2 "worker-1"
           (MongoWorker.mkRun true 2000%Z 2000%Z (Some (0.2, 0.1, 0.1)%float)
              2007%Z true 2010%Z)
           (Some (Job greatPost)) oneJob) in
  MongoReporting.processingTimes (fun _ _ => "0.0") (fun _ => 0%Z) true
    (fun _ => true) None handled
  = (Val (MongoReporting.Times
            [MongoReporting.mkRow "worker-1" (Some "0.0") 1 1 0 0;
             MongoReporting.mkRow "worker-2" None 0 0 0 0;
             MongoReporting.mkRow "worker-3" None 0 0 0 0]), handled).
Proof.
  exact (proj1 (processingTimes_rows (fun _ _ => "0.0") (fun _ => 0%Z) None
                  (fun _ => true)
                  (snd (MongoWorker.onMessage Number_toFixed2 "worker-1"
                          (MongoWorker.mkRun true 2000%Z 2000%Z
                             (Some (0.2, 0.1, 0.1)%float) 2007%Z true 2010%Z)
                          (Some (Job greatPost)) oneJob)))).
Defined.

(** A document without the [processingTime] key is left out by the query,
    whatever its worker and status. *)
Example keyless_document_is_not_counted :
  MongoReporting.processingTimes (fun _ _ => "0.0") (fun _ => 0%Z) true
    (fun _ => false) None
    (mkWorld [set_worker (Some "worker-1") (set_status "approved" greatPost)] [] [])
  = (Val (MongoReporting.Times
            [MongoReporting.mkRow "worker-1" None 0 0 0 0;
             MongoReporting.mkRow "worker-2" None 0 0 0 0;
             MongoReporting.mkRow "worker-3" None 0 0 0 0]),
     mkWorld [set_worker (Some "worker-1") (set_status "approved" greatPost)] [] []).
Proof. reflexivity. Qed.

(** ** [/api/status] on MongoDB, after a handled message *)

Lemma getStatus_run (channel : bool) (ok : string -> bool) (w : World) :
  (forall V, In V MongoReporting.workers -> ok V = true) ->
  MongoReporting.getStatus channel ok w
  = (Val (MongoReporting.Statuses
            (MongoReporting.mkStatusReport true channel
               (map (fun W =>
                       (W, MongoReporting.workerState
                             (filter (fun p => MongoReporting.owns W p
                                               && String.eqb (status p) "processing")
                                     (posts w))))
                    MongoReporting.workers))), w).
Proof.
  intros H.
  unfold MongoReporting.getStatus, MongoReporting.statusLoop, MongoReporting.workers,
    MongoReporting.findPosts, tryCatch, bind, ret.
  rewrite (H "worker-1"), (H "worker-2"), (H "worker-3")
    by (unfold MongoReporting.workers; simpl; tauto).
  reflexivity.
Qed.

Lemma getStatus_failed (channel : bool) (ok : string -> bool) (w : World) :
  (exists V, In V MongoReporting.workers /\ ok V = false) ->
  MongoReporting.getStatus channel ok w
  = (Val (MongoReporting.StatusFailed "Failed to check status"),
     mkWorld (posts w) (backups w)
             (Console LogError "Error checking status:" :: trace w)).
Proof.
  intros (V & HV & Hf).
  unfold MongoReporting.getStatus, MongoReporting.statusLoop, MongoReporting.workers,
    MongoReporting.findPosts, tryCatch, bind, ret, throw, console, emit.
  destruct (ok "worker-1") eqn:E1; [|reflexivity].
  destruct (ok "worker-2") eqn:E2; [|reflexivity].
  destruct (ok "worker-3") eqn:E3; [|reflexivity].
  destruct HV as [<- | [<- | [<- | []]]]; congruence.
Qed.

Lemma filter_nonempty {A : Type} (f : A -> bool) (l : list A) (x : A) :
  In x l -> f x = true -> (0 <? List.length (filter f l))%nat = true.
Proof.
  intros Hin Hf.
  assert (In x (filter f l)) as H by (apply filter_In; auto).
  destruct (filter f l); [contradiction | reflexivity].
Qed.

Lemma filter_none {A : Type} (f : A -> bool) (l : list A) :
  Forall (fun x => f x = false) l -> filter f l = [].
Proof.
  induction 1 as [|x l Hx _ IH]; simpl; [reflexivity | now rewrite Hx].
Qed.

Lemma state_busy (W : string) (ps : list Post) (q : Post) :
  In W MongoReporting.workers -> In q ps ->
  worker q = Some W -> status q = "processing" ->
  In (W, "busy")
     (map (fun V =>
             (V, MongoReporting.workerState
                   (filter (fun p => MongoReporting.owns V p
                                     && String.eqb (status p) "processing") ps)))
          MongoReporting.workers).
Proof.
  intros HW Hq Hwk Hst.
  apply (in_map (fun V =>
                   (V, MongoReporting.workerState
                         (filter (fun p => MongoReporting.owns V p
                                           && String.eqb (status p) "processing")
                                 ps)))
                MongoReporting.workers W) in HW.
  unfold MongoReporting.workerState in HW at 1.
  rewrite (filter_nonempty _ _ q Hq) in HW; [exact HW|].
  unfold MongoReporting.owns. rewrite Hwk, Hst, String.eqb_refl. reflexivity.
Qed.

Lemma state_idle (W : string) (ps : list Post) :
  In W MongoReporting.workers ->
  Forall (fun p => MongoReporting.owns W p
                   && String.eqb (status p) "processing" = false) ps ->
  In (W, "idle")
     (map (fun V =>
             (V, MongoReporting.workerState
                   (filter (fun p => MongoReporting.owns V p
                                     && String.eqb (status p) "processing") ps)))
          MongoReporting.workers).
Proof.
  intros HW Hall.
  apply (in_map (fun V =>
                   (V, MongoReporting.workerState
                         (filter (fun p => MongoReporting.owns V p
                                           && String.eqb (status p) "processing")
                                 ps)))
                MongoReporting.workers W) in HW.
  rewrite (filter_none _ _ Hall) in HW. exact HW.
Qed.

Section WorkerState.

Variable toFixed2 : float -> string.

(** X11: [/api/status] answers with the 500 error when one of its three
    queries fails, and otherwise reports [server1], the channel flag and a
    state for each of the three listed workers, 'busy' when it owns a post
    in 'processing'.  After a listed worker has handled a job whose
    content is a string (which it acknowledges), it reads 'busy' if the
    'processing' write went through for a stored job and the outcome write
    failed, and 'idle' if the outcome write went through and it owned no
    'processing' post before.  After a job whose content is no string,
    which is not acknowledged, it reads 'busy' whenever the 'processing'
    write went through for a stored job. *)
Theorem worker_state_after_handling
        (W : string) (r : MongoWorker.Run) (post : Post) (w : World)
        (channel : bool) (ok : string -> bool) :
  In W MongoReporting.workers ->
  let w' := snd (MongoWorker.onMessage toFixed2 W r (Some (Job post)) w) in
  let wo := snd (MongoWorker.onMessage toFixed2 W r (Some (OddJob post)) w) in
  hd_error (trace w') = Some (Ack post) /\
  acknowledged (trace wo) = acknowledged (trace w) /\
  ((exists V, In V MongoReporting.workers /\ ok V = false) ->
   exists w'',
     MongoReporting.getStatus channel ok w'
     = (Val (MongoReporting.StatusFailed "Failed to check status"), w'') /\
     posts w'' = posts w') /\
  ((forall V, In V MongoReporting.workers -> ok V = true) ->
   exists rep repo,
     MongoReporting.getStatus channel ok w' = (Val (MongoReporting.Statuses rep), w') /\
     MongoReporting.getStatus channel ok wo = (Val (MongoReporting.Statuses repo), wo) /\
     MongoReporting.server1 rep = true /\ MongoReporting.rabbitmq rep = channel /\
     map fst (MongoReporting.workerStates rep) = MongoReporting.workers /\
     (MongoWorker.ok1 r = true -> MongoWorker.ok2 r = false ->
      In (id post) (map id (posts w)) ->
      In (W, "busy") (MongoReporting.workerStates rep)) /\
     (MongoWorker.ok2 r = true ->
      (forall p, In p (posts w) ->
                 MongoReporting.owns W p && String.eqb (status p) "processing" = false) ->
      In (W, "idle") (MongoReporting.workerStates rep)) /\
     (MongoWorker.ok1 r = true -> In (id post) (map id (posts w)) ->
      In (W, "busy") (MongoReporting.workerStates repo))).
Proof.
  intros HW w' wo.
  destruct (mongo_onMessage_run toFixed2 W r post w)
    as (d & wr & Hd & E & Hack & _ & Hposts & _).
  destruct (mongo_onMessage_odd toFixed2 W r post w)
    as (e & wq & Eo & Hacko & _ & Hpostso & _).
  assert (w' = wr) as Hw' by (unfold w'; rewrite E; reflexivity).
  assert (wo = wq) as Hwo by (unfold wo; rewrite Eo; reflexivity).
  rewrite Hw', Hwo.
  split; [exact Hack|]. split; [exact Hacko|]. split.
  { intros Hf. eexists. split; [apply (getStatus_failed channel ok wr Hf)|].
    reflexivity. }
  intros Hok.
  eexists _, _. split; [apply (getStatus_run channel ok wr Hok)|].
  split; [apply (getStatus_run channel ok wq Hok)|].
  cbn [MongoReporting.server1 MongoReporting.rabbitmq MongoReporting.workerStates].
  split; [reflexivity|]. split; [reflexivity|]. split; [reflexivity|].
  assert (forall ps, In (id post) (map id ps) ->
            exists q,
              In q (committed true (id post)
                      (MongoWorker.buildUpdate (MongoWorker.now1 r) "processing" W
                         None None None None) ps) /\
              worker q = Some W /\ status q = "processing") as Hproc.
  { intros ps Hin.
    destruct (JS.findIndex (fun p => String.eqb (id p) (id post)) ps)
      as [k|] eqn:F; [|apply findIndex_id_none in F; contradiction].
    destruct (committed_written _ _ _ (MongoWorker.now1 r) "processing" W
                None None None None F)
      as (q & Hq & Hst & Hwk & _).
    exists q. split; [exact (nth_error_In _ _ Hq) | auto]. }
  split; [|split].
  - intros H1 H2 Hin. rewrite Hposts, H1, H2.
    change (committed false (id post)
              (MongoWorker.buildUpdate (MongoWorker.now2 r) (d_status d) W
                 (d_moderationDetails d)
                 (Some (MongoWorker.endTime r - MongoWorker.startTime r)%Z)
                 (d_toxicityScore d) (d_reviewReason d)))
      with (fun l : list Post => l). cbv beta.
    destruct (Hproc (posts w) Hin) as (q & Hq & Hwk & Hst).
    apply (state_busy W _ q HW Hq Hwk Hst).
  - intros H2 Hidle. rewrite Hposts, H2, committed_absorb.
    destruct (decision_status_known toFixed2 "" (MongoWorker.api r) (content post)
                emptyWorld)
      as (d' & w2 & E2 & Hst).
    rewrite E2 in Hd. injection Hd as ->.
    apply (state_idle W _ HW).
    apply committed_Forall; [|apply Forall_forall; exact Hidle].
    intros p _. rewrite workerSet_status.
    destruct Hst as [-> | [-> | ->]]; apply andb_false_r.
  - intros H1 Hin. rewrite Hpostso, H1.
    destruct (Hproc (posts w) Hin) as (q & Hq & Hwk & Hst).
    apply (state_busy W _ q HW Hq Hwk Hst).
Qed.

End WorkerState.

Lemma worker_state_after_handling_witness :
  let w' :=
    snd (MongoWorker.onMessage Number_toFixed2 "worker-1"
           (MongoWorker.mkRun true 2000%Z 10%Z (Some (0.2, 0.1, 0.1)%float) 17%Z
              false 3000%Z)
           (Some (Job greatPost)) oneJob) in
  exists rep,
    MongoReporting.getStatus true (fun _ => true) w'
    = (Val (MongoReporting.Statuses rep), w') /\
    hd_error (trace w') = Some (Ack greatPost) /\
    In ("worker-1", "busy") (MongoReporting.workerStates rep).
Proof.
  destruct (worker_state_after_handling Number_toFixed2 "worker-1"
              (MongoWorker.mkRun true 2000%Z 10%Z (Some (0.2, 0.1, 0.1)%float) 17%Z
                 false 3000%Z)
              greatPost oneJob true (fun _ => true) (or_introl eq_refl))
    as (Hack & _ & _ & Hrep).
  destruct (Hrep (fun _ _ => eq_refl))
    as (rep & repo & E & _ & _ & _ & _ & Hbusy & _).
  exists rep. split; [exact E|]. split; [exact Hack|].
  apply Hbusy; [reflexivity | reflexivity | left; reflexivity].
Defined.

(** ** Submission when a step fails *)

(** X12: what a failed submission leaves behind in the file variant.  An
    accepted request is answered 201 exactly when the store and its backup
    were written and the hand-over to the queue, if there is a channel, did
    not throw; in every other case the answer is the 500 error.  Behind a
    500 the store need not be unchanged: when only the backup fails, or
    when the hand-over throws, the new post is already in the store as
    'pending' and nothing has been queued. *)
Theorem file_submit_failures
        (env : FileServer.Env) (req : Request) (w : World) :
  accepted req ->
  let post := newPost (FileServer.uuid env) (FileServer.now env) req in
  let base := if FileServer.readOk env then posts w else [] in
  exists resp w',
    FileServer.submit env req w = (Val resp, w') /\
    (code resp = 201%nat \/
     resp = mkResponse 500 (ErrorJson "Failed to add post")) /\
    (code resp = 201%nat <->
     FileServer.write env = FileServer.WriteOk /\
     (FileServer.channel env = true -> FileServer.sendOk env = true)) /\
    (FileServer.write env = FileServer.WriteFails ->
     posts w' = posts w /\ backups w' = backups w /\
     published (trace w') = published (trace w)) /\
    (FileServer.write env = FileServer.BackupFails ->
     posts w' = (base ++ [post])%list /\ backups w' = backups w /\
     published (trace w') = published (trace w)) /\
    (FileServer.write env = FileServer.WriteOk ->
     FileServer.channel env = true -> FileServer.sendOk env = false ->
     posts w' = (base ++ [post])%list /\
     backups w' = (base ++ [post])%list :: backups w /\
     published (trace w') = published (trace w)).
Proof.
  intros Hacc post base. subst post base. unfold FileServer.submit.
  rewrite (accepted_guard req Hacc).
  unfold FileServer.readPosts, FileServer.writePosts, sendToQueue, tryCatch,
    bind, console, emit, getPosts, putPosts, putBackup, throw, ret.
  destruct env as [u n rd wr ch sd]; cbn [FileServer.uuid FileServer.now
    FileServer.readOk FileServer.write FileServer.channel FileServer.sendOk].
  destruct rd, wr, ch, sd; cbn; eexists; eexists;
    (split; [reflexivity|]);
    cbn [code posts backups trace published flat_map app];
    repeat split; intros; try discriminate; auto;
    try (match goal with
         | H : _ /\ _ |- _ => destruct H as [H1 H2]; try discriminate H1;
                              try (specialize (H2 eq_refl); discriminate H2)
         end).
Qed.

Lemma file_submit_failures_witness :
  exists resp w',
    FileServer.submit
      (FileServer.mkEnv "job-1" 1000%Z true FileServer.BackupFails true true)
      greatRequest emptyWorld = (Val resp, w') /\
    resp = mkResponse 500 (ErrorJson "Failed to add post") /\
    posts w' = [greatPost] /\ backups w' = [] /\ published (trace w') = [].
Proof.
  destruct (file_submit_failures
              (FileServer.mkEnv "job-1" 1000%Z true FileServer.BackupFails true true)
              greatRequest emptyWorld accepted_great)
    as (resp & w' & E & Hresp & Hiff & _ & Hbk & _).
  exists resp, w'. split; [exact E|].
  destruct (Hbk eq_refl) as (Hp & Hb & Hq).
  split; [|split; [exact Hp | split; [exact Hb | exact Hq]]].
  destruct Hresp as [H201 | H500]; [|exact H500].
  apply Hiff in H201. destruct H201 as [Hw _]. discriminate Hw.
Defined.

(** X13: what a failed submission leaves behind on MongoDB.  When the
    insert fails nothing is stored or queued.  When the hand-over to the
    queue throws, the post stays in the collection as 'pending' and is not
    queued.  When the hand-over succeeds and the status update fails, the
    post is stored as 'pending' and has been queued all the same.  Each of
    the three is answered with the 500 error. *)
Theorem mongo_submit_failures
        (env : MongoServer.Env) (req : Request) (w : World) :
  accepted req ->
  let post := newPost (MongoServer.uuid env) (MongoServer.now env) req in
  exists resp w',
    MongoServer.submit env req w = (Val resp, w') /\
    (code resp = 201%nat \/
     resp = mkResponse 500 (ErrorJson "Failed to add post")) /\
    (code resp = 201%nat <->
     MongoServer.insertOk env = true /\
     (MongoServer.channel env = true ->
      MongoServer.sendOk env = true /\ MongoServer.updateOk env = true)) /\
    (MongoServer.insertOk env = false ->
     posts w' = posts w /\ published (trace w') = published (trace w)) /\
    (MongoServer.insertOk env = true -> MongoServer.channel env = true ->
     MongoServer.sendOk env = false ->
     posts w' = (posts w ++ [post])%list /\ status post = "pending" /\
     published (trace w') = published (trace w)) /\
    (MongoServer.insertOk env = true -> MongoServer.channel env = true ->
     MongoServer.sendOk env = true -> MongoServer.updateOk env = false ->
     posts w' = (posts w ++ [post])%list /\ status post = "pending" /\
     published (trace w') = post :: published (trace w)).
Proof.
  intros Hacc post. subst post. unfold MongoServer.submit.
  rewrite (accepted_guard req Hacc).
  destruct env as [u n ins ch sd up]; cbn [MongoServer.uuid MongoServer.now
    MongoServer.insertOk MongoServer.channel MongoServer.sendOk
    MongoServer.updateOk].
  destruct ins, ch, sd, up;
    unfold insertOne, updateOne, sendToQueue, tryCatch, bind, console, emit,
      throw, ret; cbn [posts backups trace];
    try (destruct (updateFirst _ _ (posts w ++ _)%list) as [ds k]);
    eexists; eexists; (split; [reflexivity|]);
    cbn [code posts backups trace published flat_map app];
    repeat split; intros; try discriminate; auto;
    try (match goal with
         | H : _ /\ _ |- _ =>
             destruct H as [H1 H2]; try discriminate H1;
             try (destruct (H2 eq_refl) as [H3 H4];
                  try discriminate H3; try discriminate H4)
         end).
Qed.

Lemma mongo_submit_failures_witness :
  exists resp w',
    MongoServer.submit (MongoServer.mkEnv "job-1" 1000%Z true true true false)
      greatRequest emptyWorld = (Val resp, w') /\
    resp = mkResponse 500 (ErrorJson "Failed to add post") /\
    posts w' = [greatPost] /\ published (trace w') = [greatPost].
Proof.
  destruct (mongo_submit_failures
              (MongoServer.mkEnv "job-1" 1000%Z true true true false)
              greatRequest emptyWorld accepted_great)
    as (resp & w' & E & Hresp & Hiff & _ & _ & Hup).
  exists resp, w'. split; [exact E|].
  destruct (Hup eq_refl eq_refl eq_refl eq_refl) as (Hp & _ & Hq).
  split; [|split; [exact Hp | exact Hq]].
  destruct Hresp as [H201 | H500]; [|exact H500].
  apply Hiff in H201. destruct H201 as [_ Hc].
  destruct (Hc eq_refl) as [_ Hu]. discriminate Hu.
Defined.
